(** * lola: the installation registry and the install / update / uninstall flows

    A shallow embedding of [lola/config.py], [lola/core/installer.py] and
    [lola/cli/install.py].  Python functions with effects become functions
    in a small state-and-exception monad over a [World] made of the file
    tree, the installation registry, the console and the replies typed at
    prompts.  The standard library ([pathlib], [shutil], [click]) and the
    collaborators that live outside these three files are the fields of the
    classes [PathLib] and [Platform]; every theorem holds for every
    platform, and [Sim] is one small platform on which the flows are run
    on concrete inputs. *)

From Stdlib Require Import String Ascii List Bool Arith Lia DecimalString.
Import ListNotations.
Open Scope string_scope.

(** ** Python values *)

(** A [pathlib.Path] is kept as its string form ([str(path)]): two paths
    are equal exactly when their string forms are. *)
Definition Path := string.

(** Exceptions that travel through the modelled code. *)
Inductive exn : Type :=
| ValueError (msg : string)
| SystemExit (code : nat)
| ClickAbort
| OSError (msg : string).

Inductive outcome (A : Type) : Type :=
| Ret (a : A)
| Raise (e : exn).
Arguments Ret {A} a.
Arguments Raise {A} e.

(** Truth value of an [Optional[str]]: [None] and the empty string are false. *)
Definition truthy (o : option string) : bool :=
  match o with
  | Some s => negb (s =? "")
  | None => false
  end.

(** Truth value of a list: empty is false. *)
Definition nonempty {A : Type} (l : list A) : bool :=
  match l with
  | [] => false
  | _ :: _ => true
  end.

(** [s.startswith(prefix)] *)
Definition startswith (s prefix : string) : bool := String.prefix prefix s.

(** [s[n:]] *)
Fixpoint slice_from (n : nat) (s : string) : string :=
  match n, s with
  | O, _ => s
  | S n', EmptyString => EmptyString
  | S n', String _ s' => slice_from n' s'
  end.

(** [str(n)] for a length. *)
Definition str_of_nat (n : nat) : string := NilEmpty.string_of_uint (Nat.to_uint n).

(** [repr] of a list of plain strings, as in an f-string: ['a', 'b']. *)
Definition repr_list (l : list string) : string :=
  "[" ++ String.concat ", " (map (fun s => "'" ++ s ++ "'") l) ++ "]".

(** Lookup in a dict kept as an association list in insertion order. *)
Fixpoint dict_get {V : Type} (k : string) (d : list (string * V)) : option V :=
  match d with
  | [] => None
  | (k', v) :: d' => if k' =? k then Some v else dict_get k d'
  end.

(** ** The naming scheme

    [installer.py] builds [f"{module.name}-{skill_name}"]; [update_cmd]
    undoes it with [startswith] and a slice, and keeps the name as it is
    when the prefix is not there. *)

Definition prefixed_name (module_name skill_name : string) : string :=
  module_name ++ "-" ++ skill_name.

Definition original_skill (module_name prefixed_skill : string) : string :=
  let prefix := module_name ++ "-" in
  if startswith prefixed_skill prefix
  then slice_from (String.length prefix) prefixed_skill
  else prefixed_skill.

(** ** Data model ([lola.models]) *)

Module Models.

(** The part of [lola.models.Module] the installer reads: a name, a
    path, the skill items and the command names. *)
Record Module : Type := mkModule {
  name : string;
  path : Path;
  skills : list string;
  commands : list string
}.

(** Modelled from the spec: [lola/models.py] is not among the sources.  An
    installation record has the six fields of section 3; [project_path] is
    an [Optional[str]].  Its [skills] and [commands] are [inst_skills] and
    [inst_commands] here, apart from those of [Module]. *)
Record Installation : Type := mkInstallation {
  module_name : string;
  assistant : string;
  scope : string;
  project_path : option string;
  inst_skills : list string;
  inst_commands : list string
}.

Definition opt_eqb (a b : option string) : bool :=
  match a, b with
  | Some x, Some y => x =? y
  | None, None => true
  | _, _ => false
  end.

(** The uniqueness tuple (module, assistant, scope, project). *)
Definition same_key (m a s : string) (p : option string) (i : Installation) : bool :=
  (module_name i =? m) && (assistant i =? a) && (scope i =? s) && opt_eqb (project_path i) p.

(** Modelled from the spec: [InstallationRegistry.add] of the absent
    [lola/models.py]: "upserts by the uniqueness tuple; replaces any prior
    record for that tuple wholesale". *)
Definition registry_add (inst : Installation) (reg : list Installation) : list Installation :=
  (filter (fun i => negb (same_key (module_name inst) (assistant inst) (scope inst)
                                   (project_path inst) i)) reg ++ [inst])%list.

(** Modelled from the spec: [InstallationRegistry.find(module_name)] of the
    absent [lola/models.py]: the records of that module, in insertion order. *)
Definition registry_find (m : string) (reg : list Installation) : list Installation :=
  filter (fun i => module_name i =? m) reg.

(** Modelled from the spec: [InstallationRegistry.remove] of the absent
    [lola/models.py]: "deletes the matching record if present; no-op
    otherwise". *)
Definition registry_remove (m a s : string) (p : option string)
    (reg : list Installation) : list Installation :=
  filter (fun i => negb (same_key m a s p i)) reg.

End Models.
Import Models.

(** ** The platform: standard library and collaborators *)

(** [pathlib] without the file tree, and the process environment. *)
Class PathLib : Type := {
  (** [Path.home()] and [os.environ.get('LOLA_HOME')] *)
  home : Path;
  env_LOLA_HOME : option string;
  (** [Path(s)], [p / s], [Path(s).name] *)
  PathOf : string -> Path;
  joinpath : Path -> string -> Path;
  name_of : string -> string
}.

(** The file tree with its operations, and the functions that the three
    modelled files import from the rest of the package. *)
Class Platform : Type := {
  FS : Type;
  (** [p.resolve()], [p.exists()], [p.is_symlink()] *)
  resolve : FS -> Path -> Path;
  exists_ : FS -> Path -> bool;
  is_symlink : FS -> Path -> bool;
  (** [p.unlink()], [p.mkdir(parents=True, exist_ok=True)],
      [shutil.rmtree(p)], [shutil.copytree(src, dst)] *)
  unlink : Path -> FS -> outcome unit * FS;
  mkdir_parents : Path -> FS -> outcome unit * FS;
  rmtree : Path -> FS -> outcome unit * FS;
  copytree : Path -> Path -> FS -> outcome unit * FS;
  (** [lola.config.get_assistant_command_path], absent from [config.py] *)
  get_assistant_command_path : string -> string -> option string -> outcome Path;
  (** [lola.core.generator] *)
  generate_claude_skill : Path -> Path -> FS -> outcome bool * FS;
  generate_cursor_rule : Path -> Path -> string -> option string -> FS -> outcome bool * FS;
  generate_claude_command : Path -> Path -> string -> string -> FS -> outcome bool * FS;
  generate_cursor_command : Path -> Path -> string -> string -> FS -> outcome bool * FS;
  generate_gemini_command : Path -> Path -> string -> string -> FS -> outcome bool * FS;
  get_skill_description : FS -> Path -> outcome string;
  update_gemini_md :
    Path -> string -> list (string * string * Path) -> option string -> FS -> outcome unit * FS;
  remove_gemini_skills : Path -> string -> FS -> outcome bool * FS;
  (** [lola.command_converters], [lola.utils], [lola.models.Module] *)
  get_command_filename : string -> string -> string -> string;
  get_local_modules_path : option string -> Path;
  ensure_lola_dirs : FS -> outcome unit * FS;
  Module_from_path : FS -> Path -> outcome (option Module);
  Module_validate : FS -> Module -> outcome (bool * list string)
}.

Notation "p // s" := (joinpath p s) (at level 40, left associativity).

(** ** [lola/config.py] *)

Module Config.
Section Config.
Context {L : PathLib}.

Definition LOLA_HOME : Path :=
  match env_LOLA_HOME with
  | Some s => PathOf s
  | None => PathOf (home // ".lola")
  end.

Definition MODULES_DIR : Path := LOLA_HOME // "modules".

Definition INSTALLED_FILE : Path := LOLA_HOME // "installed.yml".

(** Each entry: the user-scope location and the project-scope function. *)
Definition ASSISTANTS : list (string * (Path * (string -> Path))) :=
  [ ("claude-code",
      (home // ".claude" // "skills", fun path => PathOf path // ".claude" // "skills"));
    ("gemini-cli",
      (home // ".gemini" // "GEMINI.md", fun path => PathOf path // "GEMINI.md"));
    ("cursor",
      (home // ".cursor" // "rules", fun path => PathOf path // ".cursor" // "rules")) ].

Definition ASSISTANTS_keys : list string := map fst ASSISTANTS.

Definition get_assistant_skill_path (assistant scope : string)
    (project_path : option string) : outcome Path :=
  match dict_get assistant ASSISTANTS with
  | None =>
      Raise (ValueError ("Unknown assistant: " ++ assistant ++ ". Supported: "
                         ++ repr_list ASSISTANTS_keys))
  | Some (user_path, project_fn) =>
      if scope =? "project" then
        match project_path with
        | Some p =>
            if truthy project_path then Ret (project_fn p)
            else Raise (ValueError "Project path required for project scope")
        | None => Raise (ValueError "Project path required for project scope")
        end
      else Ret user_path
  end.

(** Modelled from the spec: [get_assistant_command_path] is imported from
    [lola.config] but missing from [config.py]; section 4.2 says it
    "always succeeds for a known assistant".  The location itself is left
    to [command_location]; an unknown assistant is refused the way
    [get_assistant_skill_path] refuses it. *)
Definition resolveCommandPath (command_location : string -> string -> option string -> Path)
    (assistant scope : string) (project_path : option string) : outcome Path :=
  match dict_get assistant ASSISTANTS with
  | None =>
      Raise (ValueError ("Unknown assistant: " ++ assistant ++ ". Supported: "
                         ++ repr_list ASSISTANTS_keys))
  | Some _ => Ret (command_location assistant scope project_path)
  end.

End Config.
End Config.

(** ** The world and the command monad *)

Section World.
Context {P : Platform}.

(** What reaches the terminal: a line given to [console.print], or the
    question of a [click.confirm]. *)
Inductive Event : Type :=
| Print (line : string)
| Confirm (text : string).

(** The registry document is kept apart from the file tree: its only
    writers are [registry.add] and [registry.remove]. *)
Record World : Type := mkWorld {
  fs : FS;
  registry : list Installation;
  console : list Event;
  replies : list bool
}.

(** State persists when an exception is raised, as in Python. *)
Definition Cmd (A : Type) : Type := World -> outcome A * World.

Definition ret {A : Type} (a : A) : Cmd A := fun w => (Ret a, w).

Definition raise {A : Type} (e : exn) : Cmd A := fun w => (Raise e, w).

Definition bind {A B : Type} (c : Cmd A) (k : A -> Cmd B) : Cmd B :=
  fun w =>
    match c w with
    | (Ret a, w') => k a w'
    | (Raise e, w') => (Raise e, w')
    end.

End World.

Declare Scope cmd_scope.
Delimit Scope cmd_scope with cmd.
Notation "x <- c ;; k" := (bind c (fun x => k))
  (at level 61, c at next level, right associativity) : cmd_scope.
Notation "' pat <- c ;; k" := (bind c (fun x => match x with pat => k end))
  (at level 61, pat pattern, c at next level, right associativity) : cmd_scope.
Notation "c ;; k" := (bind c (fun _ => k))
  (at level 61, right associativity) : cmd_scope.
Open Scope cmd_scope.

Section Primitives.
Context {P : Platform}.

(** [console.print(line)]; [console.print()] is [console_print ""]. *)
Definition console_print (line : string) : Cmd unit :=
  fun w => (Ret tt, mkWorld (fs w) (registry w) (console w ++ [Print line])%list (replies w)).

(** [click.confirm(text)]: shows the question and reads a reply; with no
    reply left (end of input) click raises [Abort]. *)
Definition click_confirm (text : string) : Cmd bool :=
  fun w =>
    let shown := (console w ++ [Confirm text])%list in
    match replies w with
    | [] => (Raise ClickAbort, mkWorld (fs w) (registry w) shown [])
    | b :: rest => (Ret b, mkWorld (fs w) (registry w) shown rest)
    end.

(** An operation of the file tree. *)
Definition on_fs {A : Type} (op : FS -> outcome A * FS) : Cmd A :=
  fun w =>
    let (r, f) := op (fs w) in
    (r, mkWorld f (registry w) (console w) (replies w)).

(** A query of the file tree. *)
Definition read_fs {A : Type} (q : FS -> A) : Cmd A :=
  fun w => (Ret (q (fs w)), w).

(** A query of the file tree that may raise. *)
Definition try_read_fs {A : Type} (q : FS -> outcome A) : Cmd A :=
  fun w => (q (fs w), w).

(** [registry.all()] *)
Definition registry_all : Cmd (list Installation) :=
  fun w => (Ret (registry w), w).

(** A mutating call on the registry, written through to its document. *)
Definition registry_write (f : list Installation -> list Installation) : Cmd unit :=
  fun w => (Ret tt, mkWorld (fs w) (f (registry w)) (console w) (replies w)).

(** [for x in l: body(x)] *)
Fixpoint for_each {A : Type} (l : list A) (body : A -> Cmd unit) : Cmd unit :=
  match l with
  | [] => ret tt
  | x :: l' => body x ;; for_each l' body
  end.

(** A [for] loop that updates local variables [acc]. *)
Fixpoint for_acc {A S : Type} (l : list A) (acc : S) (body : S -> A -> Cmd S) : Cmd S :=
  match l with
  | [] => ret acc
  | x :: l' => acc' <- body acc x ;; for_acc l' acc' body
  end.

End Primitives.

(** ** [lola/core/installer.py] *)

Module Installer.
Section Installer.
Context {L : PathLib} {P : Platform}.
Import Config.

Definition copy_module_to_local (module : Module) (local_modules_path : Path) : Cmd Path :=
  let dest := local_modules_path // name module in
  same <- read_fs (fun f => resolve f dest =? resolve f (path module)) ;;
  if same then ret dest
  else
    on_fs (mkdir_parents local_modules_path) ;;
    present <- read_fs (fun f => is_symlink f dest || exists_ f dest) ;;
    (if present then
       link <- read_fs (fun f => is_symlink f dest) ;;
       if link then on_fs (unlink dest) else on_fs (rmtree dest)
     else ret tt) ;;
    on_fs (copytree (path module) dest) ;;
    ret dest.

(** Lines 121-137: the gemini-cli branch.  The loop only reads the file
    tree; [update_gemini_md] is called after it, once, when at least one
    source was found. *)
Definition install_gemini_skills (module : Module) (local_module_path skill_dest : Path)
    (project_path : option string) : Cmd (list string) :=
  '(gemini_skills, installed_skills) <-
    for_acc (skills module) ([], [])
      (fun '(gemini_skills, installed_skills) skill_rel =>
         let skill_name := name_of skill_rel in
         let source := local_module_path // skill_name in
         let prefixed := prefixed_name (name module) skill_name in
         found <- read_fs (fun f => exists_ f source) ;;
         if found then
           description <- try_read_fs (fun f => get_skill_description f source) ;;
           console_print ("  [green]" ++ prefixed ++ "[/green]") ;;
           ret ((gemini_skills ++ [(skill_name, description, source)])%list,
                (installed_skills ++ [prefixed])%list)
         else
           console_print ("  [red]" ++ skill_name ++ "[/red] (source not found)") ;;
           ret (gemini_skills, installed_skills)) ;;
  (if nonempty gemini_skills
   then on_fs (update_gemini_md skill_dest (name module) gemini_skills project_path)
   else ret tt) ;;
  ret installed_skills.

(** Lines 139-156: claude-code and cursor, one artifact per skill. *)
Definition install_file_skills (module : Module) (assistant : string)
    (local_module_path skill_dest : Path) (project_path : option string) : Cmd (list string) :=
  for_acc (skills module) []
    (fun installed_skills skill_rel =>
       let skill_name := name_of skill_rel in
       let source := local_module_path // skill_name in
       let prefixed := prefixed_name (name module) skill_name in
       success <-
         (if assistant =? "cursor"
          then on_fs (generate_cursor_rule source skill_dest prefixed project_path)
          else
            let dest := skill_dest // prefixed in
            on_fs (generate_claude_skill source dest)) ;;
       if success then
         console_print ("  [green]" ++ prefixed ++ "[/green]") ;;
         ret (installed_skills ++ [prefixed])%list
       else
         console_print ("  [red]" ++ skill_name ++ "[/red] (source not found)") ;;
         ret installed_skills).

(** Lines 112-156: the skills when they are not skipped: resolve the
    destination, then install per assistant.  A [Path] is always true in
    Python, so [if skill_dest:] asks whether the resolution succeeded. *)
Definition install_skills_to_dest (module : Module) (assistant scope : string)
    (project_path : option string) (local_module_path : Path) : Cmd (list string) :=
  skill_dest <-
    match get_assistant_skill_path assistant scope project_path with
    | Ret p => ret (Some p)
    | Raise (ValueError e) => console_print ("[red]" ++ e ++ "[/red]") ;; ret None
    | Raise e => raise e
    end ;;
  match skill_dest with
  | Some skill_dest =>
      console_print ("[bold]" ++ assistant ++ "[/bold] skills -> " ++ skill_dest) ;;
      if assistant =? "gemini-cli"
      then install_gemini_skills module local_module_path skill_dest project_path
      else install_file_skills module assistant local_module_path skill_dest project_path
  | None => ret []
  end.

(** Lines 96-156: the skills of the module; returns [installed_skills]. *)
Definition install_skills (module : Module) (assistant scope : string)
    (project_path : option string) (local_module_path : Path) : Cmd (list string) :=
  if nonempty (skills module) then
    (* Gemini CLI can only read skill files within the project workspace *)
    skipped_gemini <-
      (if (assistant =? "gemini-cli") && (scope =? "user") then
         console_print ("[yellow]" ++ assistant
                        ++ "[/yellow] skills -> skipped (user scope not supported)") ;;
         console_print "  Gemini CLI skills can only read files within project directories." ;;
         ret true
       else ret false) ;;
    (* Cursor only supports project-level rules for skills *)
    skills_skipped <-
      (if (assistant =? "cursor") && (scope =? "user") then
         console_print ("[yellow]" ++ assistant
                        ++ "[/yellow] skills -> skipped (user scope not supported)") ;;
         console_print "  Cursor only supports project-level rules for skills." ;;
         ret true
       else ret skipped_gemini) ;;
    if negb skills_skipped
    then install_skills_to_dest module assistant scope project_path local_module_path
    else ret []
  else ret [].

(** Lines 158-184: the commands of the module, for every assistant and
    scope; returns [installed_commands]. *)
Definition install_commands (module : Module) (assistant scope : string)
    (project_path : option string) (local_module_path : Path) : Cmd (list string) :=
  if nonempty (commands module) then
    command_dest <-
      match get_assistant_command_path assistant scope project_path with
      | Ret p => ret (Some p)
      | Raise (ValueError e) => console_print ("[red]Commands: " ++ e ++ "[/red]") ;; ret None
      | Raise e => raise e
      end ;;
    match command_dest with
    | Some command_dest =>
        console_print ("[bold]" ++ assistant ++ "[/bold] commands -> " ++ command_dest) ;;
        let commands_dir := local_module_path // "commands" in
        for_acc (commands module) []
          (fun installed_commands cmd_name =>
             let source := commands_dir // (cmd_name ++ ".md") in
             success <-
               (if assistant =? "gemini-cli"
                then on_fs (generate_gemini_command source command_dest cmd_name (name module))
                else if assistant =? "cursor"
                then on_fs (generate_cursor_command source command_dest cmd_name (name module))
                else on_fs (generate_claude_command source command_dest cmd_name (name module))) ;;
             if success then
               console_print ("  [green]/" ++ name module ++ "-" ++ cmd_name ++ "[/green]") ;;
               ret (installed_commands ++ [cmd_name])%list
             else
               console_print ("  [red]" ++ cmd_name ++ "[/red] (source not found)") ;;
               ret installed_commands)
    | None => ret []
    end
  else ret [].

Definition install_to_assistant (module : Module) (assistant scope : string)
    (project_path : option string) (local_modules : Path) : Cmd nat :=
  local_module_path <- copy_module_to_local module local_modules ;;
  installed_skills <- install_skills module assistant scope project_path local_module_path ;;
  installed_commands <- install_commands module assistant scope project_path local_module_path ;;
  (if nonempty installed_skills || nonempty installed_commands then
     let installation :=
       mkInstallation (name module) assistant scope project_path
                      installed_skills installed_commands in
     registry_write (registry_add installation)
   else ret tt) ;;
  ret (length installed_skills + length installed_commands).

End Installer.
End Installer.

(** ** [lola/cli/install.py] *)

Module Cli.
Section Cli.
Context {L : PathLib} {P : Platform}.
Import Config Installer.

(** Lines 69-79: "Validate project path for project scope"; returns the
    [project_path] the rest of [install_cmd] works with. *)
Definition validate_project_path (scope : string) (project_path : option string)
    : Cmd (option string) :=
  if scope =? "project" then
    match (if truthy project_path then project_path else None) with
    | None =>
        console_print "[red]Project path required for project scope[/red]" ;;
        console_print "Usage: lola install <module> -s project <path/to/project>" ;;
        raise (SystemExit 1)
    | Some given =>
        resolved <- read_fs (fun f => resolve f (PathOf given)) ;;
        found <- read_fs (fun f => exists_ f (PathOf resolved)) ;;
        if negb found then
          console_print ("[red]Project path does not exist: " ++ resolved ++ "[/red]") ;;
          raise (SystemExit 1)
        else ret (Some resolved)
    end
  else ret project_path.

Definition install_cmd (module_name : string) (assistant : option string) (scope : string)
    (project_path : option string) : Cmd unit :=
  on_fs ensure_lola_dirs ;;
  project_path <- validate_project_path scope project_path ;;
  (* Find module in global registry *)
  let module_path := MODULES_DIR // module_name in
  found <- read_fs (fun f => exists_ f module_path) ;;
  if negb found then
    console_print ("[red]Module '" ++ module_name ++ "' not found in registry[/red]") ;;
    console_print "Use 'lola mod ls' to see available modules" ;;
    console_print "Use 'lola mod add <source>' to add a module" ;;
    raise (SystemExit 1)
  else
  loaded <- try_read_fs (fun f => Module_from_path f module_path) ;;
  match loaded with
  | None =>
      console_print "[red]Invalid module: no .lola/module.yml found[/red]" ;;
      raise (SystemExit 1)
  | Some module =>
  (* Validate module structure and skill files *)
  '(is_valid, errors) <- try_read_fs (fun f => Module_validate f module) ;;
  if negb is_valid then
    console_print ("[red]Module '" ++ module_name ++ "' has validation errors:[/red]") ;;
    for_each errors (fun err => console_print ("  [red]- " ++ err ++ "[/red]")) ;;
    raise (SystemExit 1)
  else
  if negb (nonempty (skills module)) && negb (nonempty (commands module)) then
    console_print ("[yellow]Module '" ++ module_name
                   ++ "' has no skills or commands defined[/yellow]")
  else
  (* Get paths and registry *)
  let local_modules := get_local_modules_path project_path in
  (* Determine which assistants to install to *)
  let assistants_to_install :=
    match (if truthy assistant then assistant else None) with
    | Some a => [a]
    | None => ASSISTANTS_keys
    end in
  console_print ("[bold]Installing '" ++ module_name ++ "'[/bold]") ;;
  console_print ("  Scope: " ++ scope) ;;
  (match (if truthy project_path then project_path else None) with
   | Some p => console_print ("  Project: " ++ p)
   | None => ret tt
   end) ;;
  console_print "" ;;
  total_installed <-
    for_acc assistants_to_install 0
      (fun total_installed asst =>
         n <- install_to_assistant module asst scope project_path local_modules ;;
         console_print "" ;;
         ret (total_installed + n)) ;;
  console_print ("[bold green]Installed to " ++ str_of_nat (length assistants_to_install)
                 ++ " assistant(s)[/bold green]")
  end.

(** Lines 212-238: "Remove skill files" for one record. *)
Definition remove_skill_files (module_name : string) (inst : Installation) : Cmd unit :=
  if nonempty (inst_skills inst) then
    skill_dest <-
      match get_assistant_skill_path (assistant inst) (scope inst) (project_path inst) with
      | Ret p => ret (Some p)
      | Raise (ValueError _) =>
          console_print ("[red]Cannot determine skill path for " ++ assistant inst ++ "/"
                         ++ scope inst ++ "[/red]") ;;
          ret None
      | Raise e => raise e
      end ;;
    match skill_dest with
    | Some skill_dest =>
        if assistant inst =? "gemini-cli" then
          (* Remove entries from GEMINI.md *)
          removed <- on_fs (remove_gemini_skills skill_dest module_name) ;;
          if removed
          then console_print ("[green]Removed skills from: " ++ skill_dest ++ "[/green]")
          else ret tt
        else if assistant inst =? "cursor" then
          (* Remove .mdc files *)
          for_each (inst_skills inst) (fun skill_name =>
            let mdc_file := skill_dest // (skill_name ++ ".mdc") in
            found <- read_fs (fun f => exists_ f mdc_file) ;;
            if found then
              on_fs (unlink mdc_file) ;;
              console_print ("[green]Removed: " ++ mdc_file ++ "[/green]")
            else ret tt)
        else
          (* Remove skill directories (claude-code) *)
          for_each (inst_skills inst) (fun skill_name =>
            let skill_dir := skill_dest // skill_name in
            found <- read_fs (fun f => exists_ f skill_dir) ;;
            if found then
              on_fs (rmtree skill_dir) ;;
              console_print ("[green]Removed: " ++ skill_dir ++ "[/green]")
            else ret tt)
    | None => ret tt
    end
  else ret tt.

(** Lines 240-254: "Remove command files" for one record. *)
Definition remove_command_files (module_name : string) (inst : Installation) : Cmd unit :=
  if nonempty (inst_commands inst) then
    command_dest <-
      match get_assistant_command_path (assistant inst) (scope inst) (project_path inst) with
      | Ret p => ret (Some p)
      | Raise (ValueError _) =>
          console_print ("[red]Cannot determine command path for " ++ assistant inst ++ "/"
                         ++ scope inst ++ "[/red]") ;;
          ret None
      | Raise e => raise e
      end ;;
    match command_dest with
    | Some command_dest =>
        for_each (inst_commands inst) (fun cmd_name =>
          let filename := get_command_filename (assistant inst) module_name cmd_name in
          let cmd_file := command_dest // filename in
          found <- read_fs (fun f => exists_ f cmd_file) ;;
          if found then
            on_fs (unlink cmd_file) ;;
            console_print ("[green]Removed: " ++ cmd_file ++ "[/green]")
          else ret tt)
    | None => ret tt
    end
  else ret tt.

(** Lines 256-266: the project-local module copy of a project-scope record. *)
Definition remove_local_copy (module_name : string) (inst : Installation) : Cmd unit :=
  if (scope inst =? "project") && truthy (project_path inst) then
    let local_modules := get_local_modules_path (project_path inst) in
    let source_module := local_modules // module_name in
    link <- read_fs (fun f => is_symlink f source_module) ;;
    if link then
      on_fs (unlink source_module) ;;
      console_print ("[green]Removed symlink: " ++ source_module ++ "[/green]")
    else
      found <- read_fs (fun f => exists_ f source_module) ;;
      if found then
        (* Handle legacy copies *)
        on_fs (rmtree source_module) ;;
        console_print ("[green]Removed: " ++ source_module ++ "[/green]")
      else ret tt
  else ret tt.

(** Lines 211-274: the body of the "Uninstall each" loop. *)
Definition uninstall_one (module_name : string) (inst : Installation) : Cmd unit :=
  remove_skill_files module_name inst ;;
  remove_command_files module_name inst ;;
  remove_local_copy module_name inst ;;
  (* Remove from registry *)
  registry_write
    (registry_remove module_name (assistant inst) (scope inst) (project_path inst)).

(** Lines 172-179: the records left by the three optional filters. *)
Definition uninstall_matches (f : FS) (assistant scope project_path : option string)
    (installations : list Installation) : list Installation :=
  let installations :=
    match (if truthy assistant then assistant else None) with
    | Some a => filter (fun i => Models.assistant i =? a) installations
    | None => installations
    end in
  let installations :=
    match (if truthy scope then scope else None) with
    | Some s => filter (fun i => Models.scope i =? s) installations
    | None => installations
    end in
  match (if truthy project_path then project_path else None) with
  | Some p =>
      let project_path := resolve f (PathOf p) in
      filter (fun i => opt_eqb (Models.project_path i) (Some project_path)) installations
  | None => installations
  end.

(** Lines 189-196: one record of the "what will be uninstalled" listing. *)
Definition show_installation (inst : Installation) : Cmd unit :=
  console_print ("  - " ++ assistant inst ++ " (" ++ scope inst ++ ")") ;;
  (match (if truthy (project_path inst) then project_path inst else None) with
   | Some p => console_print ("    Project: " ++ p)
   | None => ret tt
   end) ;;
  (if nonempty (inst_skills inst)
   then console_print ("    Skills: " ++ String.concat ", " (inst_skills inst))
   else ret tt) ;;
  (if nonempty (inst_commands inst)
   then console_print ("    Commands: " ++ String.concat ", " (inst_commands inst))
   else ret tt).

(** Lines 200-208: "Confirm if multiple installations and not forced";
    returns whether to go on. *)
Definition confirm_uninstall (force : bool) (installations : list Installation) : Cmd bool :=
  if Nat.ltb 1 (length installations) && negb force then
    console_print "[yellow]Multiple installations found.[/yellow]" ;;
    console_print "Use -a <assistant> and -s <scope> to target specific installation," ;;
    console_print "or use -f/--force to uninstall all." ;;
    yes <- click_confirm "Uninstall all?" ;;
    if negb yes then console_print "[yellow]Cancelled[/yellow]" ;; ret false
    else ret true
  else ret true.

(** Lines 181-277: what [uninstall_cmd] does with the records that are
    left after the filters. *)
Definition uninstall_selected (module_name : string) (force : bool)
    (installations : list Installation) : Cmd unit :=
  if negb (nonempty installations) then
    console_print "[yellow]No matching installations found[/yellow]"
  else
  (* Show what will be uninstalled *)
  console_print ("[bold]Found " ++ str_of_nat (length installations)
                 ++ " installation(s) of '" ++ module_name ++ "':[/bold]") ;;
  console_print "" ;;
  for_each installations show_installation ;;
  console_print "" ;;
  go <- confirm_uninstall force installations ;;
  if negb go then ret tt
  else
  (* Uninstall each *)
  for_each installations (uninstall_one module_name) ;;
  console_print "" ;;
  console_print ("[bold green]Uninstalled '" ++ module_name ++ "'[/bold green]").

Definition uninstall_cmd (module_name : string) (assistant scope project_path : option string)
    (force : bool) : Cmd unit :=
  on_fs ensure_lola_dirs ;;
  all <- registry_all ;;
  let installations := registry_find module_name all in
  if negb (nonempty installations) then
    console_print ("[yellow]No installations found for '" ++ module_name ++ "'[/yellow]")
  else
  (* Filter by assistant/scope if provided *)
  installations <-
    read_fs (fun f => uninstall_matches f assistant scope project_path installations) ;;
  uninstall_selected module_name force installations.

(** Lines 376-394: the gemini-cli branch of "Update skills". *)
Definition update_gemini_skills (inst : Installation) (source_module skill_dest : Path)
    : Cmd unit :=
  gemini_skills <-
    for_acc (inst_skills inst) []
      (fun gemini_skills prefixed_skill =>
         (* Extract original skill name by removing module prefix *)
         let original_skill := original_skill (module_name inst) prefixed_skill in
         let source := source_module // original_skill in
         found <- read_fs (fun f => exists_ f source) ;;
         if found then
           description <- try_read_fs (fun f => get_skill_description f source) ;;
           console_print ("  [green]" ++ prefixed_skill ++ "[/green]") ;;
           ret (gemini_skills ++ [(original_skill, description, source)])%list
         else
           console_print ("  [red]" ++ original_skill ++ "[/red] (source not found)") ;;
           ret gemini_skills) ;;
  if nonempty gemini_skills
  then on_fs (update_gemini_md skill_dest (module_name inst) gemini_skills (project_path inst))
  else ret tt.

(** Lines 396-415: claude-code and cursor in "Update skills". *)
Definition update_file_skills (inst : Installation) (source_module skill_dest : Path)
    : Cmd unit :=
  for_each (inst_skills inst) (fun prefixed_skill =>
    (* Extract original skill name by removing module prefix *)
    let original_skill := original_skill (module_name inst) prefixed_skill in
    let source := source_module // original_skill in
    success <-
      (if assistant inst =? "cursor"
       then on_fs (generate_cursor_rule source skill_dest prefixed_skill (project_path inst))
       else
         let dest := skill_dest // prefixed_skill in
         on_fs (generate_claude_skill source dest)) ;;
    if success
    then console_print ("  [green]" ++ prefixed_skill ++ "[/green]")
    else console_print ("  [red]" ++ original_skill ++ "[/red] (source not found)")).

(** Lines 417-440: "Update commands". *)
Definition update_commands (inst : Installation) (source_module : Path) : Cmd unit :=
  if nonempty (inst_commands inst) then
    command_dest <-
      match get_assistant_command_path (assistant inst) (scope inst) (project_path inst) with
      | Ret p => ret (Some p)
      | Raise (ValueError _) =>
          console_print "  [red]Cannot determine command path[/red]" ;; ret None
      | Raise e => raise e
      end ;;
    match command_dest with
    | Some command_dest =>
        let commands_dir := source_module // "commands" in
        for_each (inst_commands inst) (fun cmd_name =>
          let source := commands_dir // (cmd_name ++ ".md") in
          success <-
            (if assistant inst =? "gemini-cli"
             then on_fs (generate_gemini_command source command_dest cmd_name (module_name inst))
             else if assistant inst =? "cursor"
             then on_fs (generate_cursor_command source command_dest cmd_name (module_name inst))
             else on_fs (generate_claude_command source command_dest cmd_name (module_name inst))) ;;
          if success
          then console_print ("  [green]/" ++ module_name inst ++ "-" ++ cmd_name ++ "[/green]")
          else console_print ("  [red]" ++ cmd_name ++ "[/red] (source not found)"))
    | None => ret tt
    end
  else ret tt.

(** Lines 331-440: what the loop does with a record that is not stale;
    every [continue] is a branch that ends here. *)
Definition refresh_installation (inst : Installation) : Cmd unit :=
  (* Get the global module to refresh from *)
  let global_module_path := MODULES_DIR // module_name inst in
  found <- read_fs (fun f => exists_ f global_module_path) ;;
  if negb found then
    console_print ("[red]" ++ module_name inst ++ ": not found in registry[/red]") ;;
    console_print ("  [dim]Run 'lola mod add <source>' to re-add, or 'lola uninstall "
                   ++ module_name inst ++ "' to remove[/dim]")
  else
  loaded <- try_read_fs (fun f => Module_from_path f global_module_path) ;;
  match loaded with
  | None =>
      console_print ("[red]" ++ module_name inst ++ ": invalid module (no .lola/module.yml)[/red]")
  | Some global_module =>
  (* Validate module structure and skill files *)
  '(is_valid, errors) <- try_read_fs (fun f => Module_validate f global_module) ;;
  if negb is_valid then
    console_print ("[red]" ++ module_name inst ++ "[/red] (" ++ assistant inst ++ ")") ;;
    console_print "  [red]Module has validation errors:[/red]" ;;
    for_each errors (fun err => console_print ("    [red]- " ++ err ++ "[/red]"))
  else
  let local_modules := get_local_modules_path (project_path inst) in
  (* Refresh the local copy from global module *)
  source_module <- copy_module_to_local global_module local_modules ;;
  match get_assistant_skill_path (assistant inst) (scope inst) (project_path inst) with
  | Raise (ValueError _) =>
      console_print ("[red]Cannot determine path for " ++ assistant inst ++ "/"
                     ++ scope inst ++ "[/red]")
  | Raise e => raise e
  | Ret _ =>
  console_print ("[cyan]" ++ module_name inst ++ "[/cyan] -> " ++ assistant inst) ;;
  console_print ("  [dim]Local path: " ++ source_module ++ "[/dim]") ;;
  (* Update skills *)
  (if nonempty (inst_skills inst) then
     skill_dest <-
       match get_assistant_skill_path (assistant inst) (scope inst) (project_path inst) with
       | Ret p => ret (Some p)
       | Raise (ValueError _) =>
           console_print "  [red]Cannot determine skill path[/red]" ;; ret None
       | Raise e => raise e
       end ;;
     match skill_dest with
     | Some skill_dest =>
         if assistant inst =? "gemini-cli"
         then update_gemini_skills inst source_module skill_dest
         else update_file_skills inst source_module skill_dest
     | None => ret tt
     end
   else ret tt) ;;
  (* Update commands *)
  update_commands inst source_module
  end
  end.

(** Lines 322-324: the test for a stale record: project scope, a project
    path, and nothing at that path. *)
Definition is_stale (f : FS) (inst : Installation) : bool :=
  (scope inst =? "project") && truthy (project_path inst) &&
  match project_path inst with
  | Some p => negb (exists_ f (PathOf p))
  | None => false
  end.

(** Lines 321-440: the body of the update loop; returns
    [stale_installations]. *)
Definition update_one (stale_installations : list Installation) (inst : Installation)
    : Cmd (list Installation) :=
  (* Check if project path still exists for project-scoped installations *)
  stale <- read_fs (fun f => is_stale f inst) ;;
  if stale then
    console_print ("[red]" ++ module_name inst ++ "[/red] (" ++ assistant inst ++ ")") ;;
    console_print ("  [red]Project path no longer exists: "
                   ++ match project_path inst with Some p => p | None => "None" end
                   ++ "[/red]") ;;
    console_print ("  [dim]Run 'lola uninstall " ++ module_name inst
                   ++ "' to remove this stale entry[/dim]") ;;
    ret (stale_installations ++ [inst])%list
  else
    refresh_installation inst ;;
    ret stale_installations.

Definition update_cmd (module_name assistant : option string) : Cmd unit :=
  on_fs ensure_lola_dirs ;;
  installations <- registry_all ;;
  let installations :=
    match (if truthy module_name then module_name else None) with
    | Some m => filter (fun i => Models.module_name i =? m) installations
    | None => installations
    end in
  let installations :=
    match (if truthy assistant then assistant else None) with
    | Some a => filter (fun i => Models.assistant i =? a) installations
    | None => installations
    end in
  if negb (nonempty installations) then
    console_print "[yellow]No installations to update[/yellow]"
  else
  console_print ("[bold]Updating " ++ str_of_nat (length installations)
                 ++ " installation(s)...[/bold]") ;;
  console_print "" ;;
  (* Track stale installations to remove *)
  stale_installations <- for_acc installations [] update_one ;;
  console_print "" ;;
  (if nonempty stale_installations
   then console_print ("[yellow]Found " ++ str_of_nat (length stale_installations)
                       ++ " stale installation(s)[/yellow]")
   else ret tt) ;;
  console_print "[bold green]Update complete[/bold green]".

End Cli.
End Cli.

(** ** A small platform for concrete runs

    The file tree is a list of entries under normal-form absolute paths;
    the collaborators do the least their interface in section 4.2 and 6 of
    the specification asks for. *)

Module Sim.

Inductive Node : Type :=
| File (lines : list string)
| Dir
| Link (target : Path).

Definition Tree : Type := list (Path * Node).

Fixpoint lookup (p : Path) (t : Tree) : option Node :=
  match t with
  | [] => None
  | (q, n) :: t' => if q =? p then Some n else lookup p t'
  end.

Definition remove (p : Path) (t : Tree) : Tree :=
  filter (fun e => negb (fst e =? p)) t.

Definition put (p : Path) (n : Node) (t : Tree) : Tree :=
  (remove p t ++ [(p, n)])%list.

(** [q] lies strictly below the directory [p]. *)
Definition below (p q : Path) : bool := startswith q (p ++ "/").

Definition join (p : Path) (s : string) : Path :=
  if startswith s "/" then s else p ++ "/" ++ s.

Fixpoint final_component (s cur : string) : string :=
  match s with
  | EmptyString => cur
  | String c s' =>
      if Ascii.eqb c "/" then final_component s' "" else final_component s' (cur ++ String c "")
  end.

#[export] Instance paths : PathLib := {|
  home := "/home/u";
  env_LOLA_HOME := None;
  PathOf := fun s => s;
  joinpath := join;
  name_of := fun s => final_component s ""
|}.

Fixpoint follow (fuel : nat) (t : Tree) (p : Path) : Path :=
  match fuel with
  | O => p
  | S k =>
      match lookup p t with
      | Some (Link target) => follow k t target
      | _ => p
      end
  end.

Definition tree_resolve (t : Tree) (p : Path) : Path := follow (length t) t p.

Definition tree_exists (t : Tree) (p : Path) : bool :=
  match lookup (tree_resolve t p) t with
  | Some (File _) | Some Dir => true
  | _ => false
  end.

Definition tree_is_symlink (t : Tree) (p : Path) : bool :=
  match lookup p t with
  | Some (Link _) => true
  | _ => false
  end.

Definition tree_unlink (p : Path) (t : Tree) : outcome unit * Tree :=
  match lookup p t with
  | Some (File _) | Some (Link _) => (Ret tt, remove p t)
  | Some Dir => (Raise (OSError "IsADirectoryError"), t)
  | None => (Raise (OSError "FileNotFoundError"), t)
  end.

Definition tree_mkdir (p : Path) (t : Tree) : outcome unit * Tree :=
  match lookup p t with
  | Some Dir => (Ret tt, t)
  | Some _ => (Raise (OSError "FileExistsError"), t)
  | None => (Ret tt, put p Dir t)
  end.

Definition tree_rmtree (p : Path) (t : Tree) : outcome unit * Tree :=
  match lookup p t with
  | Some Dir => (Ret tt, filter (fun e => negb ((fst e =? p) || below p (fst e))) t)
  | Some (File _) => (Raise (OSError "NotADirectoryError"), t)
  | Some (Link _) => (Raise (OSError "Cannot call rmtree on a symbolic link"), t)
  | None => (Raise (OSError "FileNotFoundError"), t)
  end.

Definition tree_copytree (src dst : Path) (t : Tree) : outcome unit * Tree :=
  match lookup src t, lookup dst t with
  | Some Dir, None =>
      let moved :=
        map (fun e => (dst ++ slice_from (String.length src) (fst e), snd e))
            (filter (fun e => below src (fst e)) t) in
      (Ret tt, (t ++ (dst, Dir) :: moved)%list)
  | Some Dir, Some _ => (Raise (OSError "FileExistsError"), t)
  | _, _ => (Raise (OSError "FileNotFoundError"), t)
  end.

(** Modelled from the spec: the command locations of the absent part of
    [lola/config.py].  The specification names no directory; the small
    platform takes one per assistant, under the project for project scope. *)
Definition command_location (assistant scope : string) (project_path : option string) : Path :=
  let base :=
    match project_path with
    | Some p => if scope =? "project" then PathOf p else home
    | None => home
    end in
  let tool :=
    if assistant =? "gemini-cli" then ".gemini"
    else if assistant =? "cursor" then ".cursor" else ".claude" in
  base // tool // "commands".

(** Modelled from the spec: [get_command_filename] of the absent
    [lola/command_converters.py]; the file of a command carries the
    module prefix. *)
Definition command_filename (assistant module_name cmd_name : string) : string :=
  module_name ++ "-" ++ cmd_name ++ (if assistant =? "gemini-cli" then ".toml" else ".md").

(** Modelled from the spec: the [write*] primitives of the absent
    [lola/core/generator.py] "return false (not an exception) when the
    source content is missing". *)
Definition write_skill_dir (source dest : Path) (t : Tree) : outcome bool * Tree :=
  match lookup (source // "SKILL.md") t with
  | Some (File lines) => (Ret true, put (dest // "SKILL.md") (File lines) (put dest Dir t))
  | _ => (Ret false, t)
  end.

Definition write_rule_file (source skill_dest : Path) (prefixed : string)
    (project_path : option string) (t : Tree) : outcome bool * Tree :=
  match lookup (source // "SKILL.md") t with
  | Some (File lines) => (Ret true, put (skill_dest // (prefixed ++ ".mdc")) (File lines) t)
  | _ => (Ret false, t)
  end.

Definition write_command (assistant : string) (source command_dest : Path)
    (cmd_name module_name : string) (t : Tree) : outcome bool * Tree :=
  match lookup source t with
  | Some (File lines) =>
      (Ret true,
       put (command_dest // command_filename assistant module_name cmd_name) (File lines) t)
  | _ => (Ret false, t)
  end.

Definition skill_description (t : Tree) (source : Path) : outcome string :=
  match lookup (source // "SKILL.md") t with
  | Some (File (line :: _)) => Ret line
  | _ => Ret ""
  end.

(** Modelled from the spec: the aggregate document keeps one line per
    (module, skill); writing replaces the lines of the module and leaves
    those of other modules. *)
Definition aggregate_lines (t : Tree) (doc : Path) : list string :=
  match lookup doc t with
  | Some (File lines) => lines
  | _ => []
  end.

Definition write_aggregate (doc : Path) (module_name : string)
    (entries : list (string * string * Path)) (project_path : option string)
    (t : Tree) : outcome unit * Tree :=
  let kept :=
    filter (fun l => negb (startswith l (module_name ++ "/"))) (aggregate_lines t doc) in
  let added := map (fun e => module_name ++ "/" ++ fst (fst e) ++ ": " ++ snd (fst e)) entries in
  (Ret tt, put doc (File (kept ++ added)) t).

Definition clear_aggregate (doc : Path) (module_name : string) (t : Tree)
    : outcome bool * Tree :=
  match lookup doc t with
  | Some (File lines) =>
      (Ret true,
       put doc (File (filter (fun l => negb (startswith l (module_name ++ "/"))) lines)) t)
  | _ => (Ret false, t)
  end.

(** Modelled from the spec: a module is a directory with a manifest
    [.lola/module.yml]; here the manifest has one line per item,
    [skill <name>] or [command <name>]. *)
Definition manifest_items (kind : string) (lines : list string) : list string :=
  map (slice_from (String.length kind))
      (filter (fun l => startswith l kind) lines).

Definition load_module (t : Tree) (p : Path) : outcome (option Module) :=
  match lookup (p // ".lola/module.yml") t with
  | Some (File lines) =>
      Ret (Some (mkModule (name_of p) p (manifest_items "skill " lines)
                          (manifest_items "command " lines)))
  | _ => Ret None
  end.

Definition validate_module (t : Tree) (m : Module) : outcome (bool * list string) :=
  let errors :=
    map (fun s => "Skill '" ++ s ++ "' has no SKILL.md")
        (filter (fun s => negb (tree_exists t (path m // s // "SKILL.md"))) (skills m)) in
  Ret (negb (nonempty errors), errors).

Definition local_modules (project_path : option string) : Path :=
  match (if truthy project_path then project_path else None) with
  | Some p => PathOf p // ".lola" // "modules"
  | None => Config.MODULES_DIR
  end.

Definition make_lola_dirs (t : Tree) : outcome unit * Tree :=
  match tree_mkdir Config.LOLA_HOME t with
  | (Ret _, t') => tree_mkdir Config.MODULES_DIR t'
  | failed => failed
  end.

#[export] Instance platform : Platform := {|
  FS := Tree;
  resolve := tree_resolve;
  exists_ := tree_exists;
  is_symlink := tree_is_symlink;
  unlink := tree_unlink;
  mkdir_parents := tree_mkdir;
  rmtree := tree_rmtree;
  copytree := tree_copytree;
  get_assistant_command_path := Config.resolveCommandPath command_location;
  generate_claude_skill := write_skill_dir;
  generate_cursor_rule := write_rule_file;
  generate_claude_command := write_command "claude-code";
  generate_cursor_command := write_command "cursor";
  generate_gemini_command := write_command "gemini-cli";
  get_skill_description := skill_description;
  update_gemini_md := write_aggregate;
  remove_gemini_skills := clear_aggregate;
  get_command_filename := command_filename;
  get_local_modules_path := local_modules;
  ensure_lola_dirs := make_lola_dirs;
  Module_from_path := load_module;
  Module_validate := validate_module
|}.

(** The global store holds module "docgen" with skill "summarize" and
    command "draft"; [/tmp/proj] is a project directory. *)
Definition docgen_files (root : Path) : Tree :=
  [ (root, Dir);
    (root ++ "/.lola/module.yml", File ["skill summarize"; "command draft"]);
    (root ++ "/summarize", Dir);
    (root ++ "/summarize/SKILL.md", File ["Summarize a document"]);
    (root ++ "/commands", Dir);
    (root ++ "/commands/draft.md", File ["Draft a document"]) ].

Definition base_tree : Tree :=
  [ ("/home/u/.lola", Dir); ("/home/u/.lola/modules", Dir); ("/tmp/proj", Dir) ].

Definition docgen_tree : Tree := (base_tree ++ docgen_files "/home/u/.lola/modules/docgen")%list.

(** Module "docgen" with its one skill and no command. *)
Definition skill_only_tree : Tree :=
  (base_tree ++
   [ ("/home/u/.lola/modules/docgen", Dir);
     ("/home/u/.lola/modules/docgen/.lola/module.yml", File ["skill summarize"]);
     ("/home/u/.lola/modules/docgen/summarize", Dir);
     ("/home/u/.lola/modules/docgen/summarize/SKILL.md", File ["Summarize a document"]) ])%list.

Definition start (t : Tree) (reg : list Installation) (answers : list bool) : World :=
  mkWorld t reg [] answers.

End Sim.

(** ** [lola/cli/install.py]: the list command *)

Module Listing.
Section Listing.
Context {L : PathLib} {P : Platform}.

(** [d[k] = v] on a dict kept in insertion order: a key that is present
    keeps its place, a new key goes last. *)
Fixpoint dict_set {V : Type} (k : string) (v : V) (d : list (string * V))
    : list (string * V) :=
  match d with
  | [] => [(k, v)]
  | (k', v') :: d' => if k' =? k then (k', v) :: d' else (k', v') :: dict_set k v d'
  end.

(** Lines 479-481: one turn of the "Group by module name" loop.  The
    second lookup finds the key, the line before has put it there. *)
Definition group_installation (by_module : list (string * list Installation))
    (inst : Installation) : list (string * list Installation) :=
  let by_module :=
    match dict_get (module_name inst) by_module with
    | None => dict_set (module_name inst) [] by_module
    | Some _ => by_module
    end in
  match dict_get (module_name inst) by_module with
  | Some insts => dict_set (module_name inst) (insts ++ [inst])%list by_module
  | None => by_module
  end.

(** Lines 477-481: [by_module] after the loop. *)
Definition group_by_module (installations : list Installation)
    : list (string * list Installation) :=
  fold_left group_installation installations [].

(** Lines 488-496: one record under its module. *)
Definition show_listed (inst : Installation) : Cmd unit :=
  let scope_str := assistant inst ++ "/" ++ scope inst in
  let scope_str :=
    match (if truthy (project_path inst) then project_path inst else None) with
    | Some p => scope_str ++ " (" ++ p ++ ")"
    | None => scope_str
    end in
  console_print ("  - " ++ scope_str) ;;
  (if nonempty (inst_skills inst)
   then console_print ("    Skills: " ++ String.concat ", " (inst_skills inst))
   else ret tt) ;;
  (if nonempty (inst_commands inst)
   then console_print ("    Commands: " ++ String.concat ", " (inst_commands inst))
   else ret tt).

Definition list_installed_cmd (assistant : option string) : Cmd unit :=
  on_fs ensure_lola_dirs ;;
  installations <- registry_all ;;
  let installations :=
    match (if truthy assistant then assistant else None) with
    | Some a => filter (fun i => Models.assistant i =? a) installations
    | None => installations
    end in
  if negb (nonempty installations) then
    console_print "[yellow]No modules installed[/yellow]" ;;
    console_print "" ;;
    console_print "Install modules with:" ;;
    console_print "  lola install <module>"
  else
  (* Group by module name *)
  let by_module := group_by_module installations in
  console_print ("[bold]Installed modules (" ++ str_of_nat (length by_module) ++ "):[/bold]") ;;
  console_print "" ;;
  for_each by_module (fun '(mod_name, insts) =>
    console_print ("[cyan]" ++ mod_name ++ "[/cyan]") ;;
    for_each insts show_listed ;;
    console_print "").

End Listing.
End Listing.

(** ** [lola/market/search.py] *)

Module Market.

(** A module of a catalog is a dict; the search reads the string values
    under "name", "description" and "version" and the list under "tags".
    It is kept as the string-valued part, a dict in insertion order, and
    the tags ([None] when the key is missing). *)
Record CatalogModule : Type := mkCatalogModule {
  strings : list (string * string);
  tags : option (list string)
}.

(** [d.get(key, "")] *)
Definition get_str (key : string) (d : list (string * string)) : string :=
  match dict_get key d with
  | Some v => v
  | None => ""
  end.

(** [sub in s] for strings: [sub] occurs in [s] as a substring. *)
Fixpoint contains (sub s : string) : bool :=
  String.prefix sub s ||
  match s with
  | EmptyString => false
  | String _ s' => contains sub s'
  end.

(** A [str] is kept as the bytes of its UTF-8 form, and [len] and slices
    count characters (code points) as Python does: a byte [10xxxxxx]
    continues the character before it, every other byte starts one. *)
Definition is_continuation (c : ascii) : bool :=
  let n := nat_of_ascii c in Nat.leb 128 n && Nat.ltb n 192.

(** [len(s)] *)
Fixpoint len (s : string) : nat :=
  match s with
  | EmptyString => 0
  | String c s' => if is_continuation c then len s' else S (len s')
  end.

(** [s[:n]]: the first [n] characters, each with all its bytes. *)
Fixpoint slice_to (n : nat) (s : string) : string :=
  match s with
  | EmptyString => EmptyString
  | String c s' =>
      if is_continuation c then String c (slice_to n s')
      else
        match n with
        | O => EmptyString
        | S n' => String c (slice_to n' s')
        end
  end.

(** The dict [format_search_result] returns, with its four keys. *)
Record SearchResult : Type := mkSearchResult {
  result_name : string;
  result_description : string;
  result_version : string;
  result_marketplace : string
}.

(** What the search takes from outside [search.py]: [str.lower],
    [Path.glob("*.yml")], and the [Marketplace] class of [lola.models]
    with the attributes read here and its two readers. *)
Class SearchLib {P : Platform} : Type := {
  lower : string -> string;
  Marketplace : Type;
  marketplace_name : Marketplace -> string;
  marketplace_enabled : Marketplace -> bool;
  marketplace_modules : Marketplace -> list CatalogModule;
  glob_yml : FS -> Path -> list Path;
  from_reference : FS -> Path -> outcome Marketplace;
  from_cache : FS -> Path -> outcome Marketplace
}.

Section Search.
Context {L : PathLib} {P : Platform} {S : SearchLib}.

Definition get_enabled_marketplaces (market_dir cache_dir : Path)
    : Cmd (list (Marketplace * string)) :=
  ref_files <- read_fs (fun f => glob_yml f market_dir) ;;
  for_acc ref_files []
    (fun marketplaces ref_file =>
       marketplace_ref <- try_read_fs (fun f => from_reference f ref_file) ;;
       if negb (marketplace_enabled marketplace_ref) then ret marketplaces
       else
         let cache_file := cache_dir // name_of ref_file in
         found <- read_fs (fun f => exists_ f cache_file) ;;
         if negb found then ret marketplaces
         else
           marketplace <- try_read_fs (fun f => from_cache f cache_file) ;;
           ret (marketplaces ++ [(marketplace, marketplace_name marketplace_ref)])%list).

Definition match_module (module : CatalogModule) (query_lower : string) : bool :=
  let name := lower (get_str "name" (strings module)) in
  let description := lower (get_str "description" (strings module)) in
  let tags := match tags module with Some l => l | None => [] end in
  contains query_lower name
  || contains query_lower description
  || existsb (fun tag => contains query_lower (lower tag)) tags.

Definition format_search_result (module : CatalogModule) (marketplace_name : string)
    : SearchResult :=
  let description := get_str "description" (strings module) in
  let description :=
    if Nat.ltb 60 (len description)
    then slice_to 60 description ++ "..."
    else description in
  mkSearchResult (get_str "name" (strings module)) description
                 (get_str "version" (strings module)) marketplace_name.

Definition search_market (query : string) (market_dir cache_dir : Path)
    : Cmd (list SearchResult) :=
  marketplaces <- get_enabled_marketplaces market_dir cache_dir ;;
  let query_lower := lower query in
  ret (fold_left
         (fun results '(marketplace, name) =>
            fold_left
              (fun results module =>
                 if match_module module query_lower
                 then (results ++ [format_search_result module name])%list
                 else results)
              (marketplace_modules marketplace) results)
         marketplaces []).

End Search.
End Market.

(** ** A small marketplace store

    For the examples: a reference file holds the name of the marketplace
    and the word "enabled" or "disabled"; a cache file holds the name and
    then one module per line, as name, description and tag. *)

Module SimMarket.
Import Market.

Record Catalog : Type := mkCatalog {
  catalog_name : string;
  catalog_enabled : bool;
  catalog_modules : list CatalogModule
}.

Definition lower_ascii (c : ascii) : ascii :=
  let n := nat_of_ascii c in
  if Nat.leb 65 n && Nat.leb n 90 then ascii_of_nat (n + 32) else c.

Fixpoint lower_string (s : string) : string :=
  match s with
  | EmptyString => EmptyString
  | String c s' => String (lower_ascii c) (lower_string s')
  end.

Definition ends_with_yml (p : Path) : bool :=
  Nat.leb 4 (String.length p) && (slice_from (String.length p - 4) p =? ".yml").

(** [dir.glob("*.yml")] does not descend: the files of [dir] itself. *)
Definition child_of (dir p : Path) : bool :=
  Sim.below dir p && negb (contains "/" (slice_from (String.length dir + 1) p)).

Definition yml_files (t : FS (Platform := Sim.platform)) (dir : Path) : list Path :=
  map fst
    (filter (fun e =>
               child_of dir (fst e) && ends_with_yml (fst e) &&
               match snd e with Sim.File _ => true | _ => false end) t).

Definition read_reference (t : FS (Platform := Sim.platform)) (p : Path) : outcome Catalog :=
  match Sim.lookup p t with
  | Some (Sim.File (n :: flag :: _)) => Ret (mkCatalog n (flag =? "enabled") [])
  | _ => Raise (OSError "invalid marketplace reference")
  end.

Fixpoint catalog_entries (lines : list string) : list CatalogModule :=
  match lines with
  | n :: d :: t :: rest =>
      mkCatalogModule [("name", n); ("description", d); ("version", "1.0.0")] (Some [t])
      :: catalog_entries rest
  | _ => []
  end.

Definition read_cache (t : FS (Platform := Sim.platform)) (p : Path) : outcome Catalog :=
  match Sim.lookup p t with
  | Some (Sim.File (n :: lines)) => Ret (mkCatalog n true (catalog_entries lines))
  | _ => Raise (OSError "invalid marketplace cache")
  end.

#[export] Instance search_lib : SearchLib (P := Sim.platform) := {|
  lower := lower_string;
  Marketplace := Catalog;
  marketplace_name := catalog_name;
  marketplace_enabled := catalog_enabled;
  marketplace_modules := catalog_modules;
  glob_yml := yml_files;
  from_reference := read_reference;
  from_cache := read_cache
|}.

(** Two references, "official" (enabled, cached) and "labs" (disabled). *)
Definition market_tree : Sim.Tree :=
  [ ("/home/u/.lola/market", Sim.Dir);
    ("/home/u/.lola/market/cache", Sim.Dir);
    ("/home/u/.lola/market/official.yml", Sim.File ["official"; "enabled"]);
    ("/home/u/.lola/market/labs.yml", Sim.File ["labs"; "disabled"]);
    ("/home/u/.lola/market/cache/official.yml",
      Sim.File ["official-cache"; "git-tools"; "Git helpers"; "vcs";
                "Docgen"; "Writes documents"; "docs"]);
    ("/home/u/.lola/market/cache/labs.yml",
      Sim.File ["labs-cache"; "secret"; "Not for search"; "docs"]) ].

(** A description of [n] characters of two bytes each (U+00E9). *)
Definition accented (n : nat) : string :=
  String.concat "" (repeat (String (ascii_of_nat 195) (String (ascii_of_nat 169) "")) n).

Definition described (description : string) : CatalogModule :=
  mkCatalogModule [("name", "notes"); ("description", description)] None.

Definition market_dir : Path := "/home/u/.lola/market".

Definition cache_dir : Path := "/home/u/.lola/market/cache".

(** The catalog read from the cache of "official". *)
Definition official_catalog : Catalog :=
  mkCatalog "official-cache" true
    [ mkCatalogModule
        [("name", "git-tools"); ("description", "Git helpers"); ("version", "1.0.0")]
        (Some ["vcs"]);
      mkCatalogModule
        [("name", "Docgen"); ("description", "Writes documents"); ("version", "1.0.0")]
        (Some ["docs"]) ].

End SimMarket.

(** ** Vocabulary of the statements *)

Section Vocabulary.
Context {L : PathLib} {P : Platform}.

(** [keeps R c]: every run of [c], whether it returns or raises, takes a
    world to an [R]-related one. *)
Definition keeps (R : World -> World -> Prop) {A : Type} (c : Cmd A) : Prop :=
  forall w, R w (snd (c w)).

(** A relation that passes through sequencing, loops and printing. *)
Class Frame (R : World -> World -> Prop) : Prop := {
  frame_refl : forall w, R w w;
  frame_trans : forall a b c, R a b -> R b c -> R a c;
  frame_print : forall line, keeps R (console_print line)
}.

Class IgnoresFiles (R : World -> World -> Prop) : Prop :=
  ignores_files : forall (A : Type) (op : FS -> outcome A * FS), keeps R (on_fs op).

Class IgnoresRegistry (R : World -> World -> Prop) : Prop :=
  ignores_registry : forall f, keeps R (registry_write f).

Class IgnoresConfirm (R : World -> World -> Prop) : Prop :=
  ignores_confirm : forall text, keeps R (click_confirm text).

Definition same_registry (w w' : World) : Prop := registry w' = registry w.

Definition same_files (w w' : World) : Prop := fs w' = fs w.

Definition is_print (e : Event) : Prop :=
  match e with
  | Print _ => True
  | Confirm _ => False
  end.

(** The world [w] after the lines have reached the console. *)
Definition with_lines (w : World) (lines : list Event) : World :=
  mkWorld (fs w) (registry w) (console w ++ lines)%list (replies w).

(** The console has only grown, and only by printed lines. *)
Definition only_prints (w w' : World) : Prop :=
  exists lines, console w' = (console w ++ lines)%list /\ Forall is_print lines.

(** Only printed lines were added; everything else is as it was. *)
Definition printed (w w' : World) : Prop :=
  exists lines, w' = with_lines w lines /\ Forall is_print lines.

(** Every record now in the registry was there before or satisfies [Q]. *)
Definition registers (Q : Installation -> Prop) (w w' : World) : Prop :=
  forall i, In i (registry w') -> In i (registry w) \/ Q i.

(** A command that always returns and does nothing but print. *)
Definition just_prints (c : Cmd unit) : Prop :=
  forall w, exists lines, c w = (Ret tt, with_lines w lines) /\ Forall is_print lines.

(** The line printed for a skill whose source is missing. *)
Definition source_not_found (skill_rel : string) : Event :=
  Print ("  [red]" ++ name_of skill_rel ++ "[/red] (source not found)").

(** The three lines [update_cmd] prints for a stale record. *)
Definition stale_report (inst : Installation) : list Event :=
  [ Print ("[red]" ++ module_name inst ++ "[/red] (" ++ assistant inst ++ ")");
    Print ("  [red]Project path no longer exists: "
           ++ match project_path inst with Some p => p | None => "None" end ++ "[/red]");
    Print ("  [dim]Run 'lola uninstall " ++ module_name inst
           ++ "' to remove this stale entry[/dim]") ].

(** The three lines [uninstall_cmd] prints before its question. *)
Definition question_lines : list Event :=
  [ Print "[yellow]Multiple installations found.[/yellow]";
    Print "Use -a <assistant> and -s <scope> to target specific installation,";
    Print "or use -f/--force to uninstall all." ].

(** Where [uninstall_cmd] looks for the artifact of a recorded skill: the
    rule file for cursor, the skill directory otherwise. *)
Definition skill_artifact (inst : Installation) (skill_dest : Path) (skill_name : string)
    : Path :=
  if assistant inst =? "cursor" then skill_dest // (skill_name ++ ".mdc")
  else skill_dest // skill_name.

(** No artifact of a recorded skill is on disk. *)
Definition skill_artifacts_absent (f : FS) (inst : Installation) : Prop :=
  forall skill_dest skill_name,
    Config.get_assistant_skill_path (assistant inst) (scope inst) (project_path inst)
    = Ret skill_dest ->
    In skill_name (inst_skills inst) ->
    exists_ f (skill_artifact inst skill_dest skill_name) = false.

(** No file of a recorded command is on disk (and the command location is
    either found or refused with the [ValueError] the caller handles). *)
Definition command_artifacts_absent (f : FS) (module_name : string) (inst : Installation)
    : Prop :=
  inst_commands inst = [] \/
  match get_assistant_command_path (assistant inst) (scope inst) (project_path inst) with
  | Ret command_dest =>
      forall cmd_name,
        In cmd_name (inst_commands inst) ->
        exists_ f (command_dest // get_command_filename (assistant inst) module_name cmd_name)
        = false
  | Raise (ValueError _) => True
  | Raise _ => False
  end.

(** The record has no project-local copy of the module to remove. *)
Definition local_copy_absent (f : FS) (module_name : string) (inst : Installation) : Prop :=
  (scope inst =? "project") && truthy (project_path inst) = false \/
  (is_symlink f (get_local_modules_path (project_path inst) // module_name) = false /\
   exists_ f (get_local_modules_path (project_path inst) // module_name) = false).

End Vocabulary.

(** ** What an installation has written *)

Section Written.
Context {L : PathLib} {P : Platform}.

(** The items of [l], in order, whose write answered true, the writes
    running one after the other from the file tree [f].  (A write that
    raises ends the run; nothing is counted from there on.) *)
Fixpoint written {A : Type} (write : A -> FS -> outcome bool * FS) (l : list A) (f : FS)
    : list A :=
  match l with
  | [] => []
  | x :: l' =>
      match write x f with
      | (Ret true, f') => x :: written write l' f'
      | (Ret false, f') => written write l' f'
      | (Raise _, _) => []
      end
  end.





End Written.

(** ** The lines of an update *)

Section UpdateLines.
Context {L : PathLib} {P : Platform}.




End UpdateLines.

(** ** Parts of a record *)

(** The record with other skills, or other commands, and all else the
    same: the removal of a part of the artifacts of a record. *)
Definition with_skills (inst : Installation) (skills : list string) : Installation :=
  mkInstallation (module_name inst) (assistant inst) (scope inst) (project_path inst)
                 skills (inst_commands inst).

Definition with_commands (inst : Installation) (commands : list string) : Installation :=
  mkInstallation (module_name inst) (assistant inst) (scope inst) (project_path inst)
                 (inst_skills inst) commands.

(** ** Comparing two runs *)

Section Comparison.
Context {P : Platform}.

(** The second run ends in the same world as the first; it raises what the
    first raises, and returns a [rel]-related value when the first returns. *)
Definition replays {A B : Type} (rel : A -> B -> Prop)
    (first : outcome A * World) (second : outcome B * World) : Prop :=
  snd second = snd first /\
  match fst first with
  | Ret a => exists b, fst second = Ret b /\ rel a b
  | Raise e => fst second = Raise e
  end.

(** The same, for two runs whose consoles differ: file tree and registry
    agree at the end. *)
Definition replays_on_disk {A B : Type}
    (first : outcome A * World) (second : outcome B * World) : Prop :=
  fs (snd second) = fs (snd first) /\
  registry (snd second) = registry (snd first) /\
  match fst first with
  | Ret _ => exists b, fst second = Ret b
  | Raise e => fst second = Raise e
  end.

End Comparison.

(** ** The grouping of the listing *)

(** What the grouping loop keeps true of [by_module] and the records it
    has seen: keys are distinct, and under each key are the records of
    that module, in order; a key without records is not there. *)
Definition grouped (by_module : list (string * list Installation))
    (seen : list Installation) : Prop :=
  NoDup (map fst by_module) /\
  forall k,
    dict_get k by_module
    = match filter (fun i => module_name i =? k) seen with
      | [] => None
      | insts => Some insts
      end.

(** Module "docgen" of the scenarios, as loaded from the global store. *)
Definition docgen : Module :=
  mkModule "docgen" "/home/u/.lola/modules/docgen" ["summarize"] ["draft"].

(** The world after [lola install docgen -s project /tmp/proj]: docgen is
    installed to the three assistants. *)
Definition after_install : World (P := Sim.platform) :=
  Eval vm_compute in
    snd (Cli.install_cmd (L := Sim.paths) "docgen" None "project" (Some "/tmp/proj")
           (Sim.start Sim.docgen_tree [] [])).


(** The record of docgen for claude-code in [/tmp/proj]. *)
Definition claude_record : Installation :=
  mkInstallation "docgen" "claude-code" "project" (Some "/tmp/proj")
                 ["docgen-summarize"] ["draft"].

(** * Properties *)


(** ** Strings *)

Lemma prefix_app (p s : string) : String.prefix p (p ++ s) = true.
Proof.
  induction p as [|c p IH]; simpl.
  - destruct s; reflexivity.
  - destruct (ascii_dec c c) as [_|ne]; [exact IH | now elim ne].
Qed.

Lemma slice_from_app (p s : string) : slice_from (String.length p) (p ++ s) = s.
Proof.
  induction p as [|c p IH]; simpl; [reflexivity | exact IH].
Qed.

Lemma append_assoc (a b c : string) : (a ++ b) ++ c = a ++ (b ++ c).
Proof.
  induction a as [|x a IH]; simpl; [reflexivity | now rewrite IH].
Qed.

(** C4. Stripping the module prefix from a prefixed name gives the item
    name back, whatever the item name is (no side condition on it is
    needed); a name that does not start with the prefix is returned as it
    is. *)
Theorem unprefix_prefixed_roundtrip :
  (forall m i : string, original_skill m (prefixed_name m i) = i) /\
  (forall m n : string, startswith n (m ++ "-") = false -> original_skill m n = n).
Proof.
  split.
  - intros m i. unfold original_skill, prefixed_name, startswith.
    rewrite <- append_assoc, prefix_app. apply slice_from_app.
  - intros m n H. unfold original_skill. now rewrite H.
Qed.

Lemma unprefix_prefixed_roundtrip_witness :
  startswith "summarize" ("docgen" ++ "-") = false /\
  original_skill "docgen" "summarize" = "summarize".
Proof.
  split; [reflexivity |].
  apply (proj2 unprefix_prefixed_roundtrip "docgen" "summarize"). reflexivity.
Defined.

Example unprefix_docgen : original_skill "docgen" "docgen-summarize" = "summarize".
Proof. reflexivity. Qed.

(** The accepted limitation of section 4.1: a legacy bare name that
    happens to start with the prefix is stripped all the same. *)
Example unprefix_legacy_name_is_split : original_skill "doc" "doc-gen" = "gen".
Proof. reflexivity. Qed.

(** ** Frames: what a command leaves alone

    The relations of interest are preorders that printing respects, so
    [keeps] passes through sequencing and loops. *)

Section Frames.
Context {P : Platform}.

Section Generic.
Context (R : World -> World -> Prop) {FR : Frame R}.

Lemma keeps_ret {A : Type} (a : A) : keeps R (ret a).
Proof. intros w. apply frame_refl. Qed.

Lemma keeps_raise {A : Type} (e : exn) : keeps R (@raise _ A e).
Proof. intros w. apply frame_refl. Qed.

Lemma keeps_read_fs {A : Type} (q : FS -> A) : keeps R (read_fs q).
Proof. intros w. apply frame_refl. Qed.

Lemma keeps_try_read_fs {A : Type} (q : FS -> outcome A) : keeps R (try_read_fs q).
Proof. intros w. apply frame_refl. Qed.

Lemma keeps_registry_all : keeps R registry_all.
Proof. intros w. apply frame_refl. Qed.

Lemma keeps_bind {A B : Type} (c : Cmd A) (k : A -> Cmd B) :
  keeps R c -> (forall a, keeps R (k a)) -> keeps R (bind c k).
Proof.
  intros Hc Hk w. unfold bind. specialize (Hc w).
  destruct (c w) as [[a|e] w1]; simpl in *; [| exact Hc].
  eapply frame_trans; [exact Hc | apply Hk].
Qed.

(** Sequencing when the continuation needs to know what was returned. *)
Lemma keeps_bind_returned {A B : Type} (c : Cmd A) (k : A -> Cmd B) (post : A -> Prop) :
  keeps R c ->
  (forall w a w', c w = (Ret a, w') -> post a) ->
  (forall a, post a -> keeps R (k a)) ->
  keeps R (bind c k).
Proof.
  intros Hc Hpost Hk w. unfold bind. specialize (Hc w). specialize (Hpost w).
  destruct (c w) as [[a|e] w1]; simpl in *; [| exact Hc].
  eapply frame_trans; [exact Hc | apply Hk; eapply Hpost; reflexivity].
Qed.

Lemma keeps_for_each {A : Type} (l : list A) (body : A -> Cmd unit) :
  (forall x, keeps R (body x)) -> keeps R (for_each l body).
Proof.
  intros Hb. induction l as [|x l IH]; simpl.
  - apply keeps_ret.
  - apply keeps_bind; [apply Hb | intros _; exact IH].
Qed.

Lemma keeps_for_acc {A S : Type} (l : list A) (acc : S) (body : S -> A -> Cmd S) :
  (forall s x, keeps R (body s x)) -> keeps R (for_acc l acc body).
Proof.
  intros Hb. revert acc. induction l as [|x l IH]; intros acc; simpl.
  - apply keeps_ret.
  - apply keeps_bind; [apply Hb | intros s; apply IH].
Qed.

End Generic.

Lemma same_registry_frame : Frame same_registry.
Proof. split; unfold same_registry, keeps; simpl; intros; congruence. Qed.

Lemma same_registry_files : IgnoresFiles same_registry.
Proof. intros A op w. unfold same_registry, on_fs. now destruct (op (fs w)). Qed.

Lemma same_registry_confirm : IgnoresConfirm same_registry.
Proof. intros text w. unfold same_registry, click_confirm. now destruct (replies w). Qed.

Lemma same_files_frame : Frame same_files.
Proof. split; unfold same_files, keeps; simpl; intros; congruence. Qed.

Lemma same_files_registry : IgnoresRegistry same_files.
Proof. intros f w. reflexivity. Qed.

Lemma same_files_confirm : IgnoresConfirm same_files.
Proof. intros text w. unfold same_files, click_confirm. now destruct (replies w). Qed.

Lemma only_prints_frame : Frame only_prints.
Proof.
  split.
  - intros w. exists []. split; [now rewrite app_nil_r | constructor].
  - intros a b c [l1 [E1 F1]] [l2 [E2 F2]]. exists (l1 ++ l2)%list. split.
    + now rewrite E2, E1, app_assoc.
    + apply Forall_app. now split.
  - intros line w. exists [Print line]. split; [reflexivity | repeat constructor].
Qed.

Lemma only_prints_files : IgnoresFiles only_prints.
Proof.
  intros A op w. exists []. unfold on_fs. destruct (op (fs w)); simpl.
  split; [now rewrite app_nil_r | constructor].
Qed.

Lemma only_prints_registry : IgnoresRegistry only_prints.
Proof.
  intros f w. exists []. simpl. split; [now rewrite app_nil_r | constructor].
Qed.

Lemma with_lines_nil w : with_lines w [] = w.
Proof. destruct w. unfold with_lines. simpl. now rewrite app_nil_r. Qed.

Lemma with_lines_app w l1 l2 : with_lines (with_lines w l1) l2 = with_lines w (l1 ++ l2).
Proof. unfold with_lines. simpl. now rewrite app_assoc. Qed.

Lemma printed_frame : Frame printed.
Proof.
  split.
  - intros w. exists []. split; [now rewrite with_lines_nil | constructor].
  - intros a b c [l1 [E1 F1]] [l2 [E2 F2]]. exists (l1 ++ l2)%list. split.
    + now rewrite E2, E1, with_lines_app.
    + apply Forall_app. now split.
  - intros line w. exists [Print line]. split; [reflexivity | repeat constructor].
Qed.

Lemma registers_frame (Q : Installation -> Prop) : Frame (registers Q).
Proof.
  split.
  - intros w i Hi. now left.
  - intros a b c Hab Hbc i Hi. destruct (Hbc i Hi) as [Hb|Hq]; [apply Hab, Hb | now right].
  - intros line w i Hi. now left.
Qed.

Lemma registers_files (Q : Installation -> Prop) : IgnoresFiles (registers Q).
Proof. intros A op w i. unfold on_fs. destruct (op (fs w)); simpl. now left. Qed.

Lemma printed_same_files w w' : printed w w' -> fs w' = fs w.
Proof. intros [l [E _]]. now subst. Qed.

Lemma printed_same_registry w w' : printed w w' -> registry w' = registry w.
Proof. intros [l [E _]]. now subst. Qed.

End Frames.

#[export] Existing Instance same_registry_frame.
#[export] Existing Instance same_registry_files.
#[export] Existing Instance same_registry_confirm.
#[export] Existing Instance same_files_frame.
#[export] Existing Instance same_files_registry.
#[export] Existing Instance same_files_confirm.
#[export] Existing Instance only_prints_frame.
#[export] Existing Instance only_prints_files.
#[export] Existing Instance only_prints_registry.
#[export] Existing Instance printed_frame.
#[export] Existing Instance registers_frame.
#[export] Existing Instance registers_files.

(** One step of a frame proof: follow the shape of the command. *)
Ltac frame_step :=
  lazymatch goal with
  | |- Frame _ => exact _
  | |- IgnoresFiles _ => exact _
  | |- IgnoresRegistry _ => exact _
  | |- IgnoresConfirm _ => exact _
  | |- keeps _ (bind _ _) => apply keeps_bind; [| | intros ?; cbv beta zeta]
  | |- keeps _ (ret _) => apply keeps_ret
  | |- keeps _ (raise _) => apply keeps_raise
  | |- keeps _ (read_fs _) => apply keeps_read_fs
  | |- keeps _ (try_read_fs _) => apply keeps_try_read_fs
  | |- keeps _ registry_all => apply keeps_registry_all
  | |- keeps _ (console_print _) => apply frame_print
  | |- keeps _ (on_fs _) => apply ignores_files
  | |- keeps _ (registry_write _) => apply ignores_registry
  | |- keeps _ (click_confirm _) => apply ignores_confirm
  | |- keeps _ (for_each _ _) => apply keeps_for_each; [| intros ?; cbv beta zeta]
  | |- keeps _ (for_acc _ _ _) => apply keeps_for_acc; [| intros ? ?; cbv beta zeta]
  | |- keeps _ (match ?x with _ => _ end) => destruct x
  | |- keeps _ ((match ?x with _ => _ end) _) => destruct x; cbv beta
  end.

Ltac frame := cbv zeta; repeat frame_step.

Section InstallerFrames.
Context {L : PathLib} {P : Platform}.
Import Config Installer.
Context (R : World -> World -> Prop) {FR : Frame R} {IF : IgnoresFiles R}.

Lemma copy_module_to_local_keeps module local_modules_path :
  keeps R (copy_module_to_local module local_modules_path).
Proof. unfold copy_module_to_local. frame. Qed.

Lemma install_gemini_skills_keeps module local_module_path skill_dest project_path :
  keeps R (install_gemini_skills module local_module_path skill_dest project_path).
Proof. unfold install_gemini_skills. frame. Qed.

Lemma install_file_skills_keeps module assistant local_module_path skill_dest project_path :
  keeps R (install_file_skills module assistant local_module_path skill_dest project_path).
Proof. unfold install_file_skills. frame. Qed.

Lemma install_skills_keeps module assistant scope project_path local_module_path :
  keeps R (install_skills module assistant scope project_path local_module_path).
Proof.
  unfold install_skills, install_skills_to_dest. frame;
    first [apply install_gemini_skills_keeps | apply install_file_skills_keeps].
Qed.

Lemma install_commands_keeps module assistant scope project_path local_module_path :
  keeps R (install_commands module assistant scope project_path local_module_path).
Proof. unfold install_commands. frame. Qed.

End InstallerFrames.

(** ** The installer *)

Lemma forallb_false_elem {A : Type} (f : A -> bool) (l : list A) :
  forallb f l = false -> exists x, In x l /\ f x = false.
Proof.
  induction l as [|a l IH]; simpl; [discriminate |].
  destruct (f a) eqn:Fa; simpl.
  - intros H. destruct (IH H) as [x [Hx Hf]]. exists x. auto.
  - intros _. exists a. auto.
Qed.

Section InstallerProperties.
Context {L : PathLib} {P : Platform}.
Import Config Installer.

(** C9. When the destination resolves to the module's own path,
    [copy_module_to_local] returns the destination and leaves the whole
    world, the file tree included, as it was: nothing is deleted and
    nothing is copied. *)
Theorem copy_onto_itself_changes_nothing module local_modules_path w :
  resolve (fs w) (local_modules_path // name module) = resolve (fs w) (path module) ->
  copy_module_to_local module local_modules_path w
  = (Ret (local_modules_path // name module), w).
Proof.
  intros same. unfold copy_module_to_local, bind, read_fs.
  now rewrite same, String.eqb_refl.
Qed.

Lemma gemini_loop_without_sources module local_module_path l :
  forall acc w,
    (forall s, In s l -> exists_ (fs w) (local_module_path // name_of s) = false) ->
    for_acc l acc
      (fun '(gemini_skills, installed_skills) skill_rel =>
         let skill_name := name_of skill_rel in
         let source := local_module_path // skill_name in
         let prefixed := prefixed_name (name module) skill_name in
         found <- read_fs (fun f => exists_ f source) ;;
         if found then
           description <- try_read_fs (fun f => get_skill_description f source) ;;
           console_print ("  [green]" ++ prefixed ++ "[/green]") ;;
           ret ((gemini_skills ++ [(skill_name, description, source)])%list,
                (installed_skills ++ [prefixed])%list)
         else
           console_print ("  [red]" ++ skill_name ++ "[/red] (source not found)") ;;
           ret (gemini_skills, installed_skills)) w
    = (Ret acc,
       with_lines w (map source_not_found l)).
Proof.
  induction l as [|s l IH]; intros [gs ins] w missing; simpl.
  - unfold ret. now rewrite with_lines_nil.
  - unfold bind at 1. unfold bind at 1. unfold read_fs at 1.
    rewrite (missing s (or_introl eq_refl)). unfold bind at 1. unfold console_print at 1.
    unfold ret at 1. rewrite IH.
    + unfold with_lines. simpl. now rewrite <- app_assoc.
    + intros s' Hs'. simpl. apply missing. now right.
Qed.

(** C10. In the gemini-cli branch, when the source of every skill of the
    module is missing, each skill is reported and nothing else happens:
    no skill is installed and the file tree, the aggregate document in
    it, is exactly as before.  Hence the file tree can only differ after
    the branch when the source of some skill exists. *)
Theorem gemini_aggregate_written_only_with_a_source
    module local_module_path skill_dest project_path w :
  ((forall s, In s (skills module) ->
              exists_ (fs w) (local_module_path // name_of s) = false) ->
   install_gemini_skills module local_module_path skill_dest project_path w
   = (Ret [], with_lines w (map source_not_found (skills module))))
  /\
  (fs (snd (install_gemini_skills module local_module_path skill_dest project_path w)) <> fs w ->
   exists s, In s (skills module) /\
             exists_ (fs w) (local_module_path // name_of s) = true).
Proof.
  assert (none :
    (forall s, In s (skills module) ->
               exists_ (fs w) (local_module_path // name_of s) = false) ->
    install_gemini_skills module local_module_path skill_dest project_path w
    = (Ret [], with_lines w (map source_not_found (skills module)))).
  { intros missing. unfold install_gemini_skills. unfold bind at 1.
    rewrite (gemini_loop_without_sources module local_module_path _ _ _ missing).
    reflexivity. }
  split; [exact none |].
  intros changed.
  destruct (forallb (fun s => negb (exists_ (fs w) (local_module_path // name_of s)))
                    (skills module)) eqn:all_missing.
  - exfalso. apply changed. rewrite none; [reflexivity |].
    intros s Hs. rewrite forallb_forall in all_missing.
    specialize (all_missing s Hs). now destruct (exists_ _ _).
  - destruct (forallb_false_elem _ _ all_missing) as [s [Hs Hf]].
    exists s. split; [exact Hs |]. now destruct (exists_ _ _).
Qed.

(** C2. For a module with exactly one skill and no commands, installing
    to gemini-cli at user scope does this and nothing more after the
    local copy of the module: it prints the two lines of the skip, the
    first one saying "skipped (user scope not supported)", and returns 0.
    The registry is the one it started with. *)
Theorem gemini_user_scope_skill_is_skipped
    (module_name : string) (module_path : Path) (skill : string)
    (project_path : option string) (local_modules : Path) (w : World) :
  let module := mkModule module_name module_path [skill] [] in
  let result := install_to_assistant module "gemini-cli" "user" project_path local_modules w in
  result
  = match copy_module_to_local module local_modules w with
    | (Ret _, w1) =>
        (Ret 0,
         with_lines w1
           [ Print "[yellow]gemini-cli[/yellow] skills -> skipped (user scope not supported)";
             Print "  Gemini CLI skills can only read files within project directories." ])
    | (Raise e, w1) => (Raise e, w1)
    end
  /\ registry (snd result) = registry w.
Proof.
  intros module result.
  pose proof (copy_module_to_local_keeps same_registry module local_modules w) as kept.
  unfold same_registry in kept.
  assert (run : result
                = match copy_module_to_local module local_modules w with
                  | (Ret _, w1) =>
                      (Ret 0,
                       with_lines w1
           [ Print "[yellow]gemini-cli[/yellow] skills -> skipped (user scope not supported)";
             Print "  Gemini CLI skills can only read files within project directories." ])
                  | (Raise e, w1) => (Raise e, w1)
                  end).
  { subst result. unfold install_to_assistant. unfold bind at 1.
    destruct (copy_module_to_local module local_modules w) as [[dest|e] w1];
      [| reflexivity].
    cbn. unfold console_print. simpl. now rewrite <- app_assoc. }
  split; [exact run |]. rewrite run.
  destruct (copy_module_to_local module local_modules w) as [[dest|e] w1]; exact kept.
Qed.


End InstallerProperties.

(** ** What the accumulated lists hold: the successful writes *)

Section WrittenItems.
Context {L : PathLib} {P : Platform}.
Import Config Installer.

(** An item counted by [written] is an item of the list whose write
    answered true on the file tree of its turn. *)
Lemma written_succeeded {A : Type} (write : A -> FS -> outcome bool * FS) (l : list A) :
  forall f x, In x (written write l f) ->
    In x l /\ exists f0 f1, write x f0 = (Ret true, f1).
Proof.
  induction l as [|y l IH]; intros f x mem; cbn [written] in mem; [destruct mem |].
  destruct (write y f) as [[[|]|e] f'] eqn:turn; [| | destruct mem].
  - destruct mem as [<-|mem].
    + split; [now left | now exists f, f'].
    + destruct (IH f' x mem) as [listed wrote]. split; [now right | exact wrote].
  - destruct (IH f' x mem) as [listed wrote]. split; [now right | exact wrote].
Qed.







End WrittenItems.

(** ** What the accumulated lists hold *)

Section InstalledNames.
Context {L : PathLib} {P : Platform}.
Import Config Installer.

(** A loop whose body either leaves the list it builds as it is or
    appends the image of the current item. *)
Lemma for_acc_appends {A B S : Type} (l : list A) (g : A -> B) (view : S -> list B)
    (body : S -> A -> Cmd S) :
  (forall acc x w acc' w',
     body acc x w = (Ret acc', w') ->
     view acc' = view acc \/ view acc' = (view acc ++ [g x])%list) ->
  forall acc w res w',
    for_acc l acc body w = (Ret res, w') ->
    forall n, In n (view res) -> In n (view acc) \/ exists x, In x l /\ n = g x.
Proof.
  intros step. induction l as [|x l IH]; intros acc w res w' run n Hn; simpl in run.
  - unfold ret in run. inversion run; subst. now left.
  - unfold bind in run.
    destruct (body acc x w) as [[acc1|e] w1] eqn:first; [| discriminate].
    destruct (IH acc1 w1 res w' run n Hn) as [old|[y [Hy ->]]].
    + destruct (step acc x w acc1 w1 first) as [same|grown].
      * left. now rewrite <- same.
      * rewrite grown in old. apply in_app_or in old.
        destruct old as [old|[<-|[]]]; [now left |].
        right. exists x. split; [now left | reflexivity].
    + right. exists y. split; [now right | reflexivity].
Qed.

(** Every name [install_file_skills] returns is the prefixed name of a
    skill of the module. *)
Lemma install_file_skills_names module assistant local_module_path skill_dest project_path
    w installed w' :
  install_file_skills module assistant local_module_path skill_dest project_path w
  = (Ret installed, w') ->
  forall n, In n installed ->
    exists skill_rel,
      In skill_rel (skills module) /\ n = prefixed_name (name module) (name_of skill_rel).
Proof.
  intros run n Hn. unfold install_file_skills in run.
  refine (match for_acc_appends (skills module)
                  (fun skill_rel => prefixed_name (name module) (name_of skill_rel))
                  (fun installed_skills : list string => installed_skills) _ _
                  [] w installed w' run n Hn with
          | or_introl old => match old with end
          | or_intror found => found
          end).
  intros acc x w0 acc' w0'. cbv zeta. unfold bind.
  destruct (if assistant =? "cursor" then _ else _) as [[[|]|e] w1];
    unfold console_print, ret; intros step; inversion step; auto.
Qed.

(** Every name [install_commands] returns is a command of the module. *)
Lemma install_commands_names module assistant scope project_path local_module_path
    w installed w' :
  install_commands module assistant scope project_path local_module_path w
  = (Ret installed, w') ->
  forall n, In n installed -> In n (commands module).
Proof.
  intros run n Hn. unfold install_commands in run.
  destruct (nonempty (commands module)).
  2: { unfold ret in run. inversion run; subst. destruct Hn. }
  unfold bind at 1 in run.
  destruct (get_assistant_command_path assistant scope project_path) as [dest|[msg| | |]];
    unfold bind, console_print, raise, ret in run; cbn [fst snd] in run;
    try discriminate.
  - refine (match for_acc_appends (commands module) (fun c : string => c)
                    (fun installed_commands : list string => installed_commands) _ _
                    [] _ installed w' run n Hn with
            | or_introl old => match old with end
            | or_intror (ex_intro _ c (conj Hc same)) => eq_ind_r (fun m => In m (commands module)) Hc same
            end).
    intros acc x w0 acc' w0'. cbv zeta. unfold bind.
    destruct (if assistant =? "gemini-cli" then _ else _) as [[[|]|e] w1];
      unfold console_print, ret; intros step; inversion step; auto.
  - inversion run; subst. destruct Hn.
Qed.

End InstalledNames.

(** ** Where skills may go *)

Section ScopeSupport.
Context {L : PathLib} {P : Platform}.
Import Config Installer.

Lemma known_assistant (a : string) :
  In a ASSISTANTS_keys <-> a = "claude-code" \/ a = "gemini-cli" \/ a = "cursor".
Proof.
  unfold ASSISTANTS_keys, ASSISTANTS. cbn [map fst In]. intuition congruence.
Qed.

Lemma dict_get_ASSISTANTS (a : string) :
  match dict_get a ASSISTANTS with
  | Some _ => In a ASSISTANTS_keys
  | None => ~ In a ASSISTANTS_keys
  end.
Proof.
  unfold ASSISTANTS_keys, ASSISTANTS. cbn [dict_get map fst In].
  destruct (String.eqb_spec "claude-code" a) as [<-|n1]; [now left |].
  destruct (String.eqb_spec "gemini-cli" a) as [<-|n2]; [now right; left |].
  destruct (String.eqb_spec "cursor" a) as [<-|n3]; [now right; right; left |].
  intros [H|[H|[H|[]]]]; congruence.
Qed.

(** What [get_assistant_skill_path] does for every input: it fails, with
    a [ValueError], exactly for an unknown assistant or for project
    scope without a project path. *)
Lemma get_assistant_skill_path_cases (a s : string) (pp : option string) :
  match get_assistant_skill_path a s pp with
  | Ret _ => In a ASSISTANTS_keys /\ (s = "project" -> truthy pp = true)
  | Raise e =>
      (exists msg, e = ValueError msg) /\
      (~ In a ASSISTANTS_keys \/ (s = "project" /\ truthy pp = false))
  end.
Proof.
  unfold get_assistant_skill_path.
  pose proof (dict_get_ASSISTANTS a) as known.
  destruct (dict_get a ASSISTANTS) as [[user_path project_fn]|].
  - destruct (String.eqb_spec s "project") as [->|ne].
    + destruct pp as [p|]; simpl.
      * destruct (p =? "") eqn:empty; simpl.
        -- split; [eexists; reflexivity | right; now split].
        -- split; [exact known | reflexivity].
      * split; [eexists; reflexivity | right; now split].
    + split; [exact known | intros; contradiction].
  - split; [eexists; reflexivity | now left].
Qed.

(** C7, as the code has it.  [get_assistant_skill_path] never fails for
    a known assistant at user scope, gemini-cli and cursor included: it
    fails, with a [ValueError], exactly for an unknown assistant or for
    project scope without a project path.  The two combinations are
    refused one level up: for a module with skills, [install_to_assistant]
    skips the skills with the "user scope not supported" message exactly
    when the assistant is gemini-cli or cursor and the scope is user, and
    goes on to resolve the destination in every other case.  Command path
    resolution, as the specification describes it, succeeds for every
    known assistant. *)
Theorem skill_scope_is_refused_by_the_installer :
  (forall a s pp,
     match get_assistant_skill_path a s pp with
     | Ret _ => In a ASSISTANTS_keys /\ (s = "project" -> truthy pp = true)
     | Raise e =>
         (exists msg, e = ValueError msg) /\
         (~ In a ASSISTANTS_keys \/ (s = "project" /\ truthy pp = false))
     end)
  /\
  (forall module a s pp local_module_path w,
     skills module <> [] ->
     install_skills module a s pp local_module_path w
     = if ((a =? "gemini-cli") || (a =? "cursor")) && (s =? "user")
       then
         (Ret [],
          mkWorld (fs w) (registry w)
            (console w ++
             [ Print ("[yellow]" ++ a ++ "[/yellow] skills -> skipped (user scope not supported)");
               Print (if a =? "gemini-cli"
                      then "  Gemini CLI skills can only read files within project directories."
                      else "  Cursor only supports project-level rules for skills.") ])%list
            (replies w))
       else install_skills_to_dest module a s pp local_module_path w)
  /\
  (forall command_location a s pp,
     In a ASSISTANTS_keys ->
     resolveCommandPath command_location a s pp = Ret (command_location a s pp)).
Proof.
  split; [exact get_assistant_skill_path_cases |]. split.
  - intros module a s pp lmp w has_skills. unfold install_skills.
    destruct (skills module) as [|sk rest]; [congruence |]. simpl nonempty. cbv iota.
    destruct (String.eqb_spec a "gemini-cli") as [->|ng];
      destruct (String.eqb_spec s "user") as [->|nu]; simpl; try reflexivity.
    + unfold bind, console_print, ret. simpl. now rewrite <- app_assoc.
    + destruct (String.eqb_spec a "cursor") as [->|nc]; simpl; [| reflexivity].
      unfold bind, console_print, ret. simpl. now rewrite <- app_assoc.
    + destruct (String.eqb_spec a "cursor") as [->|nc]; reflexivity.
  - intros loc a s pp known. unfold resolveCommandPath.
    pose proof (dict_get_ASSISTANTS a) as H.
    destruct (dict_get a ASSISTANTS); [reflexivity | contradiction].
Qed.

End ScopeSupport.

(** C7 as the claim words it does not hold: for gemini-cli and for cursor
    at user scope the path resolution returns the user-scope location. *)
Lemma skill_path_resolves_at_user_scope :
  Config.get_assistant_skill_path (L := Sim.paths) "gemini-cli" "user" None
  = Ret "/home/u/.gemini/GEMINI.md" /\
  Config.get_assistant_skill_path (L := Sim.paths) "cursor" "user" None
  = Ret "/home/u/.cursor/rules".
Proof. split; reflexivity. Qed.

Lemma skill_scope_is_refused_by_the_installer_witness :
  let module := mkModule "docgen" "/home/u/.lola/modules/docgen" ["summarize"] [] in
  let w := Sim.start Sim.skill_only_tree [] [] in
  skills module <> [] /\
  Installer.install_skills (L := Sim.paths) module "cursor" "user" None
    "/home/u/.lola/modules/docgen" w
  = (Ret [],
     mkWorld (fs w) (registry w)
       [ Print "[yellow]cursor[/yellow] skills -> skipped (user scope not supported)";
         Print "  Cursor only supports project-level rules for skills." ]
       (replies w)) /\
  In "cursor" (Config.ASSISTANTS_keys (L := Sim.paths)) /\
  Config.resolveCommandPath (L := Sim.paths) Sim.command_location "cursor" "user" None
  = Ret "/home/u/.cursor/commands".
Proof.
  intros module w.
  assert (has_skills : skills module <> []) by discriminate.
  assert (known : In "cursor" (Config.ASSISTANTS_keys (L := Sim.paths)))
    by (right; right; left; reflexivity).
  split; [exact has_skills |].
  split; [| split; [exact known |]].
  - exact (proj1 (proj2 (skill_scope_is_refused_by_the_installer (L := Sim.paths) (P := Sim.platform)))
             module "cursor" "user" None "/home/u/.lola/modules/docgen" w has_skills).
  - exact (proj2 (proj2 (skill_scope_is_refused_by_the_installer (L := Sim.paths) (P := Sim.platform)))
             Sim.command_location "cursor" "user" None known).
Defined.

(** ** The installer on the small platform *)

Lemma copy_onto_itself_changes_nothing_witness :
  let w := Sim.start Sim.docgen_tree [] [] in
  Sim.tree_resolve (fs w) (Sim.join "/home/u/.lola/modules" (name docgen))
  = Sim.tree_resolve (fs w) (path docgen) /\
  Installer.copy_module_to_local (L := Sim.paths) docgen "/home/u/.lola/modules" w
  = (Ret "/home/u/.lola/modules/docgen", w).
Proof.
  intros w.
  assert (same : Sim.tree_resolve (fs w) (Sim.join "/home/u/.lola/modules" (name docgen))
                 = Sim.tree_resolve (fs w) (path docgen)) by reflexivity.
  split; [exact same |].
  exact (copy_onto_itself_changes_nothing (L := Sim.paths) (P := Sim.platform)
           docgen "/home/u/.lola/modules" w same).
Defined.

(** Without the early return the same call would delete the module: the
    tree below the destination is removed before the copy is taken. *)
Example rmtree_would_delete_the_module :
  fst (Sim.tree_copytree "/home/u/.lola/modules/docgen" "/home/u/.lola/modules/docgen"
         (snd (Sim.tree_rmtree "/home/u/.lola/modules/docgen" Sim.docgen_tree)))
  = Raise (OSError "FileNotFoundError").
Proof. reflexivity. Qed.

Lemma gemini_aggregate_written_only_with_a_source_witness :
  let w := Sim.start Sim.docgen_tree [] [] in
  let missing := "/tmp/proj/.lola/modules/docgen" in
  let present := "/home/u/.lola/modules/docgen" in
  (forall s, In s (skills docgen) -> Sim.tree_exists (fs w) (Sim.join missing (@name_of Sim.paths s)) = false) /\
  Installer.install_gemini_skills (L := Sim.paths) docgen missing "/tmp/proj/GEMINI.md"
    (Some "/tmp/proj") w
  = (Ret [], mkWorld (fs w) (registry w) [Print "  [red]summarize[/red] (source not found)"] (replies w)) /\
  fs (snd (Installer.install_gemini_skills (L := Sim.paths) docgen present "/tmp/proj/GEMINI.md"
             (Some "/tmp/proj") w)) <> fs w /\
  exists s, In s (skills docgen) /\ Sim.tree_exists (fs w) (Sim.join present (@name_of Sim.paths s)) = true.
Proof.
  intros w missing present.
  assert (none : forall s, In s (skills docgen) ->
                           Sim.tree_exists (fs w) (Sim.join missing (@name_of Sim.paths s)) = false).
  { intros s [<-|[]]. reflexivity. }
  assert (changed :
    fs (snd (Installer.install_gemini_skills (L := Sim.paths) docgen present "/tmp/proj/GEMINI.md"
               (Some "/tmp/proj") w)) <> fs w).
  { vm_compute. discriminate. }
  split; [exact none |]. split; [| split; [exact changed |]].
  - exact (proj1 (gemini_aggregate_written_only_with_a_source (L := Sim.paths) (P := Sim.platform)
                    docgen missing "/tmp/proj/GEMINI.md" (Some "/tmp/proj") w) none).
  - exact (proj2 (gemini_aggregate_written_only_with_a_source (L := Sim.paths) (P := Sim.platform)
                    docgen present "/tmp/proj/GEMINI.md" (Some "/tmp/proj") w) changed).
Defined.


(** The scenarios of section 8 of the specification. *)

Example scenario_gemini_user_scope :
  let result :=
    Cli.install_cmd (L := Sim.paths) "docgen" (Some "gemini-cli") "user" None
      (Sim.start Sim.skill_only_tree [] []) in
  fst result = Ret tt /\
  registry (snd result) = [] /\
  In (Print "[yellow]gemini-cli[/yellow] skills -> skipped (user scope not supported)")
     (console (snd result)).
Proof. vm_compute. intuition. Qed.

Example scenario_claude_project_scope :
  let result :=
    Cli.install_cmd (L := Sim.paths) "docgen" (Some "claude-code") "project" (Some "/tmp/proj")
      (Sim.start Sim.docgen_tree [] []) in
  fst result = Ret tt /\
  registry (snd result)
  = [ mkInstallation "docgen" "claude-code" "project" (Some "/tmp/proj")
                     ["docgen-summarize"] ["draft"] ] /\
  Sim.lookup "/tmp/proj/.claude/skills/docgen-summarize" (fs (snd result)) = Some Sim.Dir /\
  Sim.tree_exists (fs (snd result)) "/tmp/proj/.claude/commands/docgen-draft.md" = true.
Proof. vm_compute. intuition. Qed.

(** ** The commands: frames *)

Ltac frame_by lemmas := cbv zeta; repeat first [lemmas | frame_step].

Section CliFrames.
Context {L : PathLib} {P : Platform}.
Import Config Installer Cli.
Context (R : World -> World -> Prop) {FR : Frame R} {IF : IgnoresFiles R}.

Lemma validate_project_path_keeps scope project_path :
  keeps R (validate_project_path scope project_path).
Proof. unfold validate_project_path. frame. Qed.

Lemma show_installation_keeps inst : keeps R (show_installation inst).
Proof. unfold show_installation. frame. Qed.

Lemma remove_skill_files_keeps module_name inst :
  keeps R (remove_skill_files module_name inst).
Proof. unfold remove_skill_files. frame. Qed.

Lemma remove_command_files_keeps module_name inst :
  keeps R (remove_command_files module_name inst).
Proof. unfold remove_command_files. frame. Qed.

Lemma remove_local_copy_keeps module_name inst :
  keeps R (remove_local_copy module_name inst).
Proof. unfold remove_local_copy. frame. Qed.

Lemma update_gemini_skills_keeps inst source_module skill_dest :
  keeps R (update_gemini_skills inst source_module skill_dest).
Proof. unfold update_gemini_skills. frame. Qed.

Lemma update_file_skills_keeps inst source_module skill_dest :
  keeps R (update_file_skills inst source_module skill_dest).
Proof. unfold update_file_skills. frame. Qed.

Lemma update_commands_keeps inst source_module :
  keeps R (update_commands inst source_module).
Proof. unfold update_commands. frame. Qed.

Lemma refresh_installation_keeps inst : keeps R (refresh_installation inst).
Proof.
  unfold refresh_installation.
  frame_by ltac:(first [ apply copy_module_to_local_keeps
                       | apply update_gemini_skills_keeps
                       | apply update_file_skills_keeps
                       | apply update_commands_keeps ]).
Qed.

Lemma update_one_keeps stale_installations inst :
  keeps R (update_one stale_installations inst).
Proof. unfold update_one. frame_by ltac:(apply refresh_installation_keeps). Qed.

Lemma update_cmd_keeps module_name assistant : keeps R (update_cmd module_name assistant).
Proof. unfold update_cmd. frame_by ltac:(apply update_one_keeps). Qed.

Lemma uninstall_one_keeps {IR : IgnoresRegistry R} module_name inst :
  keeps R (uninstall_one module_name inst).
Proof.
  unfold uninstall_one.
  frame_by ltac:(first [ apply remove_skill_files_keeps
                       | apply remove_command_files_keeps
                       | apply remove_local_copy_keeps ]).
Qed.

Lemma uninstall_cmd_keeps {IR : IgnoresRegistry R} {IC : IgnoresConfirm R}
    module_name assistant scope project_path force :
  keeps R (uninstall_cmd module_name assistant scope project_path force).
Proof.
  unfold uninstall_cmd, uninstall_selected, confirm_uninstall.
  frame_by ltac:(first [apply show_installation_keeps | apply uninstall_one_keeps]).
Qed.

End CliFrames.

(** ** Update: stale records *)

Section UpdateProperties.
Context {L : PathLib} {P : Platform}.
Import Config Installer Cli.

Lemma update_one_on_stale inst w stale_installations :
  is_stale (fs w) inst = true ->
  update_one stale_installations inst w
  = (Ret (stale_installations ++ [inst])%list, with_lines w (stale_report inst)).
Proof.
  intros stale. unfold update_one, bind at 1, read_fs at 1. rewrite stale.
  unfold bind, console_print, ret, with_lines, stale_report. simpl.
  now rewrite <- !app_assoc.
Qed.

Lemma update_one_on_live inst w stale_installations :
  is_stale (fs w) inst = false ->
  update_one stale_installations inst w
  = (refresh_installation inst ;; ret stale_installations) w.
Proof.
  intros live. unfold update_one, bind at 1, read_fs at 1. now rewrite live.
Qed.

(** The loop over records that are all stale: each is reported, in order,
    and all of them are counted. *)
Lemma update_loop_over_stale_records (l : list Installation) :
  forall stale_installations w,
    (forall inst, In inst l -> is_stale (fs w) inst = true) ->
    for_acc l stale_installations update_one w
    = (Ret (stale_installations ++ l)%list, with_lines w (flat_map stale_report l)).
Proof.
  induction l as [|inst l IH]; intros acc w all_stale; simpl.
  - unfold ret. now rewrite app_nil_r, with_lines_nil.
  - unfold bind at 1.
    rewrite (update_one_on_stale inst w acc (all_stale inst (or_introl eq_refl))), IH.
    + now rewrite <- app_assoc, with_lines_app.
    + intros i Hi. apply all_stale. now right.
Qed.

End UpdateProperties.


(** The scenario of section 8: the stale record is reported, counted in
    the final line, and still in the registry. *)
Example scenario_stale_detection :
  let inst :=
    mkInstallation "docgen" "claude-code" "project" (Some "/tmp/gone")
                   ["docgen-summarize"] ["draft"] in
  let w := Sim.start Sim.docgen_tree [inst] [] in
  Cli.update_cmd (L := Sim.paths) None None w
  = (Ret tt,
     mkWorld (fs w) [inst]
       [ Print "[bold]Updating 1 installation(s)...[/bold]";
         Print "";
         Print "[red]docgen[/red] (claude-code)";
         Print "  [red]Project path no longer exists: /tmp/gone[/red]";
         Print "  [dim]Run 'lola uninstall docgen' to remove this stale entry[/dim]";
         Print "";
         Print "[yellow]Found 1 stale installation(s)[/yellow]";
         Print "[bold green]Update complete[/bold green]" ]
       []).
Proof. reflexivity. Qed.

(** ** Install: what the record carries *)

Section InstallProperties.
Context {L : PathLib} {P : Platform}.
Import Config Installer Cli.

Lemma registry_add_registers (Q : Installation -> Prop) inst :
  Q inst -> keeps (registers Q) (registry_write (registry_add inst)).
Proof.
  intros HQ w i. unfold registry_write, registry_add. simpl. intros Hi.
  apply in_app_or in Hi. destruct Hi as [Hi|[<-|[]]].
  - left. apply filter_In in Hi. tauto.
  - now right.
Qed.

Lemma install_to_assistant_registers (Q : Installation -> Prop)
    module assistant scope project_path local_modules :
  (forall sk cm, Q (mkInstallation (name module) assistant scope project_path sk cm)) ->
  keeps (registers Q) (install_to_assistant module assistant scope project_path local_modules).
Proof.
  intros HQ. unfold install_to_assistant.
  frame_by ltac:(first [ apply copy_module_to_local_keeps
                       | apply install_skills_keeps
                       | apply install_commands_keeps
                       | apply registry_add_registers; apply HQ ]).
Qed.

(** What [validate_project_path] hands on when it returns: a path for
    project scope, the argument as it is otherwise. *)
Lemma validate_project_path_returns scope project_path w a w' :
  validate_project_path scope project_path w = (Ret a, w') ->
  (scope = "project" -> a <> None) /\ (scope <> "project" -> a = project_path).
Proof.
  unfold validate_project_path.
  destruct (String.eqb_spec scope "project") as [->|other].
  - destruct (if truthy project_path then project_path else None) as [given|].
    + unfold bind, read_fs, console_print, raise, ret.
      destruct (exists_ (fs w) (PathOf (resolve (fs w) (PathOf given)))); cbn [negb];
        intros run; inversion run; subst.
      split; [discriminate | congruence].
    + unfold bind, console_print, raise. intros run. inversion run.
  - unfold ret. intros run. inversion run; subst. split; [contradiction | reflexivity].
Qed.

(** C5, as the code has it.  Every record that [install_cmd] leaves in the
    registry was there before or carries the scope of the call, and then:
    for project scope its project path is present; for any other scope its
    project path is the argument that was passed, so it is null exactly
    when no path was given. *)
Theorem install_records_scope_and_given_path
    module_name assistant scope project_path w i :
  In i (registry (snd (install_cmd module_name assistant scope project_path w))) ->
  In i (registry w) \/
  (Models.scope i = scope /\
   (scope = "project" -> Models.project_path i <> None) /\
   (scope <> "project" -> Models.project_path i = project_path)).
Proof.
  set (Q := fun i : Installation =>
              Models.scope i = scope /\
              (scope = "project" -> Models.project_path i <> None) /\
              (scope <> "project" -> Models.project_path i = project_path)).
  assert (kept : keeps (registers Q) (install_cmd module_name assistant scope project_path)).
  { unfold install_cmd. apply keeps_bind; [exact _ | apply ignores_files | intros _].
    apply keeps_bind_returned
      with (post := fun a => (scope = "project" -> a <> None) /\
                             (scope <> "project" -> a = project_path));
      [exact _ | apply validate_project_path_keeps; exact _
      | intros w0 a w' run; exact (validate_project_path_returns _ _ _ _ _ run) |].
    intros a [present given].
    frame_by ltac:(apply install_to_assistant_registers; intros sk cm; subst Q; simpl;
                   split; [reflexivity | split; assumption]). }
  intros Hi. exact (kept w i Hi).
Qed.

End InstallProperties.

(** C5 as the claim words it does not hold: [lola install docgen -a
    claude-code /tmp/proj], at the default user scope, leaves a user-scope
    record whose project path is not null. *)
Lemma user_scope_record_keeps_the_given_path :
  let result :=
    Cli.install_cmd (L := Sim.paths) "docgen" (Some "claude-code") "user" (Some "/tmp/proj")
      (Sim.start Sim.docgen_tree [] []) in
  fst result = Ret tt /\
  registry (snd result)
  = [ mkInstallation "docgen" "claude-code" "user" (Some "/tmp/proj")
                     ["docgen-summarize"] ["draft"] ].
Proof. split; reflexivity. Qed.

Lemma install_records_scope_and_given_path_witness :
  let w := Sim.start Sim.docgen_tree [] [] in
  let i :=
    mkInstallation "docgen" "cursor" "project" (Some "/tmp/proj")
                   ["docgen-summarize"] ["draft"] in
  In i (registry (snd (Cli.install_cmd (L := Sim.paths) "docgen" None "project"
                         (Some "/tmp/proj") w))) /\
  (In i (registry w) \/
   (scope i = "project" /\
    ("project" = "project" -> project_path i <> None) /\
    ("project" <> "project" -> project_path i = Some "/tmp/proj"))).
Proof.
  intros w i.
  assert (recorded : In i (registry (snd (Cli.install_cmd (L := Sim.paths) "docgen" None
                                            "project" (Some "/tmp/proj") w)))).
  { vm_compute. right. right. left. reflexivity. }
  split; [exact recorded |].
  exact (install_records_scope_and_given_path (L := Sim.paths) (P := Sim.platform)
           "docgen" None "project" (Some "/tmp/proj") w i recorded).
Defined.

(** ** Uninstall: the confirmation *)

Section UninstallProperties.
Context {L : PathLib} {P : Platform}.
Import Config Installer Cli.

Lemma run_bind {A B : Type} (c : Cmd A) (k : A -> Cmd B) w a w' :
  c w = (Ret a, w') -> bind c k w = k a w'.
Proof. intros run. unfold bind. now rewrite run. Qed.

Lemma run_print line w : console_print line w = (Ret tt, with_lines w [Print line]).
Proof. reflexivity. Qed.

Lemma just_prints_ret : just_prints (ret tt).
Proof. intros w. exists []. split; [unfold ret; now rewrite with_lines_nil | constructor]. Qed.

Lemma just_prints_print line : just_prints (console_print line).
Proof. intros w. exists [Print line]. split; [reflexivity | repeat constructor]. Qed.

Lemma just_prints_seq (c : Cmd unit) (k : unit -> Cmd unit) :
  just_prints c -> just_prints (k tt) -> just_prints (bind c k).
Proof.
  intros Hc Hk w. destruct (Hc w) as [l1 [E1 F1]].
  destruct (Hk (with_lines w l1)) as [l2 [E2 F2]].
  exists (l1 ++ l2)%list. split.
  - rewrite (run_bind _ _ _ _ _ E1), E2. now rewrite with_lines_app.
  - apply Forall_app. now split.
Qed.

Lemma just_prints_for_each {A : Type} (l : list A) (body : A -> Cmd unit) :
  (forall x, just_prints (body x)) -> just_prints (for_each l body).
Proof.
  intros Hb. induction l as [|x l IH]; simpl.
  - apply just_prints_ret.
  - apply just_prints_seq; [apply Hb | exact IH].
Qed.

Lemma show_installation_just_prints inst : just_prints (show_installation inst).
Proof.
  unfold show_installation.
  repeat first [ apply just_prints_seq | apply just_prints_print | apply just_prints_ret
               | match goal with |- just_prints (match ?x with _ => _ end) => destruct x end ].
Qed.

Lemma uninstall_matches_nil f assistant scope project_path :
  uninstall_matches f assistant scope project_path [] = [].
Proof.
  unfold uninstall_matches.
  destruct (if truthy assistant then assistant else None);
    destruct (if truthy scope then scope else None);
    destruct (if truthy project_path then project_path else None); reflexivity.
Qed.

Lemma confirm_uninstall_asks installations w :
  1 < length installations ->
  let shown := (console w ++ question_lines ++ [Confirm "Uninstall all?"])%list in
  confirm_uninstall false installations w
  = match replies w with
    | [] => (Raise ClickAbort, mkWorld (fs w) (registry w) shown [])
    | false :: rest =>
        (Ret false,
         mkWorld (fs w) (registry w) (shown ++ [Print "[yellow]Cancelled[/yellow]"])%list rest)
    | true :: rest => (Ret true, mkWorld (fs w) (registry w) shown rest)
    end.
Proof.
  intros many. unfold confirm_uninstall.
  apply Nat.ltb_lt in many. rewrite many. cbn [negb andb].
  unfold bind, console_print, click_confirm, ret, question_lines.
  cbn [fs registry console replies].
  destruct (replies w) as [|[|] rest]; cbn [negb fs registry console replies];
    rewrite <- ?app_assoc; reflexivity.
Qed.

(** What [uninstall_selected] does with two records or more and no force
    flag: it lists them, asks, and only then, if the answer is yes, starts
    to remove. *)
Lemma uninstall_selected_asks module_name installations w :
  1 < length installations ->
  exists lines,
    Forall is_print lines /\
    let shown := (console w ++ lines ++ [Confirm "Uninstall all?"])%list in
    uninstall_selected module_name false installations w
    = match replies w with
      | [] => (Raise ClickAbort, mkWorld (fs w) (registry w) shown [])
      | false :: rest =>
          (Ret tt,
           mkWorld (fs w) (registry w) (shown ++ [Print "[yellow]Cancelled[/yellow]"])%list rest)
      | true :: rest =>
          (for_each installations (uninstall_one module_name) ;;
           console_print "" ;;
           console_print ("[bold green]Uninstalled '" ++ module_name ++ "'[/bold green]"))
            (mkWorld (fs w) (registry w) shown rest)
      end.
Proof.
  intros many. unfold uninstall_selected.
  assert (some : negb (nonempty installations) = false).
  { destruct installations; [simpl in many; lia | reflexivity]. }
  rewrite some.
  assert (listing : just_prints
            (console_print ("[bold]Found " ++ str_of_nat (length installations)
                            ++ " installation(s) of '" ++ module_name ++ "':[/bold]") ;;
             console_print "" ;;
             for_each installations show_installation ;;
             console_print "")).
  { repeat first [ apply just_prints_for_each; intros; apply show_installation_just_prints
                 | apply just_prints_seq | apply just_prints_print ]. }
  destruct (listing w) as [listed [run printed_only]].
  exists (listed ++ question_lines)%list. split.
  { apply Forall_app. split; [exact printed_only | repeat constructor]. }
  cbv zeta.
  assert (regroup : forall (k : Cmd unit),
            (console_print ("[bold]Found " ++ str_of_nat (length installations)
                            ++ " installation(s) of '" ++ module_name ++ "':[/bold]") ;;
             console_print "" ;;
             for_each installations show_installation ;;
             console_print "" ;; k) w
            = k (with_lines w listed)).
  { intros k. unfold bind in run |- *.
    destruct (console_print _ w) as [[[]|e] w1]; [| discriminate].
    destruct (console_print "" w1) as [[[]|e] w2]; [| discriminate].
    destruct (for_each installations show_installation w2) as [[[]|e] w3]; [| discriminate].
    destruct (console_print "" w3) as [[[]|e] w4]; [| discriminate].
    now inversion run. }
  rewrite regroup. unfold bind at 1.
  rewrite (confirm_uninstall_asks installations (with_lines w listed) many).
  unfold with_lines. cbn [fs registry console replies].
  destruct (replies w) as [|[|] rest]; cbn [negb]; rewrite <- ?app_assoc; reflexivity.
Qed.

Lemma uninstall_selected_quiet module_name force installations :
  length installations <= 1 \/ force = true ->
  keeps only_prints (uninstall_selected module_name force installations).
Proof.
  intros few. unfold uninstall_selected, confirm_uninstall.
  assert (no_question : Nat.ltb 1 (length installations) && negb force = false).
  { destruct few as [few| ->]; [| apply andb_false_r].
    apply andb_false_intro1. now apply Nat.ltb_ge. }
  rewrite no_question.
  frame_by ltac:(first [apply show_installation_keeps | apply uninstall_one_keeps]).
Qed.

(** C6. After [ensure_lola_dirs], let [installations] be the records of
    the module left by the filters.  With more than one of them and no
    force flag, [uninstall_cmd] lists them and asks "Uninstall all?" while
    the file tree and the registry are still untouched; if the answer is
    no (or the input ends) it stops there, with the file tree and the
    registry as they were, and only on yes does it go on to remove.  With
    at most one record, or with the force flag, nothing is asked: all that
    reaches the console is printed lines. *)
Theorem uninstall_asks_before_removing_many
    module_name assistant scope project_path force w w0 :
  on_fs ensure_lola_dirs w = (Ret tt, w0) ->
  let installations :=
    uninstall_matches (fs w0) assistant scope project_path
                      (registry_find module_name (registry w0)) in
  (1 < length installations -> force = false ->
   exists lines,
     Forall is_print lines /\
     let shown := (console w0 ++ lines ++ [Confirm "Uninstall all?"])%list in
     uninstall_cmd module_name assistant scope project_path force w
     = match replies w0 with
       | [] => (Raise ClickAbort, mkWorld (fs w0) (registry w0) shown [])
       | false :: rest =>
           (Ret tt,
            mkWorld (fs w0) (registry w0)
                    (shown ++ [Print "[yellow]Cancelled[/yellow]"])%list rest)
       | true :: rest =>
           (for_each installations (uninstall_one module_name) ;;
            console_print "" ;;
            console_print ("[bold green]Uninstalled '" ++ module_name ++ "'[/bold green]"))
             (mkWorld (fs w0) (registry w0) shown rest)
       end)
  /\
  (length installations <= 1 \/ force = true ->
   only_prints w (snd (uninstall_cmd module_name assistant scope project_path force w))).
Proof.
  intros prepared installations.
  assert (same_console : console w0 = console w).
  { unfold on_fs in prepared. destruct (ensure_lola_dirs (fs w)).
    inversion prepared. reflexivity. }
  assert (run : uninstall_cmd module_name assistant scope project_path force w
                = if negb (nonempty (registry_find module_name (registry w0)))
                  then console_print ("[yellow]No installations found for '" ++ module_name
                                      ++ "'[/yellow]") w0
                  else uninstall_selected module_name force installations w0).
  { unfold uninstall_cmd. rewrite (run_bind _ _ _ _ _ prepared).
    unfold bind at 1, registry_all. cbv zeta.
    destruct (negb (nonempty (registry_find module_name (registry w0)))); reflexivity. }
  split.
  - intros many ->. rewrite run.
    destruct (registry_find module_name (registry w0)) as [|i found] eqn:records.
    + subst installations. rewrite uninstall_matches_nil in many. simpl in many. lia.
    + cbn [nonempty negb]. exact (uninstall_selected_asks module_name installations w0 many).
  - intros few. rewrite run.
    destruct (negb (nonempty (registry_find module_name (registry w0)))).
    + exists [Print ("[yellow]No installations found for '" ++ module_name ++ "'[/yellow]")].
      split; [cbn; now rewrite same_console | repeat constructor].
    + destruct (uninstall_selected_quiet module_name force installations few w0)
        as [lines [grown printed_only]].
      exists lines. split; [now rewrite grown, same_console | exact printed_only].
Qed.

End UninstallProperties.

(** ** Update: a stale record in a run *)

Section StaleRecords.
Context {L : PathLib} {P : Platform}.
Import Config Installer Cli.




End StaleRecords.


Lemma uninstall_asks_before_removing_many_witness :
  let w := mkWorld (fs after_install) (registry after_install) [] [false] in
  let refused := Cli.uninstall_cmd (L := Sim.paths) "docgen" None None None false w in
  let forced := Cli.uninstall_cmd (L := Sim.paths) "docgen" None None None true w in
  on_fs ensure_lola_dirs w = (Ret tt, w) /\
  1 < length (Cli.uninstall_matches (L := Sim.paths) (fs w) None None None
                (registry_find "docgen" (registry w))) /\
  (fst refused = Ret tt /\
   fs (snd refused) = fs w /\
   registry (snd refused) = registry w /\
   In (Confirm "Uninstall all?") (console (snd refused))) /\
  only_prints w (snd forced).
Proof.
  intros w refused forced.
  assert (prepared : on_fs ensure_lola_dirs w = (Ret tt, w)) by reflexivity.
  assert (many : 1 < length (Cli.uninstall_matches (L := Sim.paths) (fs w) None None None
                               (registry_find "docgen" (registry w))))
    by (vm_compute; lia).
  split; [exact prepared |]. split; [exact many |].
  split.
  - destruct (proj1 (uninstall_asks_before_removing_many (L := Sim.paths) (P := Sim.platform)
                       "docgen" None None None false w w prepared) many eq_refl)
      as [lines [_ run]].
    cbv zeta in run. change (replies w) with [false] in run.
    subst refused. rewrite run. cbn [fst snd fs registry console].
    repeat split. apply in_or_app. left. apply in_or_app. right.
    apply in_or_app. right. now left.
  - exact (proj2 (uninstall_asks_before_removing_many (L := Sim.paths) (P := Sim.platform)
                    "docgen" None None None true w w prepared) (or_intror eq_refl)).
Defined.

(** The scenario of section 8: two assistants or more, no force flag, no
    filter: the question is asked, and on "no" everything stays. *)
Example scenario_uninstall_asks :
  let w := mkWorld (fs after_install) (registry after_install) [] [false] in
  let result := Cli.uninstall_cmd (L := Sim.paths) "docgen" None None None false w in
  fst result = Ret tt /\
  fs (snd result) = fs w /\ registry (snd result) = registry w /\
  last (console (snd result)) (Print "") = Print "[yellow]Cancelled[/yellow]" /\
  registry (snd (Cli.uninstall_cmd (L := Sim.paths) "docgen" None None None false
                   (mkWorld (fs after_install) (registry after_install) [] [true])))
  = [].
Proof. vm_compute. repeat split. Qed.

(** ** Uninstall: artifacts that are already gone *)

Section RemovalProperties.
Context {L : PathLib} {P : Platform}.
Import Config Installer Cli.

Lemma for_each_absent {A : Type} (l : list A) (target : A -> Path)
    (removal : A -> Cmd unit) w :
  (forall x, In x l -> exists_ (fs w) (target x) = false) ->
  for_each l (fun x =>
                found <- read_fs (fun f => exists_ f (target x)) ;;
                if found then removal x else ret tt) w
  = (Ret tt, w).
Proof.
  induction l as [|x l IH]; intros absent; simpl; [reflexivity |].
  unfold bind at 1. unfold bind at 1. unfold read_fs at 1.
  rewrite (absent x (or_introl eq_refl)). unfold ret at 1.
  apply IH. intros y Hy. apply absent. now right.
Qed.

Lemma printed_refl w : printed w w.
Proof. apply frame_refl. Qed.

Lemma printed_line w line : printed w (with_lines w [Print line]).
Proof. exists [Print line]. split; [reflexivity | repeat constructor]. Qed.

Lemma remove_skill_files_absent module_name inst w :
  (assistant inst = "gemini-cli" -> inst_skills inst = []) ->
  skill_artifacts_absent (fs w) inst ->
  exists w1, printed w w1 /\ remove_skill_files module_name inst w = (Ret tt, w1).
Proof.
  intros no_aggregate absent. unfold remove_skill_files.
  destruct (inst_skills inst) as [|sk rest] eqn:recorded.
  { exists w. split; [apply printed_refl | reflexivity]. }
  cbn [nonempty]. unfold skill_artifacts_absent in absent. rewrite recorded in absent.
  pose proof (get_assistant_skill_path_cases (assistant inst) (scope inst) (project_path inst))
    as resolved.
  destruct (get_assistant_skill_path (assistant inst) (scope inst) (project_path inst))
    as [skill_dest|e].
  - exists w. split; [apply printed_refl |].
    unfold bind at 1. unfold ret at 1.
    destruct (String.eqb_spec (assistant inst) "gemini-cli") as [gemini|not_gemini].
    { specialize (no_aggregate gemini). discriminate. }
    unfold skill_artifact in absent.
    destruct (assistant inst =? "cursor").
    + apply (for_each_absent (sk :: rest) (fun s => skill_dest // (s ++ ".mdc"))).
      intros s Hs. now apply absent.
    + apply (for_each_absent (sk :: rest) (fun s => skill_dest // s)).
      intros s Hs. now apply absent.
  - destruct resolved as [[msg ->] _].
    exists (with_lines w [Print ("[red]Cannot determine skill path for " ++ assistant inst
                                 ++ "/" ++ scope inst ++ "[/red]")]).
    split; [apply printed_line | reflexivity].
Qed.

Lemma remove_command_files_absent module_name inst w :
  command_artifacts_absent (fs w) module_name inst ->
  exists w1, printed w w1 /\ remove_command_files module_name inst w = (Ret tt, w1).
Proof.
  intros absent. unfold remove_command_files.
  destruct (inst_commands inst) as [|cmd rest] eqn:recorded.
  { exists w. split; [apply printed_refl | reflexivity]. }
  cbn [nonempty]. unfold command_artifacts_absent in absent. rewrite recorded in absent.
  destruct absent as [none|absent]; [discriminate |].
  destruct (get_assistant_command_path (assistant inst) (scope inst) (project_path inst))
    as [command_dest|[msg| | |]]; try contradiction.
  - exists w. split; [apply printed_refl |].
    unfold bind at 1. unfold ret at 1.
    apply (for_each_absent (cmd :: rest)
             (fun c => command_dest // get_command_filename (assistant inst) module_name c)).
    exact absent.
  - exists (with_lines w [Print ("[red]Cannot determine command path for " ++ assistant inst
                                 ++ "/" ++ scope inst ++ "[/red]")]).
    split; [apply printed_line | reflexivity].
Qed.

Lemma remove_local_copy_absent module_name inst w :
  local_copy_absent (fs w) module_name inst ->
  remove_local_copy module_name inst w = (Ret tt, w).
Proof.
  unfold local_copy_absent, remove_local_copy. intros [user|[no_link no_copy]].
  - now rewrite user.
  - destruct ((scope inst =? "project") && truthy (project_path inst)); [| reflexivity].
    cbv zeta. unfold bind, read_fs. now rewrite no_link, no_copy.
Qed.

(** A record whose artifacts are all absent: the two removal phases
    return having at most printed, and the uninstall goes on. *)
Lemma absent_record_is_passed_over module_name inst w :
  (assistant inst = "gemini-cli" -> inst_skills inst = []) ->
  skill_artifacts_absent (fs w) inst ->
  command_artifacts_absent (fs w) module_name inst ->
  exists w1,
    printed w w1 /\
    (remove_skill_files module_name inst ;; remove_command_files module_name inst) w
    = (Ret tt, w1) /\
    uninstall_one module_name inst w
    = (remove_local_copy module_name inst ;;
       registry_write
         (registry_remove module_name (assistant inst) (scope inst) (project_path inst))) w1 /\
    (local_copy_absent (fs w) module_name inst ->
     uninstall_one module_name inst w
     = (Ret tt,
        mkWorld (fs w)
          (registry_remove module_name (assistant inst) (scope inst) (project_path inst)
                           (registry w))
          (console w1) (replies w))).
Proof.
  intros no_aggregate skills_absent commands_absent.
  destruct (remove_skill_files_absent module_name inst w no_aggregate skills_absent)
    as [w1 [printed1 run1]].
  assert (commands_absent1 : command_artifacts_absent (fs w1) module_name inst)
    by now rewrite (printed_same_files _ _ printed1).
  destruct (remove_command_files_absent module_name inst w1 commands_absent1)
    as [w2 [printed2 run2]].
  assert (printed12 : printed w w2) by (eapply frame_trans; eassumption).
  exists w2. split; [exact printed12 |].
  assert (phases : (remove_skill_files module_name inst ;;
                    remove_command_files module_name inst) w = (Ret tt, w2))
    by now rewrite (run_bind _ _ _ _ _ run1).
  assert (rest : uninstall_one module_name inst w
                 = (remove_local_copy module_name inst ;;
                    registry_write
                      (registry_remove module_name (assistant inst) (scope inst)
                                       (project_path inst))) w2).
  { unfold uninstall_one. rewrite (run_bind _ _ _ _ _ run1).
    now rewrite (run_bind _ _ _ _ _ run2). }
  split; [exact phases |]. split; [exact rest |].
  intros no_copy. rewrite rest.
  assert (no_copy2 : local_copy_absent (fs w2) module_name inst)
    by now rewrite (printed_same_files _ _ printed12).
  rewrite (run_bind _ _ _ _ _ (remove_local_copy_absent module_name inst w2 no_copy2)).
  destruct printed12 as [lines [-> _]]. reflexivity.
Qed.

Lemma for_each_app {A : Type} (l1 l2 : list A) (body : A -> Cmd unit) w :
  for_each (l1 ++ l2) body w = (for_each l1 body ;; for_each l2 body) w.
Proof.
  revert w. induction l1 as [|x l1 IH]; intros w; cbn [app for_each].
  - reflexivity.
  - unfold bind at 1 2 3. destruct (body x w) as [[[]|e] w1]; [| reflexivity].
    rewrite IH. reflexivity.
Qed.

(** A guarded loop passes over an item whose target is absent when its
    turn comes, whatever it does for the items before and after. *)
Lemma guarded_loop_skips {A : Type} (before : list A) (x : A) (after : list A)
    (target : A -> Path) (removal : A -> Cmd unit) w w1 :
  let body := fun y =>
                found <- read_fs (fun f => exists_ f (target y)) ;;
                if found then removal y else ret tt in
  for_each before body w = (Ret tt, w1) ->
  exists_ (fs w1) (target x) = false ->
  for_each (before ++ x :: after) body w = for_each after body w1.
Proof.
  intros body removed absent. rewrite for_each_app. unfold bind at 1. rewrite removed.
  cbn [for_each]. unfold bind at 1. unfold body at 1. unfold bind at 1.
  unfold read_fs at 1. rewrite absent. reflexivity.
Qed.

Lemma remove_skill_files_loop module_name inst skill_dest w :
  assistant inst <> "gemini-cli" ->
  get_assistant_skill_path (assistant inst) (scope inst) (project_path inst) = Ret skill_dest ->
  remove_skill_files module_name inst w
  = for_each (inst_skills inst)
      (fun skill_name =>
         found <- read_fs (fun f => exists_ f (skill_artifact inst skill_dest skill_name)) ;;
         if found then
           (if assistant inst =? "cursor"
            then on_fs (unlink (skill_dest // (skill_name ++ ".mdc")))
            else on_fs (rmtree (skill_dest // skill_name))) ;;
           console_print ("[green]Removed: " ++ skill_artifact inst skill_dest skill_name
                          ++ "[/green]")
         else ret tt) w.
Proof.
  intros not_gemini resolved. unfold remove_skill_files.
  destruct (inst_skills inst) as [|first others] eqn:recorded; [reflexivity |].
  cbn [nonempty]. rewrite <- recorded. rewrite resolved.
  unfold bind at 1. unfold ret at 1.
  destruct (String.eqb_spec (assistant inst) "gemini-cli") as [gemini|_]; [contradiction |].
  unfold skill_artifact. now destruct (assistant inst =? "cursor").
Qed.

Lemma remove_command_files_loop module_name inst command_dest w :
  get_assistant_command_path (assistant inst) (scope inst) (project_path inst)
  = Ret command_dest ->
  remove_command_files module_name inst w
  = for_each (inst_commands inst)
      (fun cmd_name =>
         found <-
           read_fs (fun f =>
                      exists_ f (command_dest
                                 // get_command_filename (assistant inst) module_name cmd_name)) ;;
         if found then
           on_fs (unlink (command_dest
                          // get_command_filename (assistant inst) module_name cmd_name)) ;;
           console_print ("[green]Removed: "
                          ++ (command_dest
                              // get_command_filename (assistant inst) module_name cmd_name)
                          ++ "[/green]")
         else ret tt) w.
Proof.
  intros resolved. unfold remove_command_files.
  destruct (inst_commands inst) as [|first others] eqn:recorded; [reflexivity |].
  cbn [nonempty]. rewrite <- recorded. rewrite resolved.
  unfold bind at 1. unfold ret at 1. reflexivity.
Qed.

(** C8. Each removal of [uninstall_cmd] is guarded, artifact by artifact.
    Take a record and one of its skills (for claude-code its directory,
    for cursor its rule file) or one of its commands, at any place in the
    list, and suppose the artifact is absent on disk when its turn comes,
    the artifacts before it removed or passed over: then nothing is done
    for it, no removal is called and nothing raises, and the phase goes on
    with the artifacts after it from the same world, whether or not those
    are present.  A record whose artifacts are all absent is passed over
    with the file tree untouched.  And whenever the uninstall of a record
    returns, the record has been removed from the registry.  (The
    aggregate document of gemini-cli is not one of these artifacts: its
    removal is one call without a check.) *)
Theorem removing_absent_artifacts_is_a_noop module_name inst :
  (forall before skill_name after skill_dest w w1,
     assistant inst <> "gemini-cli" ->
     get_assistant_skill_path (assistant inst) (scope inst) (project_path inst)
     = Ret skill_dest ->
     inst_skills inst = (before ++ skill_name :: after)%list ->
     remove_skill_files module_name (with_skills inst before) w = (Ret tt, w1) ->
     exists_ (fs w1) (skill_artifact inst skill_dest skill_name) = false ->
     remove_skill_files module_name inst w
     = remove_skill_files module_name (with_skills inst after) w1) /\
  (forall before cmd_name after command_dest w w1,
     get_assistant_command_path (assistant inst) (scope inst) (project_path inst)
     = Ret command_dest ->
     inst_commands inst = (before ++ cmd_name :: after)%list ->
     remove_command_files module_name (with_commands inst before) w = (Ret tt, w1) ->
     exists_ (fs w1)
       (command_dest // get_command_filename (assistant inst) module_name cmd_name) = false ->
     remove_command_files module_name inst w
     = remove_command_files module_name (with_commands inst after) w1) /\
  (forall w,
     (assistant inst = "gemini-cli" -> inst_skills inst = []) ->
     skill_artifacts_absent (fs w) inst ->
     command_artifacts_absent (fs w) module_name inst ->
     exists w1,
       printed w w1 /\
       (remove_skill_files module_name inst ;; remove_command_files module_name inst) w
       = (Ret tt, w1) /\
       uninstall_one module_name inst w
       = (remove_local_copy module_name inst ;;
          registry_write
            (registry_remove module_name (assistant inst) (scope inst) (project_path inst))) w1 /\
       (local_copy_absent (fs w) module_name inst ->
        uninstall_one module_name inst w
        = (Ret tt,
           mkWorld (fs w)
             (registry_remove module_name (assistant inst) (scope inst) (project_path inst)
                              (registry w))
             (console w1) (replies w)))) /\
  (forall w w',
     uninstall_one module_name inst w = (Ret tt, w') ->
     registry w'
     = registry_remove module_name (assistant inst) (scope inst) (project_path inst)
         (registry w)).
Proof.
  split; [| split; [| split]].
  - intros before skill_name after skill_dest w w1 not_gemini resolved recorded removed absent.
    rewrite (remove_skill_files_loop module_name inst skill_dest w not_gemini resolved).
    rewrite (remove_skill_files_loop module_name (with_skills inst after) skill_dest w1
               not_gemini resolved).
    rewrite (remove_skill_files_loop module_name (with_skills inst before) skill_dest w
               not_gemini resolved) in removed.
    rewrite recorded. cbn [with_skills inst_skills assistant] in *.
    exact (guarded_loop_skips before skill_name after
             (fun s => skill_artifact inst skill_dest s)
             (fun s =>
                (if assistant inst =? "cursor"
                 then on_fs (unlink (skill_dest // (s ++ ".mdc")))
                 else on_fs (rmtree (skill_dest // s))) ;;
                console_print ("[green]Removed: " ++ skill_artifact inst skill_dest s
                               ++ "[/green]"))
             w w1 removed absent).
  - intros before cmd_name after command_dest w w1 resolved recorded removed absent.
    rewrite (remove_command_files_loop module_name inst command_dest w resolved).
    rewrite (remove_command_files_loop module_name (with_commands inst after) command_dest w1
               resolved).
    rewrite (remove_command_files_loop module_name (with_commands inst before) command_dest w
               resolved) in removed.
    rewrite recorded. cbn [with_commands inst_commands assistant] in *.
    exact (guarded_loop_skips before cmd_name after
             (fun c => command_dest // get_command_filename (assistant inst) module_name c)
             (fun c =>
                on_fs (unlink (command_dest
                               // get_command_filename (assistant inst) module_name c)) ;;
                console_print ("[green]Removed: "
                               ++ (command_dest
                                   // get_command_filename (assistant inst) module_name c)
                               ++ "[/green]"))
             w w1 removed absent).
  - intros w. apply absent_record_is_passed_over.
  - intros w w'. unfold uninstall_one. unfold bind at 1.
    pose proof (remove_skill_files_keeps same_registry module_name inst w) as K1.
    destruct (remove_skill_files module_name inst w) as [[[]|e] w1]; [| discriminate].
    unfold bind at 1.
    pose proof (remove_command_files_keeps same_registry module_name inst w1) as K2.
    destruct (remove_command_files module_name inst w1) as [[[]|e] w2]; [| discriminate].
    unfold bind at 1.
    pose proof (remove_local_copy_keeps same_registry module_name inst w2) as K3.
    destruct (remove_local_copy module_name inst w2) as [[[]|e] w3]; [| discriminate].
    unfold same_registry in *. cbn [snd] in *.
    unfold registry_write. intros run. inversion run. cbn [registry]. congruence.
Qed.

End RemovalProperties.

Lemma removing_absent_artifacts_is_a_noop_witness :
  let mixed :=
    mkInstallation "docgen" "claude-code" "project" (Some "/tmp/proj")
                   ["docgen-summarize"; "docgen-ghost"] ["draft"] in
  let w := mkWorld (fs after_install) [mixed] [] [] in
  let w1 :=
    snd (Cli.remove_skill_files (L := Sim.paths) "docgen"
           (with_skills mixed ["docgen-summarize"]) w) in
  let skill_dest := "/tmp/proj/.claude/skills" in
  assistant mixed <> "gemini-cli" /\
  Config.get_assistant_skill_path (L := Sim.paths) (assistant mixed) (scope mixed)
    (project_path mixed) = Ret skill_dest /\
  inst_skills mixed = (["docgen-summarize"] ++ "docgen-ghost" :: [])%list /\
  exists_ (Platform := Sim.platform) (fs w)
    (skill_artifact (L := Sim.paths) mixed skill_dest "docgen-summarize") = true /\
  Cli.remove_skill_files (L := Sim.paths) "docgen" (with_skills mixed ["docgen-summarize"]) w
  = (Ret tt, w1) /\
  exists_ (Platform := Sim.platform) (fs w1)
    (skill_artifact (L := Sim.paths) mixed skill_dest "docgen-summarize") = false /\
  exists_ (Platform := Sim.platform) (fs w1)
    (skill_artifact (L := Sim.paths) mixed skill_dest "docgen-ghost") = false /\
  Cli.remove_skill_files (L := Sim.paths) "docgen" mixed w = (Ret tt, w1) /\
  registry (snd (Cli.uninstall_one (L := Sim.paths) "docgen" mixed w)) = [].
Proof.
  intros mixed w w1 skill_dest.
  assert (not_gemini : assistant mixed <> "gemini-cli") by discriminate.
  assert (resolved : Config.get_assistant_skill_path (L := Sim.paths) (assistant mixed)
                       (scope mixed) (project_path mixed) = Ret skill_dest) by reflexivity.
  assert (recorded : inst_skills mixed = (["docgen-summarize"] ++ "docgen-ghost" :: [])%list)
    by reflexivity.
  assert (present : exists_ (Platform := Sim.platform) (fs w)
                      (skill_artifact (L := Sim.paths) mixed skill_dest "docgen-summarize")
                    = true) by (vm_compute; reflexivity).
  assert (removed : Cli.remove_skill_files (L := Sim.paths) "docgen"
                      (with_skills mixed ["docgen-summarize"]) w = (Ret tt, w1))
    by (vm_compute; reflexivity).
  assert (gone : exists_ (Platform := Sim.platform) (fs w1)
                   (skill_artifact (L := Sim.paths) mixed skill_dest "docgen-summarize")
                 = false) by (vm_compute; reflexivity).
  assert (absent : exists_ (Platform := Sim.platform) (fs w1)
                     (skill_artifact (L := Sim.paths) mixed skill_dest "docgen-ghost")
                   = false) by (vm_compute; reflexivity).
  assert (returned : Cli.uninstall_one (L := Sim.paths) "docgen" mixed w
                     = (Ret tt, snd (Cli.uninstall_one (L := Sim.paths) "docgen" mixed w)))
    by (vm_compute; reflexivity).
  destruct (removing_absent_artifacts_is_a_noop (L := Sim.paths) (P := Sim.platform)
              "docgen" mixed) as (guarded & _ & _ & dropped).
  do 7 (split; [assumption |]).
  split.
  - exact (guarded ["docgen-summarize"] "docgen-ghost" [] skill_dest w w1
             not_gemini resolved recorded removed absent).
  - exact (dropped w _ returned).
Defined.

(** Without its existence check a removal would raise on the small
    platform, as [unlink] and [rmtree] do in Python. *)
Example removal_of_absent_path_raises :
  fst (Sim.tree_unlink "/tmp/proj/.claude/commands/docgen-draft.md" Sim.docgen_tree)
  = Raise (OSError "FileNotFoundError") /\
  fst (Sim.tree_rmtree "/tmp/proj/.claude/skills/docgen-summarize" Sim.docgen_tree)
  = Raise (OSError "FileNotFoundError").
Proof. split; reflexivity. Qed.

(** A record whose artifacts were removed by hand: [lola uninstall docgen]
    removes nothing from disk, prints no removal, and drops the record. *)
Example scenario_uninstall_after_manual_cleanup :
  let w := Sim.start Sim.docgen_tree [claude_record] [] in
  Cli.uninstall_cmd (L := Sim.paths) "docgen" None None None false w
  = (Ret tt,
     mkWorld (fs w) []
       [ Print "[bold]Found 1 installation(s) of 'docgen':[/bold]";
         Print "";
         Print "  - claude-code (project)";
         Print "    Project: /tmp/proj";
         Print "    Skills: docgen-summarize";
         Print "    Commands: draft";
         Print "";
         Print "";
         Print "[bold green]Uninstalled 'docgen'[/bold green]" ]
       []).
Proof. reflexivity. Qed.

(** * Further properties of the code *)

(** ** Path resolution and the installer *)

Section MoreInstaller.
Context {L : PathLib} {P : Platform}.
Import Config Installer.

(** X1. [get_assistant_skill_path] knows one special scope, "project":
    every other scope string is served as user scope, and there the
    project path plays no part. *)
Theorem skill_path_treats_other_scopes_as_user (a s : string) (pp pp' : option string) :
  s <> "project" ->
  get_assistant_skill_path a s pp = get_assistant_skill_path a "user" pp'.
Proof.
  intros other. unfold get_assistant_skill_path.
  destruct (dict_get a ASSISTANTS) as [[user_path project_fn]|]; [| reflexivity].
  destruct (String.eqb_spec s "project") as [->|_]; [contradiction | reflexivity].
Qed.

Lemma skipped_combination_resolves (a s : string) (pp : option string) :
  ((a =? "gemini-cli") || (a =? "cursor")) && (s =? "user") = true ->
  exists p, get_assistant_skill_path a s pp = Ret p.
Proof.
  intros skipped. apply andb_true_iff in skipped. destruct skipped as [tool user].
  apply String.eqb_eq in user. subst s.
  pose proof (get_assistant_skill_path_cases a "user" pp) as cases.
  destruct (get_assistant_skill_path a "user" pp) as [p|e]; [now exists p |].
  destruct cases as [_ [unknown|[wrong _]]]; [| discriminate].
  exfalso. apply unknown. apply known_assistant.
  apply orb_true_iff in tool. destruct tool as [g|c]; apply String.eqb_eq in g || apply String.eqb_eq in c; auto.
Qed.

(** X2. A skill destination that cannot be resolved is reported, not
    raised: for a module with skills, when [get_assistant_skill_path]
    fails with [ValueError msg], [install_skills] prints the message in
    red, installs nothing, and leaves file tree and registry alone. *)
Theorem unresolved_skill_path_is_reported module a s pp local_module_path w msg :
  skills module <> [] ->
  get_assistant_skill_path a s pp = Raise (ValueError msg) ->
  install_skills module a s pp local_module_path w
  = (Ret [], with_lines w [Print ("[red]" ++ msg ++ "[/red]")]).
Proof.
  intros has_skills failed. unfold install_skills.
  destruct (skills module) as [|sk rest]; [congruence |]. cbn [nonempty].
  assert (not_skipped : ((a =? "gemini-cli") || (a =? "cursor")) && (s =? "user") = false).
  { destruct (((a =? "gemini-cli") || (a =? "cursor")) && (s =? "user")) eqn:skipped;
      [| reflexivity].
    destruct (skipped_combination_resolves a s pp skipped) as [p resolved]. congruence. }
  destruct (a =? "gemini-cli"), (a =? "cursor"), (s =? "user");
    cbn in not_skipped; try discriminate;
    unfold bind, ret, install_skills_to_dest; cbn [andb negb];
    rewrite failed; reflexivity.
Qed.

(** A loop whose body leaves the list it builds or appends one element
    builds at most one element per item. *)
Lemma for_acc_length {A B S : Type} (l : list A) (g : A -> B) (view : S -> list B)
    (body : S -> A -> Cmd S) :
  (forall acc x w acc' w',
     body acc x w = (Ret acc', w') ->
     view acc' = view acc \/ view acc' = (view acc ++ [g x])%list) ->
  forall acc w res w',
    for_acc l acc body w = (Ret res, w') ->
    length (view res) <= length (view acc) + length l.
Proof.
  intros step. induction l as [|x l IH]; intros acc w res w' run; simpl in run.
  - unfold ret in run. inversion run; subst. simpl. lia.
  - unfold bind in run.
    destruct (body acc x w) as [[acc1|e] w1] eqn:first; [| discriminate].
    specialize (IH acc1 w1 res w' run).
    destruct (step acc x w acc1 w1 first) as [same|grown].
    + rewrite same in IH. simpl. lia.
    + rewrite grown, length_app in IH. simpl in *. lia.
Qed.

Lemma file_skill_step module assistant local_module_path skill_dest project_path :
  forall (acc : list string) (x : string) w acc' w',
    (let skill_name := name_of x in
     let source := local_module_path // skill_name in
     let prefixed := prefixed_name (name module) skill_name in
     success <-
       (if assistant =? "cursor"
        then on_fs (generate_cursor_rule source skill_dest prefixed project_path)
        else
          let dest := skill_dest // prefixed in
          on_fs (generate_claude_skill source dest)) ;;
     if success then
       console_print ("  [green]" ++ prefixed ++ "[/green]") ;;
       ret (acc ++ [prefixed])%list
     else
       console_print ("  [red]" ++ skill_name ++ "[/red] (source not found)") ;;
       ret acc) w = (Ret acc', w') ->
    acc' = acc \/ acc' = (acc ++ [prefixed_name (name module) (name_of x)])%list.
Proof.
  intros acc x w acc' w'. cbv zeta. unfold bind.
  destruct (if assistant =? "cursor" then _ else _) as [[[|]|e] w1];
    unfold console_print, ret; intros step; inversion step; auto.
Qed.

Lemma command_step module assistant local_module_path command_dest :
  forall (acc : list string) (x : string) w acc' w',
    (let source := local_module_path // "commands" // (x ++ ".md") in
     success <-
       (if assistant =? "gemini-cli"
        then on_fs (generate_gemini_command source command_dest x (name module))
        else if assistant =? "cursor"
        then on_fs (generate_cursor_command source command_dest x (name module))
        else on_fs (generate_claude_command source command_dest x (name module))) ;;
     if success then
       console_print ("  [green]/" ++ name module ++ "-" ++ x ++ "[/green]") ;;
       ret (acc ++ [x])%list
     else
       console_print ("  [red]" ++ x ++ "[/red] (source not found)") ;;
       ret acc) w = (Ret acc', w') ->
    acc' = acc \/ acc' = (acc ++ [x])%list.
Proof.
  intros acc x w acc' w'. cbv zeta. unfold bind.
  destruct (if assistant =? "gemini-cli" then _ else _) as [[[|]|e] w1];
    unfold console_print, ret; intros step; inversion step; auto.
Qed.

(** What [install_skills] returns, whichever branch it takes: a list built
    from the skills of the module, one prefixed name at most per skill. *)
Lemma install_skills_returns module a s pp local_module_path w installed w' :
  install_skills module a s pp local_module_path w = (Ret installed, w') ->
  length installed <= length (skills module) /\
  forall n, In n installed ->
    exists skill_rel,
      In skill_rel (skills module) /\ n = prefixed_name (name module) (name_of skill_rel).
Proof.
  assert (nothing : forall w0 w0', @ret P (list string) [] w0 = (Ret installed, w0') ->
            length installed <= length (skills module) /\
            forall n, In n installed ->
              exists skill_rel, In skill_rel (skills module) /\
                n = prefixed_name (name module) (name_of skill_rel)).
  { unfold ret. intros w0 w0' run. inversion run. split; [simpl; lia | intros n []]. }
  unfold install_skills. destruct (nonempty (skills module)); [| apply nothing].
  destruct ((a =? "gemini-cli") && (s =? "user")), ((a =? "cursor") && (s =? "user"));
    unfold bind at 1 2; unfold console_print, ret; cbn [negb fst snd];
    try (intros run; inversion run; split; [simpl; lia | intros n []]).
  unfold install_skills_to_dest. unfold bind at 1.
  destruct (get_assistant_skill_path a s pp) as [dest|[msg| | |]];
    unfold bind, console_print, raise, ret; cbn [fst snd]; try discriminate.
  2: { intros run. inversion run. split; [simpl; lia | intros n []]. }
  fold (@bind P). fold (@ret P). fold (@console_print P).
  destruct (a =? "gemini-cli").
  - unfold install_gemini_skills. unfold bind at 1. intros run.
    destruct (for_acc (skills module) ([], []) _ _) as [[[gs ins]|e] w3] eqn:loop;
      [| discriminate].
    assert (installed = ins) as ->.
    { unfold bind, ret in run. destruct (if nonempty gs then _ else _) as [[[]|e] w4];
        [| discriminate]. now inversion run. }
    match type of loop with
    | for_acc _ _ ?body _ = _ =>
        assert (step : forall acc x w0 acc' w0',
                  body acc x w0 = (Ret acc', w0') ->
                  snd acc' = snd acc \/
                  snd acc' = (snd acc ++ [prefixed_name (name module) (name_of x)])%list)
    end.
    { intros [gs0 ins0] x w0 acc' w0'. cbv zeta. unfold bind, read_fs, try_read_fs.
      destruct (exists_ (fs w0) (local_module_path // name_of x)).
      - destruct (get_skill_description (fs w0) (local_module_path // name_of x));
          unfold console_print, ret; intros one; inversion one; auto.
      - unfold console_print, ret. intros one. inversion one. auto. }
    split.
    + exact (for_acc_length (skills module)
               (fun x => prefixed_name (name module) (name_of x)) snd _
               step _ _ _ _ loop).
    + intros n Hn.
      destruct (for_acc_appends (skills module)
                  (fun x => prefixed_name (name module) (name_of x)) snd _
                  step _ _ _ _ loop n Hn)
        as [[]|found]; exact found.
  - unfold install_file_skills. intros run. split.
    + exact (for_acc_length (skills module)
               (fun x => prefixed_name (name module) (name_of x)) (fun l => l) _
               (file_skill_step module a local_module_path dest pp) _ _ _ _ run).
    + intros n Hn.
      destruct (for_acc_appends (skills module)
                  (fun x => prefixed_name (name module) (name_of x)) (fun l => l) _
                  (file_skill_step module a local_module_path dest pp) _ _ _ _ run n Hn)
        as [[]|found]; exact found.
Qed.

Lemma install_commands_returns module a s pp local_module_path w installed w' :
  install_commands module a s pp local_module_path w = (Ret installed, w') ->
  length installed <= length (commands module).
Proof.
  unfold install_commands.
  destruct (nonempty (commands module)).
  2: { unfold ret. intros run. inversion run. simpl. lia. }
  unfold bind at 1.
  destruct (get_assistant_command_path a s pp) as [dest|[msg| | |]];
    unfold bind, console_print, raise, ret; cbn [fst snd]; try discriminate.
  - fold (@bind P). fold (@ret P). fold (@console_print P). intros run.
    exact (for_acc_length (commands module) (fun x => x) (fun l => l) _
             (command_step module a local_module_path dest) _ _ _ _ run).
  - intros run. inversion run. simpl. lia.
Qed.

Lemma original_of_prefixed (m i : string) : original_skill m (prefixed_name m i) = i.
Proof.
  unfold original_skill, prefixed_name, startswith.
  rewrite <- append_assoc, prefix_app. apply slice_from_app.
Qed.

(** X3. The count [install_to_assistant] returns is bounded by what the
    module declares: it never exceeds the number of skills plus the number
    of commands of the module. *)
Theorem install_count_is_bounded_by_the_module module a s pp local_modules w n w' :
  install_to_assistant module a s pp local_modules w = (Ret n, w') ->
  n <= length (skills module) + length (commands module).
Proof.
  unfold install_to_assistant. unfold bind at 1.
  destruct (copy_module_to_local module local_modules w) as [[dest|e] w1]; [| discriminate].
  unfold bind at 1.
  destruct (install_skills module a s pp dest w1) as [[sk|e] w2] eqn:skills_done;
    [| discriminate].
  unfold bind at 1.
  destruct (install_commands module a s pp dest w2) as [[cm|e] w3] eqn:commands_done;
    [| discriminate].
  unfold bind at 1.
  destruct ((if nonempty sk || nonempty cm then _ else ret tt) w3) as [[[]|e] w4];
    [| discriminate].
  unfold ret. intros run. inversion run; subst.
  pose proof (proj1 (install_skills_returns _ _ _ _ _ _ _ _ skills_done)).
  pose proof (install_commands_returns _ _ _ _ _ _ _ _ commands_done).
  lia.
Qed.

(** X4. Every skill name [install_skills] reports as installed (and the
    installer then records) is the module-prefixed name of a skill of the
    module, for all three assistants, and stripping the prefix the way
    [update_cmd] does recovers the directory name of that very skill. *)
Theorem installed_skill_names_identify_their_skill
    module a s pp local_module_path w installed w' :
  install_skills module a s pp local_module_path w = (Ret installed, w') ->
  forall n, In n installed ->
    exists skill_rel,
      In skill_rel (skills module) /\
      n = prefixed_name (name module) (name_of skill_rel) /\
      original_skill (name module) n = name_of skill_rel.
Proof.
  intros run n Hn.
  destruct (proj2 (install_skills_returns _ _ _ _ _ _ _ _ run) n Hn) as [skill_rel [mem ->]].
  exists skill_rel. split; [exact mem |]. split; [reflexivity |]. apply original_of_prefixed.
Qed.

(** X22. At user scope the skills of a module are skipped for gemini-cli
    and for cursor, whatever the module: [install_skills] returns the
    empty list after printing only, so no destination is resolved, no
    generator runs, and the record the installer may write lists no
    skill. *)
Theorem user_scope_skills_are_skipped module a pp local_module_path w :
  a = "gemini-cli" \/ a = "cursor" ->
  fst (install_skills module a "user" pp local_module_path w) = Ret [] /\
  printed w (snd (install_skills module a "user" pp local_module_path w)).
Proof.
  intros tool.
  enough (run : exists w', install_skills module a "user" pp local_module_path w = (Ret [], w')
                           /\ printed w w').
  { destruct run as [w' [-> only]]. now split. }
  assert (two_lines : forall line1 line2,
            printed w (with_lines (with_lines w [Print line1]) [Print line2])).
  { intros line1 line2. eapply (frame_trans (R := printed)); apply printed_line. }
  unfold install_skills.
  destruct (nonempty (skills module)).
  2: { exists w. split; [reflexivity | apply printed_refl]. }
  destruct tool as [-> | ->]; cbn [String.eqb Ascii.eqb Bool.eqb andb orb negb];
    unfold bind, console_print, ret; cbn [negb];
    (eexists; split; [reflexivity |]).
  - apply two_lines.
  - apply two_lines.
Qed.

(** X23. [copy_module_to_local] is silent and always answers with the
    destination: whenever it returns, the path is [local_modules_path /
    module.name], and console, registry and pending replies are as they
    were; only the file tree may differ. *)
Theorem copy_returns_the_destination module local_modules_path w p w' :
  copy_module_to_local module local_modules_path w = (Ret p, w') ->
  p = local_modules_path // name module /\
  console w' = console w /\ registry w' = registry w /\ replies w' = replies w.
Proof.
  unfold copy_module_to_local, bind, read_fs, on_fs, ret. cbv zeta.
  set (dest := local_modules_path // name module).
  destruct (resolve (fs w) dest =? resolve (fs w) (path module)).
  { intros run. inversion run; subst. auto. }
  destruct (mkdir_parents local_modules_path (fs w)) as [[[]|e] f1]; [| discriminate].
  cbn [fs registry console replies].
  assert (copied : forall f2,
            match (let (r, f) := copytree (path module) dest f2 in
                   (r, mkWorld f (registry w) (console w) (replies w)))
            with
            | (Ret _, w3) => (Ret dest, w3)
            | (Raise e, w3) => (Raise e, w3)
            end = (Ret p, w') ->
            p = dest /\
            console w' = console w /\ registry w' = registry w /\ replies w' = replies w).
  { intros f2. destruct (copytree (path module) dest f2) as [[[]|e] f3];
      intros run; inversion run; subst; auto. }
  destruct (is_symlink f1 dest || exists_ f1 dest); cbn [fs registry console replies].
  - destruct (is_symlink f1 dest); cbn [fs registry console replies].
    + destruct (unlink dest f1) as [[[]|e] f2]; [| discriminate].
      cbn [fs registry console replies]. intros run. now apply (copied f2).
    + destruct (rmtree dest f1) as [[[]|e] f2]; [| discriminate].
      cbn [fs registry console replies]. intros run. now apply (copied f2).
  - intros run. now apply (copied f1).
Qed.

End MoreInstaller.

(** ** The commands: early exits *)

Ltac run_prints :=
  unfold bind, console_print, raise, ret, with_lines;
  cbn [fs registry console replies];
  rewrite <- ?app_assoc; cbn [app]; reflexivity.

Section MoreCli.
Context {L : PathLib} {P : Platform}.
Import Config Installer Cli.

(** X5. [validate_project_path], the first step of [install_cmd], changes
    nothing when it lets the command go on: outside project scope it hands
    the argument on as it is; at project scope the argument was a
    non-empty path, the path handed on is its resolved form, and that
    path exists.  Otherwise it exits with status 1 after printing, and
    only at project scope. *)
Theorem project_path_validation_outcomes scope project_path w :
  match validate_project_path scope project_path w with
  | (Ret a, w') =>
      w' = w /\
      (scope <> "project" -> a = project_path) /\
      (scope = "project" ->
       exists given,
         project_path = Some given /\ given <> "" /\
         a = Some (resolve (fs w) (PathOf given)) /\
         exists_ (fs w) (PathOf (resolve (fs w) (PathOf given))) = true)
  | (Raise e, w') => e = SystemExit 1 /\ scope = "project" /\ printed w w'
  end.
Proof.
  assert (missing_path_printed : forall w0 : World,
            printed w0
              (with_lines
                 (with_lines w0 [Print "[red]Project path required for project scope[/red]"])
                 [Print "Usage: lola install <module> -s project <path/to/project>"])).
  { intros w0. eapply (frame_trans (R := printed)); apply printed_line. }
  unfold validate_project_path.
  destruct (String.eqb_spec scope "project") as [->|other].
  - destruct project_path as [given|]; cbn [truthy].
    + destruct (String.eqb_spec given "") as [->|filled]; cbn [negb].
      * unfold bind, console_print, raise; cbn [fst snd].
        split; [reflexivity |]. split; [reflexivity |]. exact (missing_path_printed w).
      * unfold bind, read_fs, console_print, raise, ret.
        destruct (exists_ (fs w) (PathOf (resolve (fs w) (PathOf given)))) eqn:found;
          cbn [negb].
        -- split; [reflexivity |]. split; [congruence |]. intros _.
           exists given. auto.
        -- split; [reflexivity |]. split; [reflexivity |]. apply printed_line.
    + unfold bind, console_print, raise; cbn [fst snd].
      split; [reflexivity |]. split; [reflexivity |]. exact (missing_path_printed w).
  - unfold ret. split; [reflexivity |]. split; [reflexivity | contradiction].
Qed.

Lemma for_each_prints {A : Type} (l : list A) (line : A -> string) w :
  for_each l (fun x => console_print (line x)) w
  = (Ret tt, with_lines w (map (fun x => Print (line x)) l)).
Proof.
  revert w. induction l as [|x l IH]; intros w; simpl.
  - unfold ret. now rewrite with_lines_nil.
  - unfold bind. rewrite run_print, IH. now rewrite with_lines_app.
Qed.

(** X6. [install_cmd] installs nothing from a module it cannot use.  Once
    the directories are there and the project path is accepted: a module
    missing from the global store, a module directory without manifest,
    and a module with validation errors each end the command with exit
    status 1 after their messages alone; a valid module that declares
    neither skills nor commands ends it normally after one warning.  In
    all four cases file tree and registry are as they were. *)
Theorem install_stops_at_an_unusable_module
    module_name assistant scope project_path w w0 accepted :
  on_fs ensure_lola_dirs w = (Ret tt, w0) ->
  validate_project_path scope project_path w0 = (Ret accepted, w0) ->
  let module_path := MODULES_DIR // module_name in
  let result := install_cmd module_name assistant scope project_path w in
  (exists_ (fs w0) module_path = false ->
   result = (Raise (SystemExit 1),
             with_lines w0
               [ Print ("[red]Module '" ++ module_name ++ "' not found in registry[/red]");
                 Print "Use 'lola mod ls' to see available modules";
                 Print "Use 'lola mod add <source>' to add a module" ])) /\
  (exists_ (fs w0) module_path = true ->
   Module_from_path (fs w0) module_path = Ret None ->
   result = (Raise (SystemExit 1),
             with_lines w0 [Print "[red]Invalid module: no .lola/module.yml found[/red]"])) /\
  (forall module errors,
     exists_ (fs w0) module_path = true ->
     Module_from_path (fs w0) module_path = Ret (Some module) ->
     Module_validate (fs w0) module = Ret (false, errors) ->
     result = (Raise (SystemExit 1),
               with_lines w0
                 (Print ("[red]Module '" ++ module_name ++ "' has validation errors:[/red]")
                  :: map (fun err => Print ("  [red]- " ++ err ++ "[/red]")) errors))) /\
  (forall module errors,
     exists_ (fs w0) module_path = true ->
     Module_from_path (fs w0) module_path = Ret (Some module) ->
     Module_validate (fs w0) module = Ret (true, errors) ->
     skills module = [] -> commands module = [] ->
     result = (Ret tt,
               with_lines w0
                 [Print ("[yellow]Module '" ++ module_name
                         ++ "' has no skills or commands defined[/yellow]")])).
Proof.
  intros ensured validated module_path result.
  assert (run : result = install_cmd module_name assistant scope project_path w)
    by reflexivity.
  clearbody result. unfold install_cmd in run.
  rewrite (run_bind _ _ _ _ _ ensured) in run.
  rewrite (run_bind _ _ _ _ _ validated) in run.
  fold module_path in run. unfold bind at 1 in run. unfold read_fs at 1 in run.
  split; [| split; [| split]].
  - intros missing. rewrite missing in run. cbn [negb] in run. subst result.
    run_prints.
  - intros found no_manifest. rewrite found in run. cbn [negb] in run.
    unfold bind at 1 in run. unfold try_read_fs at 1 in run. rewrite no_manifest in run.
    subst result. run_prints.
  - intros module errors found loaded invalid. rewrite found in run. cbn [negb] in run.
    unfold bind at 1 in run. unfold try_read_fs at 1 in run. rewrite loaded in run.
    unfold bind at 1 in run. unfold try_read_fs at 1 in run. rewrite invalid in run.
    cbn [negb] in run. subst result.
    unfold bind at 1. rewrite run_print. unfold bind at 1. rewrite for_each_prints.
    unfold raise. now rewrite with_lines_app.
  - intros module errors found loaded valid no_skills no_commands.
    rewrite found in run. cbn [negb] in run.
    unfold bind at 1 in run. unfold try_read_fs at 1 in run. rewrite loaded in run.
    unfold bind at 1 in run. unfold try_read_fs at 1 in run. rewrite valid in run.
    cbn [negb] in run. rewrite no_skills, no_commands in run.
    cbn [nonempty negb andb] in run. subst result. run_prints.
Qed.

Lemma bind_returns {A B : Type} (c : Cmd A) (k : A -> Cmd B) w b w' :
  bind c k w = (Ret b, w') -> exists a w1, c w = (Ret a, w1) /\ k a w1 = (Ret b, w').
Proof.
  unfold bind. destruct (c w) as [[a|e] w1]; [| discriminate].
  intros run. now exists a, w1.
Qed.

Ltac returns_step H :=
  first
    [ apply bind_returns in H; destruct H as (? & ? & _ & H)
    | match type of H with
      | (if ?b then _ else _) _ = _ => destruct b
      | (match ?x with _ => _ end) _ = _ => destruct x
      | raise _ _ = (Ret _, _) => discriminate H
      end ];
  cbv beta in H.

(** X7. The closing line of [install_cmd] counts assistants, not installed
    items: whenever the command returns, its last line is either the "no
    skills or commands" warning or "Installed to N assistant(s)" where N is
    1 for a named assistant and 3 otherwise, whatever was installed. *)
Theorem install_summary_counts_assistants module_name assistant scope project_path w w' :
  install_cmd module_name assistant scope project_path w = (Ret tt, w') ->
  exists before line,
    console w' = (before ++ [Print line])%list /\
    (line = "[yellow]Module '" ++ module_name ++ "' has no skills or commands defined[/yellow]"
     \/
     line = "[bold green]Installed to "
            ++ str_of_nat (if truthy assistant then 1 else 3) ++ " assistant(s)[/bold green]").
Proof.
  unfold install_cmd. cbv zeta. intros run.
  do 3 returns_step run. returns_step run.
  - repeat returns_step run.
  - returns_step run. returns_step run; [| repeat returns_step run].
    returns_step run. returns_step run. returns_step run; [repeat returns_step run |].
    returns_step run.
    + unfold console_print in run. inversion run. cbn [console].
      eexists _, _. split; [reflexivity | now left].
    + do 5 returns_step run.
      unfold console_print in run. inversion run. cbn [console].
      eexists _, _. split; [reflexivity | right].
      destruct assistant as [a|]; cbn [truthy]; [| reflexivity].
      destruct (a =? ""); reflexivity.
Qed.

(** X8. [uninstall_one] drops the record last: when it returns, the
    registry is the old one with the record of the uniqueness tuple
    removed; when one of the removals raises, the registry is as it was, so
    the record is still there for a second attempt. *)
Theorem uninstall_one_drops_the_record_last module_name inst w :
  let result := uninstall_one module_name inst w in
  match fst result with
  | Ret _ =>
      registry (snd result)
      = registry_remove module_name (assistant inst) (scope inst) (project_path inst)
          (registry w)
  | Raise _ => registry (snd result) = registry w
  end.
Proof.
  intros result.
  assert (run : result = uninstall_one module_name inst w) by reflexivity.
  clearbody result. unfold uninstall_one in run.
  unfold bind at 1 in run.
  pose proof (remove_skill_files_keeps same_registry module_name inst w) as K1.
  destruct (remove_skill_files module_name inst w) as [[[]|e] w1];
    unfold same_registry in K1; cbn [snd] in K1; [| now subst result].
  unfold bind at 1 in run.
  pose proof (remove_command_files_keeps same_registry module_name inst w1) as K2.
  destruct (remove_command_files module_name inst w1) as [[[]|e] w2];
    unfold same_registry in K2; cbn [snd] in K2; [| subst result; cbn; congruence].
  unfold bind at 1 in run.
  pose proof (remove_local_copy_keeps same_registry module_name inst w2) as K3.
  destruct (remove_local_copy module_name inst w2) as [[[]|e] w3];
    unfold same_registry in K3; cbn [snd] in K3; [| subst result; cbn; congruence].
  subst result. unfold registry_write. cbn [fst snd registry]. congruence.
Qed.

(** X9. [uninstall_cmd] with nothing to uninstall only says so: when the
    registry has no record of the module, or the filters leave none of its
    records, the command returns after one line, and file tree and
    registry are as [ensure_lola_dirs] left them. *)
Theorem uninstall_without_a_match_only_reports
    module_name assistant scope project_path force w w0 :
  on_fs ensure_lola_dirs w = (Ret tt, w0) ->
  let found := registry_find module_name (registry w0) in
  let result := uninstall_cmd module_name assistant scope project_path force w in
  (found = [] ->
   result = (Ret tt,
             with_lines w0
               [Print ("[yellow]No installations found for '" ++ module_name
                       ++ "'[/yellow]")])) /\
  (found <> [] ->
   uninstall_matches (fs w0) assistant scope project_path found = [] ->
   result = (Ret tt, with_lines w0 [Print "[yellow]No matching installations found[/yellow]"])).
Proof.
  intros ensured found result.
  assert (run : result = uninstall_cmd module_name assistant scope project_path force w)
    by reflexivity.
  clearbody result. unfold uninstall_cmd in run.
  rewrite (run_bind _ _ _ _ _ ensured) in run.
  unfold bind at 1 in run. unfold registry_all at 1 in run. fold found in run.
  split.
  - intros none. rewrite none in run. cbn [nonempty negb] in run. now subst result.
  - intros some no_match. destruct found as [|i rest] eqn:records; [contradiction |].
    cbn [nonempty negb] in run. unfold bind at 1 in run. unfold read_fs at 1 in run.
    rewrite no_match in run. unfold uninstall_selected in run.
    cbn [nonempty negb] in run. now subst result.
Qed.

Lemma opt_eqb_eq (a b : option string) : opt_eqb a b = true <-> a = b.
Proof.
  destruct a as [x|], b as [y|]; cbn [opt_eqb]; try (split; [discriminate | congruence]).
  - rewrite String.eqb_eq. split; congruence.
  - split; reflexivity.
Qed.

(** X10. The three filters of [uninstall_cmd] select by conjunction, and an
    absent or empty option filters nothing: a record is kept exactly when
    it is among the candidates and agrees with every option that was
    given, the project path being compared in its resolved form. *)
Theorem uninstall_filters_select_by_conjunction
    f assistant scope project_path installations i :
  In i (uninstall_matches f assistant scope project_path installations) <->
  In i installations /\
  (truthy assistant = true -> assistant = Some (Models.assistant i)) /\
  (truthy scope = true -> scope = Some (Models.scope i)) /\
  (truthy project_path = true ->
   exists p, project_path = Some p /\ Models.project_path i = Some (resolve f (PathOf p))).
Proof.
  unfold uninstall_matches. cbv zeta.
  destruct (truthy assistant) eqn:ta; [destruct assistant as [a|]; [| discriminate ta] |];
    (destruct (truthy scope) eqn:ts; [destruct scope as [s|]; [| discriminate ts] |]);
    (destruct (truthy project_path) eqn:tp;
       [destruct project_path as [p|]; [| discriminate tp] |]);
    cbv beta iota; repeat rewrite filter_In;
    rewrite ?opt_eqb_eq, ?String.eqb_eq;
    (split;
     [ intros kept; repeat match goal with H : _ /\ _ |- _ => destruct H end;
       repeat split; try assumption; intros yes; try discriminate yes;
       first [congruence | eexists; split; [reflexivity | assumption]]
     | intros (mem & by_assistant & by_scope & by_path);
       repeat split; try assumption;
       first [ specialize (by_assistant eq_refl); congruence
             | specialize (by_scope eq_refl); congruence
             | destruct (by_path eq_refl) as [q [same at_path]]; congruence ] ]).
Qed.

(** X11. [update_cmd] never writes the registry: whether it returns or
    raises, and whatever it refreshed or found stale, the registry after
    the command is the registry before it. *)
Theorem update_never_changes_the_registry module_name assistant w :
  registry (snd (update_cmd module_name assistant w)) = registry w.
Proof. exact (update_cmd_keeps same_registry module_name assistant w). Qed.

Lemma filter_none {A : Type} (keep : A -> bool) (l : list A) :
  (forall x, In x l -> keep x = false) -> filter keep l = [].
Proof.
  induction l as [|x l IH]; intros none; cbn [filter]; [reflexivity |].
  rewrite (none x (or_introl eq_refl)). apply IH. intros y Hy. apply none. now right.
Qed.

(** X12. [update_cmd] with nothing selected only says so: when every
    record fails the module filter or the assistant filter that was
    given, in particular when the registry is empty, the command returns
    after the line "No installations to update". *)
Theorem update_without_a_selection_only_reports module_name assistant w w0 :
  on_fs ensure_lola_dirs w = (Ret tt, w0) ->
  (forall i, In i (registry w0) ->
     (exists m, module_name = Some m /\ m <> "" /\ Models.module_name i <> m) \/
     (exists a, assistant = Some a /\ a <> "" /\ Models.assistant i <> a)) ->
  update_cmd module_name assistant w
  = (Ret tt, with_lines w0 [Print "[yellow]No installations to update[/yellow]"]).
Proof.
  intros ensured excluded. unfold update_cmd.
  rewrite (run_bind _ _ _ _ _ ensured).
  unfold bind at 1. unfold registry_all at 1. cbv zeta.
  match goal with
  | |- (if negb (nonempty ?selection) then _ else _) _ = _ =>
      assert (none : selection = [])
  end.
  { match goal with |- ?selection = [] => destruct selection as [|i rest] eqn:chosen end;
      [reflexivity | exfalso].
    assert (mem : In i (i :: rest)) by now left. rewrite <- chosen in mem. clear chosen.
    assert (by_assistant :
              In i (match (if truthy module_name then module_name else None) with
                    | Some m => filter (fun i => Models.module_name i =? m) (registry w0)
                    | None => registry w0
                    end) /\
              forall a, assistant = Some a -> a <> "" -> Models.assistant i = a).
    { destruct assistant as [a|]; cbn [truthy] in mem.
      - destruct (String.eqb_spec a "") as [->|filled]; cbn [negb] in mem.
        + split; [exact mem | intros a' given wrong; inversion given; subst; now contradiction wrong].
        + apply filter_In in mem. destruct mem as [mem same].
          apply String.eqb_eq in same. split; [exact mem | congruence].
      - split; [exact mem | discriminate]. }
    destruct by_assistant as [mem1 agrees_a].
    assert (by_module :
              In i (registry w0) /\
              forall m, module_name = Some m -> m <> "" -> Models.module_name i = m).
    { destruct module_name as [m|]; cbn [truthy] in mem1.
      - destruct (String.eqb_spec m "") as [->|filled]; cbn [negb] in mem1.
        + split; [exact mem1 | intros m' given wrong; inversion given; subst; now contradiction wrong].
        + apply filter_In in mem1. destruct mem1 as [mem1 same].
          apply String.eqb_eq in same. split; [exact mem1 | congruence].
      - split; [exact mem1 | discriminate]. }
    destruct by_module as [mem0 agrees_m].
    destruct (excluded i mem0) as [(m & given & filled & differs)
                                  |(a & given & filled & differs)].
    - apply differs. apply agrees_m; assumption.
    - apply differs. apply agrees_a; assumption. }
  rewrite none. cbn [nonempty negb]. reflexivity.
Qed.

(** X13. A record whose module cannot be used is skipped, not fatal:
    when the module is missing from the global store, has no manifest, or
    fails validation, [refresh_installation] returns after its messages,
    having copied and generated nothing, so the loop of [update_cmd] goes
    on with the next record. *)
Theorem refresh_of_an_unusable_module_only_reports inst w :
  let global_module_path := MODULES_DIR // module_name inst in
  exists_ (fs w) global_module_path = false \/
  Module_from_path (fs w) global_module_path = Ret None \/
  (exists global_module errors,
     Module_from_path (fs w) global_module_path = Ret (Some global_module) /\
     Module_validate (fs w) global_module = Ret (false, errors)) ->
  fst (refresh_installation inst w) = Ret tt /\
  printed w (snd (refresh_installation inst w)).
Proof.
  intros global_module_path unusable.
  assert (missing_printed : forall line1 line2,
            printed w (with_lines (with_lines w [Print line1]) [Print line2])).
  { intros line1 line2. eapply (frame_trans (R := printed)); apply printed_line. }
  enough (run : exists w', refresh_installation inst w = (Ret tt, w') /\ printed w w').
  { destruct run as [w' [-> only]]. now split. }
  unfold refresh_installation. cbv zeta. fold global_module_path.
  unfold bind at 1. unfold read_fs at 1.
  destruct (exists_ (fs w) global_module_path) eqn:found; cbn [negb].
  2: { unfold bind. rewrite !run_print. eexists. split; [reflexivity |].
       apply missing_printed. }
  destruct unusable as [wrong|[no_manifest|(global_module & errors & loaded & invalid)]];
    [discriminate | |].
  - unfold bind at 1. unfold try_read_fs at 1. rewrite no_manifest.
    rewrite run_print. eexists. split; [reflexivity | apply printed_line].
  - unfold bind at 1. unfold try_read_fs at 1. rewrite loaded.
    unfold bind at 1. unfold try_read_fs at 1. rewrite invalid. cbn [negb].
    unfold bind at 1. rewrite run_print. unfold bind at 1. rewrite run_print.
    rewrite for_each_prints. eexists. split; [reflexivity |].
    eapply (frame_trans (R := printed)); [apply missing_printed |].
    eexists. split; [reflexivity |]. apply Forall_map. apply Forall_forall. intros; exact I.
Qed.

End MoreCli.


(** ** Update against install *)

Section UpdateReplaysInstall.
Context {L : PathLib} {P : Platform}.
Import Config Installer Cli.

Lemma replays_bind {A A' B B' : Type} (rel : A -> A' -> Prop) (rel' : B -> B' -> Prop)
    (c : Cmd A) (c' : Cmd A') (k : A -> Cmd B) (k' : A' -> Cmd B') w :
  replays rel (c w) (c' w) ->
  (forall a a' w1, rel a a' -> replays rel' (k a w1) (k' a' w1)) ->
  replays rel' (bind c k w) (bind c' k' w).
Proof.
  intros [same_world same_outcome] next. unfold bind.
  destruct (c w) as [[a|e] w1], (c' w) as [[a'|e'] w1']; cbn [fst snd] in *; subst.
  - destruct same_outcome as [b [returned related]]. inversion returned; subst.
    now apply next.
  - destruct same_outcome as [b [returned _]]. discriminate.
  - discriminate.
  - inversion same_outcome; subst. split; reflexivity.
Qed.

Lemma replays_for_each {A B S : Type} (g : A -> B) (first : S -> A -> Cmd S)
    (second : B -> Cmd unit) :
  (forall acc x w, replays (fun _ _ => True) (first acc x w) (second (g x) w)) ->
  forall l acc w,
    replays (fun _ _ => True) (for_acc l acc first w) (for_each (map g l) second w).
Proof.
  intros step. induction l as [|x l IH]; intros acc w; cbn [map for_acc for_each].
  - split; [reflexivity | now exists tt].
  - apply (replays_bind (fun _ _ => True)); [apply step | intros a [] w1 _; apply IH].
Qed.

Lemma replays_for_acc {A B S T : Type} (g : A -> B) (view : S -> T)
    (first : S -> A -> Cmd S) (second : T -> B -> Cmd T) :
  (forall acc x w,
     replays (fun a b => b = view a) (first acc x w) (second (view acc) (g x) w)) ->
  forall l acc w,
    replays (fun a b => b = view a)
      (for_acc l acc first w) (for_acc (map g l) (view acc) second w).
Proof.
  intros step. induction l as [|x l IH]; intros acc w; cbn [map for_acc].
  - split; [reflexivity | now eexists].
  - apply (replays_bind (fun a b => b = view a)); [apply step |].
    intros a a' w1 ->. apply IH.
Qed.

(** X14. Updating replays the installation of the skills.  For a record
    that names the module and lists the prefixed names of its skills,
    the skill step of [update_cmd] (the aggregate document for
    gemini-cli, [update_file_skills] otherwise) ends in exactly the world
    the skill step of the installer ends in, from the same world and
    destination: the same generator calls on the same sources, the same
    console lines, the same exception if one is raised. *)
Theorem update_replays_the_skill_installation
    (module : Module) (inst : Installation) source_module skill_dest w :
  module_name inst = name module ->
  inst_skills inst
  = map (fun skill_rel => prefixed_name (name module) (name_of skill_rel)) (skills module) ->
  replays (fun _ _ => True)
    ((if assistant inst =? "gemini-cli"
      then install_gemini_skills module source_module skill_dest (project_path inst)
      else install_file_skills module (assistant inst) source_module skill_dest
             (project_path inst)) w)
    ((if assistant inst =? "gemini-cli"
      then update_gemini_skills inst source_module skill_dest
      else update_file_skills inst source_module skill_dest) w).
Proof.
  intros named recorded.
  destruct (assistant inst =? "gemini-cli").
  - unfold install_gemini_skills, update_gemini_skills. rewrite recorded, named.
    apply (replays_bind (fun a b => b = fst a)).
    + apply (replays_for_acc
               (fun skill_rel => prefixed_name (name module) (name_of skill_rel)) fst).
      intros [gs ins] x w0. cbv zeta. cbn [fst]. rewrite original_of_prefixed.
      unfold bind, read_fs, try_read_fs.
      destruct (exists_ (fs w0) (source_module // name_of x)).
      * destruct (get_skill_description (fs w0) (source_module // name_of x));
          split; cbn [fst snd]; try reflexivity. now eexists.
      * split; cbn [fst snd]; [reflexivity | now eexists].
    + intros [gs ins] gs' w1 ->. cbn [fst].
      destruct (nonempty gs).
      * unfold bind, on_fs.
        destruct (update_gemini_md skill_dest (name module) gs (project_path inst) (fs w1))
          as [[[]|e] f]; split; cbn [fst snd]; try reflexivity. now exists tt.
      * split; cbn [fst snd]; [reflexivity | now exists tt].
  - unfold install_file_skills, update_file_skills. rewrite recorded.
    apply (replays_for_each
             (fun skill_rel => prefixed_name (name module) (name_of skill_rel))).
    intros acc x w0. cbv zeta. rewrite named, original_of_prefixed.
    unfold bind. destruct (assistant inst =? "cursor"); unfold on_fs.
    + destruct (generate_cursor_rule (source_module // name_of x) skill_dest
                  (prefixed_name (name module) (name_of x)) (project_path inst) (fs w0))
        as [[[|]|e] f]; split; cbn [fst snd]; try reflexivity; now exists tt.
    + destruct (generate_claude_skill (source_module // name_of x)
                  (skill_dest // prefixed_name (name module) (name_of x)) (fs w0))
        as [[[|]|e] f]; split; cbn [fst snd]; try reflexivity; now exists tt.
Qed.

Lemma on_disk_for_each {A S : Type} (first : S -> A -> Cmd S) (second : A -> Cmd unit) :
  (forall acc x w v,
     fs v = fs w -> registry v = registry w ->
     replays_on_disk (first acc x w) (second x v)) ->
  forall l acc w v,
    fs v = fs w -> registry v = registry w ->
    replays_on_disk (for_acc l acc first w) (for_each l second v).
Proof.
  intros step. induction l as [|x l IH]; intros acc w v same_fs same_reg;
    cbn [for_acc for_each].
  - split; [exact same_fs |]. split; [exact same_reg | now exists tt].
  - unfold bind. destruct (step acc x w v same_fs same_reg) as (F & R & O).
    destruct (first acc x w) as [[a|e] w1], (second x v) as [[[]|e'] v1];
      cbn [fst snd] in *.
    + now apply IH.
    + destruct O as [b O]. discriminate.
    + discriminate.
    + inversion O; subst. repeat split; assumption.
Qed.

(** X15. Updating replays the installation of the commands on disk.  For
    a record that names the module and lists its commands, and from
    worlds with the same file tree and registry, [update_commands] leaves
    the file tree and the registry that [install_commands] leaves, and
    raises exactly when it does; only the console lines differ. *)
Theorem update_replays_the_command_installation
    (module : Module) (inst : Installation) source_module w v :
  module_name inst = name module ->
  inst_commands inst = commands module ->
  fs v = fs w -> registry v = registry w ->
  replays_on_disk
    (install_commands module (assistant inst) (scope inst) (project_path inst)
       source_module w)
    (update_commands inst source_module v).
Proof.
  intros named recorded same_fs same_reg.
  unfold install_commands, update_commands. rewrite recorded.
  destruct (nonempty (commands module)).
  2: { split; [exact same_fs |]. split; [exact same_reg | now exists tt]. }
  unfold bind at 1 4.
  destruct (get_assistant_command_path (assistant inst) (scope inst) (project_path inst))
    as [command_dest|[msg| | |]];
    try (split; [exact same_fs |]; split; [exact same_reg | reflexivity]).
  - unfold ret at 1 4. unfold bind at 1. rewrite run_print. cbv zeta.
    apply on_disk_for_each; [| exact same_fs | exact same_reg].
    intros acc x w0 v0 F R. rewrite named. unfold bind.
    assert (step : forall op : FS -> outcome bool * FS,
              replays_on_disk
                (match on_fs op w0 with
                 | (Ret success, w') =>
                     (if success
                      then
                        fun w1 : World =>
                          match console_print
                                  ("  [green]/" ++ name module ++ "-" ++ x ++ "[/green]") w1
                          with
                          | (Ret _, w2) => ret (acc ++ [x])%list w2
                          | (Raise e, w2) => (Raise e, w2)
                          end
                      else
                        fun w1 : World =>
                          match console_print ("  [red]" ++ x ++ "[/red] (source not found)") w1
                          with
                          | (Ret _, w2) => ret acc w2
                          | (Raise e, w2) => (Raise e, w2)
                          end) w'
                 | (Raise e, w') => (Raise e, w')
                 end)
                (match on_fs op v0 with
                 | (Ret success, w') =>
                     (if success
                      then console_print
                             ("  [green]/" ++ name module ++ "-" ++ x ++ "[/green]")
                      else console_print ("  [red]" ++ x ++ "[/red] (source not found)")) w'
                 | (Raise e, w') => (Raise e, w')
                 end)).
    { intros op. unfold on_fs. rewrite F.
      destruct (op (fs w0)) as [[[|]|e] f]; unfold console_print, ret; cbn [fst snd fs registry];
        (split; [reflexivity |]; split; [exact R |]); try reflexivity; now exists tt. }
    destruct (assistant inst =? "gemini-cli"); [apply step |].
    destruct (assistant inst =? "cursor"); apply step.
  - unfold bind, console_print, ret. cbn [fst snd fs registry].
    split; [exact same_fs |]. split; [exact same_reg | now exists tt].
Qed.

End UpdateReplaysInstall.

(** ** The listing *)

Section ListingProperties.
Context {L : PathLib} {P : Platform}.
Import Listing.

Lemma dict_get_set_same {V : Type} (k : string) (v : V) d :
  dict_get k (dict_set k v d) = Some v.
Proof.
  induction d as [|[k' v'] d IH]; cbn [dict_set dict_get].
  - now rewrite String.eqb_refl.
  - destruct (k' =? k) eqn:same; cbn [dict_get]; now rewrite same.
Qed.

Lemma dict_get_set_other {V : Type} (k k0 : string) (v : V) d :
  k0 <> k -> dict_get k0 (dict_set k v d) = dict_get k0 d.
Proof.
  intros other. induction d as [|[k' v'] d IH]; cbn [dict_set dict_get].
  - destruct (String.eqb_spec k k0); [congruence | reflexivity].
  - destruct (String.eqb_spec k' k) as [->|differ]; cbn [dict_get].
    + destruct (String.eqb_spec k k0); [congruence | reflexivity].
    + now rewrite IH.
Qed.

Lemma dict_set_keys {V : Type} (k : string) (v : V) d :
  map fst (dict_set k v d)
  = match dict_get k d with
    | Some _ => map fst d
    | None => (map fst d ++ [k])%list
    end.
Proof.
  induction d as [|[k' v'] d IH]; cbn [dict_set dict_get map fst app]; [reflexivity |].
  destruct (k' =? k); cbn [map fst]; [reflexivity |].
  rewrite IH. now destruct (dict_get k d).
Qed.

Lemma dict_get_none {V : Type} (k : string) (d : list (string * V)) :
  dict_get k d = None -> ~ In k (map fst d).
Proof.
  induction d as [|[k' v'] d IH]; cbn [dict_get map fst In]; [tauto |].
  destruct (String.eqb_spec k' k); [discriminate |]. intros none [same|later]; [congruence |].
  now apply IH.
Qed.

Lemma dict_get_in {V : Type} (k : string) (v : V) d :
  dict_get k d = Some v -> In (k, v) d.
Proof.
  induction d as [|[k' v'] d IH]; cbn [dict_get In]; [discriminate |].
  destruct (String.eqb_spec k' k) as [->|differ].
  - intros found. inversion found. now left.
  - intros found. right. now apply IH.
Qed.

Lemma in_dict_get {V : Type} (k : string) (v : V) d :
  NoDup (map fst d) -> In (k, v) d -> dict_get k d = Some v.
Proof.
  induction d as [|[k' v'] d IH]; cbn [dict_get map fst In]; [tauto |].
  intros unique [here|later].
  - inversion here; subst. now rewrite String.eqb_refl.
  - inversion unique as [|? ? fresh unique']; subst.
    destruct (String.eqb_spec k' k) as [->|differ]; [| now apply IH].
    exfalso. apply fresh. change k with (fst (k, v)). now apply in_map.
Qed.

Lemma group_installation_grouped by_module seen inst :
  grouped by_module seen ->
  grouped (group_installation by_module inst) (seen ++ [inst])%list.
Proof.
  intros [unique groups]. unfold group_installation.
  destruct (dict_get (module_name inst) by_module) as [insts|] eqn:present.
  - rewrite present. split.
    + now rewrite dict_set_keys, present.
    + intros k. rewrite filter_app. cbn [filter].
      destruct (String.eqb_spec (module_name inst) k) as [<-|other].
      * rewrite dict_get_set_same. pose proof (groups (module_name inst)) as here.
        rewrite present in here.
        destruct (filter (fun i => module_name i =? module_name inst) seen) as [|i l];
          [discriminate |].
        inversion here. reflexivity.
      * rewrite dict_get_set_other by congruence. rewrite app_nil_r. apply groups.
  - rewrite dict_get_set_same. split.
    + rewrite dict_set_keys, dict_get_set_same, dict_set_keys, present.
      apply NoDup_app; [exact unique | repeat constructor; intros [] |].
      intros k mem [<-|[]]. now apply (dict_get_none _ _ present).
    + intros k. rewrite filter_app. cbn [filter].
      destruct (String.eqb_spec (module_name inst) k) as [<-|other].
      * rewrite dict_get_set_same. pose proof (groups (module_name inst)) as here.
        rewrite present in here.
        destruct (filter (fun i => module_name i =? module_name inst) seen) as [|i l];
          [reflexivity | discriminate].
      * rewrite !dict_get_set_other by congruence. rewrite app_nil_r. apply groups.
Qed.

Lemma group_loop_grouped rest :
  forall by_module seen,
    grouped by_module seen ->
    grouped (fold_left group_installation rest by_module) (seen ++ rest)%list.
Proof.
  induction rest as [|inst rest IH]; intros by_module seen inv; cbn [fold_left].
  - now rewrite app_nil_r.
  - replace (seen ++ inst :: rest)%list with ((seen ++ [inst]) ++ rest)%list
      by now rewrite <- app_assoc.
    apply IH. now apply group_installation_grouped.
Qed.

Lemma group_by_module_grouped installations :
  grouped (group_by_module installations) installations.
Proof.
  apply (group_loop_grouped installations [] []). split; [constructor | reflexivity].
Qed.

(** X16. The grouping of [list_installed_cmd] is a partition by module
    name: the keys of [by_module] are distinct; under each key are exactly
    the records of that module, in registry order, and at least one; every
    record is under the key of its module; so the number in the header
    "Installed modules (N)" is the number of distinct module names, not
    the number of records. *)
Theorem listing_groups_records_by_module installations :
  let by_module := group_by_module installations in
  NoDup (map fst by_module) /\
  (forall k insts,
     In (k, insts) by_module ->
     insts <> [] /\ insts = filter (fun i => module_name i =? k) installations) /\
  (forall i, In i installations ->
     exists insts, In (module_name i, insts) by_module /\ In i insts) /\
  length by_module = length (nodup string_dec (map module_name installations)).
Proof.
  intros by_module.
  destruct (group_by_module_grouped installations) as [unique groups].
  fold by_module in unique, groups.
  assert (under_key : forall k insts,
            In (k, insts) by_module ->
            insts <> [] /\ insts = filter (fun i => module_name i =? k) installations).
  { intros k insts mem. pose proof (in_dict_get _ _ _ unique mem) as found.
    rewrite groups in found.
    destruct (filter (fun i => module_name i =? k) installations) as [|i l];
      [discriminate |].
    inversion found. split; [discriminate | reflexivity]. }
  assert (every : forall i, In i installations ->
            exists insts, In (module_name i, insts) by_module /\ In i insts).
  { intros i mem.
    assert (kept : In i (filter (fun j => module_name j =? module_name i) installations)).
    { apply filter_In. split; [exact mem | apply String.eqb_refl]. }
    pose proof (groups (module_name i)) as found.
    destruct (filter (fun j => module_name j =? module_name i) installations) as [|j l] eqn:group;
      [destruct kept |].
    exists (j :: l). split; [now apply dict_get_in | exact kept]. }
  split; [exact unique |]. split; [exact under_key |]. split; [exact every |].
  rewrite <- (length_map fst by_module).
  apply Nat.le_antisymm; apply NoDup_incl_length;
    try exact unique; try apply NoDup_nodup; intros k mem.
  - apply nodup_In. apply in_map_iff in mem. destruct mem as [[k' insts] [<- mem]].
    destruct (under_key _ _ mem) as [some are].
    destruct insts as [|i l]; [congruence |].
    assert (kept : In i (i :: l)) by now left.
    rewrite are in kept. apply filter_In in kept. destruct kept as [mem_i same].
    apply String.eqb_eq in same. cbn [fst]. rewrite <- same. now apply in_map.
  - apply nodup_In in mem. apply in_map_iff in mem. destruct mem as [i [<- mem]].
    destruct (every i mem) as [insts [found _]].
    change (module_name i) with (fst (module_name i, insts)). now apply in_map.
Qed.

Lemma show_listed_just_prints inst : just_prints (show_listed inst).
Proof.
  unfold show_listed. cbv zeta.
  repeat first [ apply just_prints_seq | apply just_prints_print | apply just_prints_ret
               | match goal with |- just_prints (if ?x then _ else _) => destruct x end ].
Qed.

(** X17. [list_installed_cmd] only reads: once [ensure_lola_dirs] has
    returned, the command returns, and file tree, registry and pending
    replies are as they were then; it has printed lines and asked
    nothing.  With an empty registry the lines are the four of the "No
    modules installed" notice. *)
Theorem listing_only_prints assistant w w0 :
  on_fs ensure_lola_dirs w = (Ret tt, w0) ->
  exists lines,
    list_installed_cmd assistant w = (Ret tt, with_lines w0 lines) /\
    Forall is_print lines /\
    (registry w0 = [] ->
     lines = [ Print "[yellow]No modules installed[/yellow]"; Print "";
               Print "Install modules with:"; Print "  lola install <module>" ]).
Proof.
  intros ensured. unfold list_installed_cmd.
  rewrite (run_bind _ _ _ _ _ ensured).
  unfold bind at 1. unfold registry_all at 1. cbv zeta.
  match goal with
  | |- context [if negb (nonempty ?selection) then _ else _] =>
      destruct selection as [|i rest] eqn:chosen
  end; cbn [nonempty negb].
  - eexists. split; [run_prints |]. split; [repeat constructor | reflexivity].
  - match goal with
    | |- exists lines, ?c w0 = _ /\ _ =>
        assert (only : just_prints c)
    end.
    { repeat first
        [ apply show_listed_just_prints
        | apply just_prints_for_each; intros
        | apply just_prints_seq | apply just_prints_print | apply just_prints_ret
        | match goal with |- just_prints (let '(_, _) := ?x in _) => destruct x end ]. }
    destruct (only w0) as [lines [run prints]].
    exists lines. split; [exact run |]. split; [exact prints |].
    intros empty. exfalso. rewrite empty in chosen.
    destruct (if truthy assistant then assistant else None); discriminate.
Qed.

End ListingProperties.

(** ** The marketplace search *)

Section SubstringProperties.
Import Market.

Lemma prefix_iff (p s : string) : String.prefix p s = true <-> exists b, s = p ++ b.
Proof.
  revert s. induction p as [|c p IH]; intros s.
  - split; [intros _; now exists s | intros _; now destruct s].
  - destruct s as [|c' s]; cbn [String.prefix append].
    + split; [discriminate | intros [b wrong]; discriminate].
    + destruct (ascii_dec c c') as [->|differ].
      * rewrite IH. split; intros [b whole]; exists b; congruence.
      * split; [discriminate | intros [b wrong]; congruence].
Qed.

Lemma contains_iff (sub s : string) :
  contains sub s = true <-> exists a b, s = a ++ sub ++ b.
Proof.
  induction s as [|c s IH]; cbn [contains]; rewrite orb_true_iff, prefix_iff.
  - split.
    + intros [[b ->]|wrong]; [now exists "", b | discriminate].
    + intros [a [b whole]]. left. destruct a; [now exists b | discriminate].
  - rewrite IH. split.
    + intros [[b ->]|[a [b ->]]]; [now exists "", b | now exists (String c a), b].
    + intros [[|c' a] [b whole]]; [left; now exists b |].
      right. exists a, b. cbn [append] in whole. congruence.
Qed.

Lemma contains_trans (a b c : string) :
  contains a b = true -> contains b c = true -> contains a c = true.
Proof.
  rewrite !contains_iff. intros [x [y ->]] [u [v ->]].
  exists (u ++ x), (y ++ v). now rewrite !append_assoc.
Qed.

Lemma contains_empty (s : string) : contains "" s = true.
Proof. apply contains_iff. now exists "", s. Qed.

Lemma len_append (a b : string) : len (a ++ b) = len a + len b.
Proof.
  induction a as [|c a IH]; cbn [append len]; [reflexivity |].
  rewrite IH. now destruct (is_continuation c).
Qed.

Lemma slice_to_len (n : nat) (s : string) : len (slice_to n s) = Nat.min n (len s).
Proof.
  revert n. induction s as [|c s IH]; intros n; cbn [slice_to len].
  - now rewrite Nat.min_0_r.
  - destruct (is_continuation c) eqn:continues; cbn [len]; rewrite ?continues.
    + apply IH.
    + destruct n as [|n]; cbn [len]; rewrite ?continues; [reflexivity |].
      rewrite IH. reflexivity.
Qed.

Lemma slice_to_prefix (n : nat) (s : string) : exists rest, s = slice_to n s ++ rest.
Proof.
  revert n. induction s as [|c s IH]; intros n; cbn [slice_to].
  - now exists "".
  - destruct (is_continuation c).
    + destruct (IH n) as [rest whole]. exists rest. cbn [append]. now rewrite <- whole.
    + destruct n as [|n]; [now exists (String c s) |].
      destruct (IH n) as [rest whole]. exists rest. cbn [append]. now rewrite <- whole.
Qed.

(** On text without a byte above 127 characters are bytes. *)
Lemma len_of_ascii_text (s : string) :
  (forall c, In c (list_ascii_of_string s) -> nat_of_ascii c < 128) ->
  len s = String.length s.
Proof.
  induction s as [|c s IH]; cbn [len String.length list_ascii_of_string]; intros plain;
    [reflexivity |].
  assert (low : nat_of_ascii c < 128) by (apply plain; now left).
  unfold is_continuation. cbv zeta.
  destruct (Nat.leb_spec 128 (nat_of_ascii c)); [lia |]. cbn [andb].
  rewrite IH; [reflexivity |]. intros c' mem. apply plain. now right.
Qed.

End SubstringProperties.

Section MarketProperties.
Context {L : PathLib} {P : Platform} {S : Market.SearchLib}.
Import Market.

(** X18. Shorter queries match more.  [match_module] accepts every module
    for the empty query, and a module accepted for a query is accepted for
    every substring of that query. *)
Theorem shorter_queries_match_more :
  (forall module, match_module module "" = true) /\
  (forall module query shorter,
     contains shorter query = true ->
     match_module module query = true ->
     match_module module shorter = true).
Proof.
  split.
  - intros module. unfold match_module. now rewrite contains_empty.
  - intros module query shorter within. unfold match_module. cbv zeta.
    rewrite !orb_true_iff, !existsb_exists.
    intros [[by_name|by_description]|[tag [mem by_tag]]].
    + left. left. exact (contains_trans _ _ _ within by_name).
    + left. right. exact (contains_trans _ _ _ within by_description).
    + right. exists tag. split; [exact mem | exact (contains_trans _ _ _ within by_tag)].
Qed.

(** X19. [format_search_result] bounds the description, counted in
    characters as [len] and the slice of the source count them: the result
    never has more than 63 characters of description; a description of at
    most 60 characters is kept as it is, however many bytes it takes; a
    longer one is cut to its first 60 characters followed by three dots.
    Name and version are those of the module, the empty string when the
    key is missing. *)
Theorem search_result_description_is_bounded module marketplace :
  let description := get_str "description" (strings module) in
  let shown := result_description (format_search_result module marketplace) in
  len shown <= 63 /\
  (len description <= 60 -> shown = description) /\
  (60 < len description ->
   shown = slice_to 60 description ++ "..." /\
   len shown = 63 /\
   len (slice_to 60 description) = 60 /\
   exists rest, description = slice_to 60 description ++ rest) /\
  (dict_get "name" (strings module) = None ->
   result_name (format_search_result module marketplace) = "").
Proof.
  intros description shown. unfold shown, format_search_result.
  cbn [result_description result_name]. fold description.
  destruct (Nat.ltb_spec 60 (len description)) as [long|short].
  - assert (kept : len (slice_to 60 description) = 60).
    { rewrite slice_to_len. lia. }
    assert (cut : len (slice_to 60 description ++ "...") = 63).
    { rewrite len_append, kept. reflexivity. }
    split; [lia |]. split; [lia |]. split.
    + intros _. split; [reflexivity |]. split; [exact cut |]. split; [exact kept |].
      apply slice_to_prefix.
    + intros missing. unfold get_str. now rewrite missing.
  - split; [lia |]. split; [reflexivity |]. split; [lia |].
    intros missing. unfold get_str. now rewrite missing.
Qed.

End MarketProperties.

(** Sixty characters that take 120 bytes are shown whole; of sixty-one the
    first sixty are kept, with all their bytes. *)
Example accented_description_is_cut_by_characters :
  String.length (SimMarket.accented 60) = 120 /\
  Market.result_description
    (Market.format_search_result (SimMarket.described (SimMarket.accented 60)) "official")
  = SimMarket.accented 60 /\
  Market.result_description
    (Market.format_search_result (SimMarket.described (SimMarket.accented 61)) "official")
  = SimMarket.accented 60 ++ "...".
Proof. repeat split; vm_compute; reflexivity. Qed.

Section MarketSearch.
Context {L : PathLib} {P : Platform} {S : Market.SearchLib}.
Import Market.

Lemma enabled_marketplaces_returns market_dir cache_dir w marketplaces w' :
  get_enabled_marketplaces market_dir cache_dir w = (Ret marketplaces, w') ->
  w' = w /\
  forall marketplace name,
    In (marketplace, name) marketplaces ->
    exists ref_file marketplace_ref,
      In ref_file (glob_yml (fs w) market_dir) /\
      from_reference (fs w) ref_file = Ret marketplace_ref /\
      marketplace_enabled marketplace_ref = true /\
      exists_ (fs w) (cache_dir // name_of ref_file) = true /\
      from_cache (fs w) (cache_dir // name_of ref_file) = Ret marketplace /\
      name = marketplace_name marketplace_ref.
Proof.
  unfold get_enabled_marketplaces. unfold bind at 1. unfold read_fs at 1.
  cbv beta iota. set (ref_files := glob_yml (fs w) market_dir).
  assert (loop : forall rest acc,
            (forall marketplace name,
               In (marketplace, name) acc ->
               exists ref_file marketplace_ref,
                 In ref_file ref_files /\
                 from_reference (fs w) ref_file = Ret marketplace_ref /\
                 marketplace_enabled marketplace_ref = true /\
                 exists_ (fs w) (cache_dir // name_of ref_file) = true /\
                 from_cache (fs w) (cache_dir // name_of ref_file) = Ret marketplace /\
                 name = marketplace_name marketplace_ref) ->
            (forall x, In x rest -> In x ref_files) ->
            for_acc rest acc
              (fun marketplaces ref_file =>
                 marketplace_ref <- try_read_fs (fun f => from_reference f ref_file) ;;
                 if negb (marketplace_enabled marketplace_ref) then ret marketplaces
                 else
                   let cache_file := cache_dir // name_of ref_file in
                   found <- read_fs (fun f => exists_ f cache_file) ;;
                   if negb found then ret marketplaces
                   else
                     marketplace <- try_read_fs (fun f => from_cache f cache_file) ;;
                     ret (marketplaces ++ [(marketplace, marketplace_name marketplace_ref)])%list)
              w = (Ret marketplaces, w') ->
            w' = w /\
            forall marketplace name,
              In (marketplace, name) marketplaces ->
              exists ref_file marketplace_ref,
                In ref_file ref_files /\
                from_reference (fs w) ref_file = Ret marketplace_ref /\
                marketplace_enabled marketplace_ref = true /\
                exists_ (fs w) (cache_dir // name_of ref_file) = true /\
                from_cache (fs w) (cache_dir // name_of ref_file) = Ret marketplace /\
                name = marketplace_name marketplace_ref).
  { induction rest as [|x rest IH]; intros acc sound within; cbn [for_acc].
    - unfold ret. intros run. inversion run; subst. split; [reflexivity | exact sound].
    - unfold bind at 1. cbv zeta. unfold bind at 1. unfold try_read_fs at 1.
      destruct (from_reference (fs w) x) as [marketplace_ref|e] eqn:referred;
        [| discriminate].
      destruct (marketplace_enabled marketplace_ref) eqn:enabled; cbn [negb].
      2: { unfold ret at 1. apply IH; [exact sound |]. intros y Hy. apply within. now right. }
      unfold bind at 1. unfold read_fs at 1.
      destruct (exists_ (fs w) (cache_dir // name_of x)) eqn:cached; cbn [negb].
      2: { unfold ret at 1. apply IH; [exact sound |]. intros y Hy. apply within. now right. }
      unfold bind at 1. unfold try_read_fs at 1.
      destruct (from_cache (fs w) (cache_dir // name_of x)) as [marketplace|e] eqn:read;
        [| discriminate].
      unfold ret at 1. apply IH; [| intros y Hy; apply within; now right].
      intros m n mem. apply in_app_or in mem. destruct mem as [old|[new|[]]].
      + now apply sound.
      + inversion new; subst. exists x, marketplace_ref.
        split; [apply within; now left |]. repeat split; assumption. }
  apply loop; [intros m n [] | auto].
Qed.

(** X20. [get_enabled_marketplaces] only reads, and returns nothing but
    cached catalogs of enabled references: the world is unchanged (a
    disabled reference and a missing cache file are passed over without a
    word), and every pair it returns is the catalog read from the cache
    file named like an enabled reference file of [market_dir], with the
    name taken from the reference, not from the cache. *)
Theorem enabled_marketplaces_are_enabled_and_cached
    market_dir cache_dir w marketplaces w' :
  get_enabled_marketplaces market_dir cache_dir w = (Ret marketplaces, w') ->
  w' = w /\
  forall marketplace name,
    In (marketplace, name) marketplaces ->
    exists ref_file marketplace_ref,
      In ref_file (glob_yml (fs w) market_dir) /\
      from_reference (fs w) ref_file = Ret marketplace_ref /\
      marketplace_enabled marketplace_ref = true /\
      exists_ (fs w) (cache_dir // name_of ref_file) = true /\
      from_cache (fs w) (cache_dir // name_of ref_file) = Ret marketplace /\
      name = marketplace_name marketplace_ref.
Proof. apply enabled_marketplaces_returns. Qed.

Lemma inner_search_loop query_lower name modules :
  forall results,
    fold_left
      (fun results module =>
         if match_module module query_lower
         then (results ++ [format_search_result module name])%list
         else results)
      modules results
    = (results
       ++ map (fun module => format_search_result module name)
            (filter (fun module => match_module module query_lower) modules))%list.
Proof.
  induction modules as [|module modules IH]; intros results; cbn [fold_left filter].
  - now rewrite app_nil_r.
  - rewrite IH. destruct (match_module module query_lower); cbn [map]; [| reflexivity].
    now rewrite <- app_assoc.
Qed.

Lemma outer_search_loop query_lower marketplaces :
  forall results,
    fold_left
      (fun results '(marketplace, name) =>
         fold_left
           (fun results module =>
              if match_module module query_lower
              then (results ++ [format_search_result module name])%list
              else results)
           (marketplace_modules marketplace) results)
      marketplaces results
    = (results
       ++ flat_map
            (fun '(marketplace, name) =>
               map (fun module => format_search_result module name)
                 (filter (fun module => match_module module query_lower)
                    (marketplace_modules marketplace)))
            marketplaces)%list.
Proof.
  induction marketplaces as [|[marketplace name] marketplaces IH]; intros results;
    cbn [fold_left flat_map].
  - now rewrite app_nil_r.
  - rewrite IH, inner_search_loop. now rewrite <- app_assoc.
Qed.

(** X21. [search_market] is sound and complete over the enabled
    marketplaces, and only reads: when it returns, the world is
    unchanged, and a result is in the list exactly when it is the formatted
    form of a module of one of the marketplaces [get_enabled_marketplaces]
    returns that matches the lower-cased query, under the name of that
    marketplace's reference. *)
Theorem search_returns_the_matching_modules query market_dir cache_dir w results w' :
  search_market query market_dir cache_dir w = (Ret results, w') ->
  w' = w /\
  exists marketplaces,
    get_enabled_marketplaces market_dir cache_dir w = (Ret marketplaces, w) /\
    forall result,
      In result results <->
      exists marketplace name module,
        In (marketplace, name) marketplaces /\
        In module (marketplace_modules marketplace) /\
        match_module module (lower query) = true /\
        result = format_search_result module name.
Proof.
  unfold search_market. unfold bind at 1.
  destruct (get_enabled_marketplaces market_dir cache_dir w) as [[marketplaces|e] w1]
    eqn:enabled; [| discriminate].
  destruct (enabled_marketplaces_returns _ _ _ _ _ enabled) as [-> _].
  cbv zeta. unfold ret. intros run. inversion run as [[found]]. clear run.
  split; [reflexivity |]. exists marketplaces. split; [reflexivity |].
  intros result. rewrite outer_search_loop. cbn [app]. rewrite in_flat_map. split.
  - intros [[marketplace name] [mem shown]]. apply in_map_iff in shown.
    destruct shown as [module [<- kept]]. apply filter_In in kept.
    exists marketplace, name, module. tauto.
  - intros (marketplace & name & module & mem & listed & matched & ->).
    exists (marketplace, name). split; [exact mem |]. apply in_map_iff.
    exists module. split; [reflexivity |]. apply filter_In. now split.
Qed.

End MarketSearch.

(** ** The further properties on the small platform *)

Lemma skill_path_treats_other_scopes_as_user_witness :
  "global" <> "project" /\
  Config.get_assistant_skill_path (L := Sim.paths) "cursor" "global" (Some "/tmp/proj")
  = Config.get_assistant_skill_path (L := Sim.paths) "cursor" "user" None.
Proof.
  assert (other : "global" <> "project") by discriminate.
  split; [exact other |].
  exact (skill_path_treats_other_scopes_as_user (L := Sim.paths)
           "cursor" "global" (Some "/tmp/proj") None other).
Defined.

Lemma unresolved_skill_path_is_reported_witness :
  let w := Sim.start Sim.docgen_tree [] [] in
  skills docgen <> [] /\
  Config.get_assistant_skill_path (L := Sim.paths) "claude-code" "project" None
  = Raise (ValueError "Project path required for project scope") /\
  Installer.install_skills (L := Sim.paths) docgen "claude-code" "project" None
    "/home/u/.lola/modules/docgen" w
  = (Ret [], with_lines w [Print "[red]Project path required for project scope[/red]"]).
Proof.
  intros w.
  assert (has_skills : skills docgen <> []) by discriminate.
  assert (failed : Config.get_assistant_skill_path (L := Sim.paths) "claude-code" "project" None
                   = Raise (ValueError "Project path required for project scope"))
    by reflexivity.
  split; [exact has_skills |]. split; [exact failed |].
  exact (unresolved_skill_path_is_reported (L := Sim.paths) (P := Sim.platform)
           docgen "claude-code" "project" None "/home/u/.lola/modules/docgen" w
           "Project path required for project scope" has_skills failed).
Defined.

Lemma install_count_is_bounded_by_the_module_witness :
  let w := Sim.start Sim.docgen_tree [] [] in
  let run :=
    Installer.install_to_assistant (L := Sim.paths) docgen "claude-code" "project"
      (Some "/tmp/proj") "/tmp/proj/.lola/modules" w in
  run = (Ret 2, snd run) /\
  2 <= length (skills docgen) + length (commands docgen).
Proof.
  intros w run.
  assert (returned : run = (Ret 2, snd run)) by (vm_compute; reflexivity).
  split; [exact returned |].
  exact (install_count_is_bounded_by_the_module (L := Sim.paths) (P := Sim.platform)
           docgen "claude-code" "project" (Some "/tmp/proj") "/tmp/proj/.lola/modules"
           w 2 (snd run) returned).
Defined.

Lemma installed_skill_names_identify_their_skill_witness :
  let w := Sim.start Sim.docgen_tree [] [] in
  let run :=
    Installer.install_skills (L := Sim.paths) docgen "claude-code" "user" None
      "/home/u/.lola/modules/docgen" w in
  run = (Ret ["docgen-summarize"], snd run) /\
  In "docgen-summarize" ["docgen-summarize"] /\
  exists skill_rel,
    In skill_rel (skills docgen) /\
    "docgen-summarize" = prefixed_name (name docgen) (name_of (PathLib := Sim.paths) skill_rel) /\
    original_skill (name docgen) "docgen-summarize" = name_of (PathLib := Sim.paths) skill_rel.
Proof.
  intros w run.
  assert (returned : run = (Ret ["docgen-summarize"], snd run)) by (vm_compute; reflexivity).
  assert (listed : In "docgen-summarize" ["docgen-summarize"]) by now left.
  split; [exact returned |]. split; [exact listed |].
  exact (installed_skill_names_identify_their_skill (L := Sim.paths) (P := Sim.platform)
           docgen "claude-code" "user" None "/home/u/.lola/modules/docgen"
           w ["docgen-summarize"] (snd run) returned "docgen-summarize" listed).
Defined.

Lemma install_stops_at_an_unusable_module_witness :
  let w := Sim.start Sim.base_tree [] [] in
  on_fs (ensure_lola_dirs (Platform := Sim.platform)) w = (Ret tt, w) /\
  Cli.validate_project_path (L := Sim.paths) "user" None w = (Ret None, w) /\
  exists_ (Platform := Sim.platform) (fs w) "/home/u/.lola/modules/ghost" = false /\
  Cli.install_cmd (L := Sim.paths) "ghost" None "user" None w
  = (Raise (SystemExit 1),
     with_lines w
       [ Print "[red]Module 'ghost' not found in registry[/red]";
         Print "Use 'lola mod ls' to see available modules";
         Print "Use 'lola mod add <source>' to add a module" ]).
Proof.
  intros w.
  assert (ensured : on_fs (ensure_lola_dirs (Platform := Sim.platform)) w = (Ret tt, w))
    by reflexivity.
  assert (validated : Cli.validate_project_path (L := Sim.paths) "user" None w = (Ret None, w))
    by reflexivity.
  assert (missing : exists_ (Platform := Sim.platform) (fs w) "/home/u/.lola/modules/ghost"
                    = false) by reflexivity.
  split; [exact ensured |]. split; [exact validated |]. split; [exact missing |].
  exact (proj1 (install_stops_at_an_unusable_module (L := Sim.paths) (P := Sim.platform)
                  "ghost" None "user" None w w None ensured validated) missing).
Defined.

Lemma install_summary_counts_assistants_witness :
  let w := Sim.start Sim.skill_only_tree [] [] in
  let run := Cli.install_cmd (L := Sim.paths) "docgen" (Some "gemini-cli") "user" None w in
  run = (Ret tt, snd run) /\
  registry (snd run) = [] /\
  exists before line,
    console (snd run) = (before ++ [Print line])%list /\
    (line = "[yellow]Module 'docgen' has no skills or commands defined[/yellow]" \/
     line = "[bold green]Installed to 1 assistant(s)[/bold green]").
Proof.
  intros w run.
  assert (returned : run = (Ret tt, snd run)) by (vm_compute; reflexivity).
  split; [exact returned |]. split; [reflexivity |].
  exact (install_summary_counts_assistants (L := Sim.paths) (P := Sim.platform)
           "docgen" (Some "gemini-cli") "user" None w (snd run) returned).
Defined.

Lemma uninstall_without_a_match_only_reports_witness :
  let w := Sim.start Sim.base_tree [claude_record] [] in
  on_fs (ensure_lola_dirs (Platform := Sim.platform)) w = (Ret tt, w) /\
  registry_find "docgen" (registry w) <> [] /\
  Cli.uninstall_matches (L := Sim.paths) (fs w) (Some "cursor") None None
    (registry_find "docgen" (registry w)) = [] /\
  Cli.uninstall_cmd (L := Sim.paths) "docgen" (Some "cursor") None None false w
  = (Ret tt, with_lines w [Print "[yellow]No matching installations found[/yellow]"]).
Proof.
  intros w.
  assert (ensured : on_fs (ensure_lola_dirs (Platform := Sim.platform)) w = (Ret tt, w))
    by reflexivity.
  assert (recorded : registry_find "docgen" (registry w) <> []) by discriminate.
  assert (no_match : Cli.uninstall_matches (L := Sim.paths) (fs w) (Some "cursor") None None
                       (registry_find "docgen" (registry w)) = []) by reflexivity.
  split; [exact ensured |]. split; [exact recorded |]. split; [exact no_match |].
  exact (proj2 (uninstall_without_a_match_only_reports (L := Sim.paths) (P := Sim.platform)
                  "docgen" (Some "cursor") None None false w w ensured) recorded no_match).
Defined.

Lemma update_without_a_selection_only_reports_witness :
  let w := Sim.start Sim.base_tree [claude_record] [] in
  on_fs (ensure_lola_dirs (Platform := Sim.platform)) w = (Ret tt, w) /\
  module_name claude_record <> "other" /\
  Cli.update_cmd (L := Sim.paths) (Some "other") None w
  = (Ret tt, with_lines w [Print "[yellow]No installations to update[/yellow]"]).
Proof.
  intros w.
  assert (ensured : on_fs (ensure_lola_dirs (Platform := Sim.platform)) w = (Ret tt, w))
    by reflexivity.
  assert (differs : module_name claude_record <> "other") by discriminate.
  split; [exact ensured |]. split; [exact differs |].
  apply (update_without_a_selection_only_reports (L := Sim.paths) (P := Sim.platform)
           (Some "other") None w w ensured).
  intros i [<-|[]]. left. exists "other".
  split; [reflexivity |]. split; [discriminate | exact differs].
Defined.

Lemma refresh_of_an_unusable_module_only_reports_witness :
  let w := Sim.start Sim.base_tree [claude_record] [] in
  exists_ (Platform := Sim.platform) (fs w)
    (joinpath (PathLib := Sim.paths) (Config.MODULES_DIR (L := Sim.paths))
       (module_name claude_record)) = false /\
  fst (Cli.refresh_installation (L := Sim.paths) claude_record w) = Ret tt /\
  printed w (snd (Cli.refresh_installation (L := Sim.paths) claude_record w)).
Proof.
  intros w.
  assert (missing : exists_ (Platform := Sim.platform) (fs w)
                      (joinpath (PathLib := Sim.paths) (Config.MODULES_DIR (L := Sim.paths))
                         (module_name claude_record))
                    = false) by reflexivity.
  split; [exact missing |].
  exact (refresh_of_an_unusable_module_only_reports (L := Sim.paths) (P := Sim.platform)
           claude_record w (or_introl missing)).
Defined.

Lemma update_replays_the_skill_installation_witness :
  let w := Sim.start Sim.docgen_tree [] [] in
  module_name claude_record = name docgen /\
  inst_skills claude_record
  = map (fun skill_rel =>
           prefixed_name (name docgen) (name_of (PathLib := Sim.paths) skill_rel))
        (skills docgen) /\
  replays (fun _ _ => True)
    (Installer.install_file_skills (L := Sim.paths) docgen "claude-code"
       "/home/u/.lola/modules/docgen" "/tmp/proj/.claude/skills" (Some "/tmp/proj") w)
    (Cli.update_file_skills (L := Sim.paths) claude_record
       "/home/u/.lola/modules/docgen" "/tmp/proj/.claude/skills" w).
Proof.
  intros w.
  assert (named : module_name claude_record = name docgen) by reflexivity.
  assert (recorded :
            inst_skills claude_record
            = map (fun skill_rel =>
                     prefixed_name (name docgen) (name_of (PathLib := Sim.paths) skill_rel))
                  (skills docgen)) by reflexivity.
  split; [exact named |]. split; [exact recorded |].
  exact (update_replays_the_skill_installation (L := Sim.paths) (P := Sim.platform)
           docgen claude_record "/home/u/.lola/modules/docgen" "/tmp/proj/.claude/skills"
           w named recorded).
Defined.

Lemma update_replays_the_command_installation_witness :
  let w := Sim.start Sim.docgen_tree [] [] in
  let v := with_lines w [Print "[cyan]docgen[/cyan] -> claude-code"] in
  module_name claude_record = name docgen /\
  inst_commands claude_record = commands docgen /\
  fs v = fs w /\ registry v = registry w /\
  replays_on_disk
    (Installer.install_commands (L := Sim.paths) docgen "claude-code" "project"
       (Some "/tmp/proj") "/home/u/.lola/modules/docgen" w)
    (Cli.update_commands (L := Sim.paths) claude_record "/home/u/.lola/modules/docgen" v).
Proof.
  intros w v.
  assert (named : module_name claude_record = name docgen) by reflexivity.
  assert (recorded : inst_commands claude_record = commands docgen) by reflexivity.
  assert (same_fs : fs v = fs w) by reflexivity.
  assert (same_reg : registry v = registry w) by reflexivity.
  split; [exact named |]. split; [exact recorded |].
  split; [exact same_fs |]. split; [exact same_reg |].
  exact (update_replays_the_command_installation (L := Sim.paths) (P := Sim.platform)
           docgen claude_record "/home/u/.lola/modules/docgen" w v
           named recorded same_fs same_reg).
Defined.

Lemma listing_only_prints_witness :
  let w := Sim.start Sim.base_tree [claude_record] [] in
  on_fs (ensure_lola_dirs (Platform := Sim.platform)) w = (Ret tt, w) /\
  exists lines,
    Listing.list_installed_cmd (P := Sim.platform) None w = (Ret tt, with_lines w lines) /\
    Forall is_print lines /\
    (registry w = [] ->
     lines = [ Print "[yellow]No modules installed[/yellow]"; Print "";
               Print "Install modules with:"; Print "  lola install <module>" ]).
Proof.
  intros w.
  assert (ensured : on_fs (ensure_lola_dirs (Platform := Sim.platform)) w = (Ret tt, w))
    by reflexivity.
  split; [exact ensured |].
  exact (listing_only_prints (P := Sim.platform) None w w ensured).
Defined.

Lemma enabled_marketplaces_are_enabled_and_cached_witness :
  let w := Sim.start SimMarket.market_tree [] [] in
  Market.get_enabled_marketplaces (L := Sim.paths) (S := SimMarket.search_lib)
    SimMarket.market_dir SimMarket.cache_dir w
  = (Ret [(SimMarket.official_catalog, "official")], w) /\
  exists ref_file marketplace_ref,
    In ref_file (SimMarket.yml_files (fs w) SimMarket.market_dir) /\
    SimMarket.read_reference (fs w) ref_file = Ret marketplace_ref /\
    SimMarket.catalog_enabled marketplace_ref = true /\
    SimMarket.read_cache (fs w)
      (joinpath (PathLib := Sim.paths) SimMarket.cache_dir
         (name_of (PathLib := Sim.paths) ref_file))
    = Ret SimMarket.official_catalog /\
    "official" = SimMarket.catalog_name marketplace_ref.
Proof.
  intros w.
  assert (returned :
            Market.get_enabled_marketplaces (L := Sim.paths) (S := SimMarket.search_lib)
              SimMarket.market_dir SimMarket.cache_dir w
            = (Ret [(SimMarket.official_catalog, "official")], w)) by reflexivity.
  split; [exact returned |].
  destruct (proj2 (enabled_marketplaces_are_enabled_and_cached
                     (L := Sim.paths) (P := Sim.platform) (S := SimMarket.search_lib)
                     SimMarket.market_dir SimMarket.cache_dir
                     w [(SimMarket.official_catalog, "official")] w returned)
              SimMarket.official_catalog "official" (or_introl eq_refl))
    as (ref_file & marketplace_ref & listed & referred & enabled & _ & cached & named).
  exists ref_file, marketplace_ref. repeat split; assumption.
Defined.

Lemma search_returns_the_matching_modules_witness :
  let w := Sim.start SimMarket.market_tree [] [] in
  let found := Market.mkSearchResult "git-tools" "Git helpers" "1.0.0" "official" in
  Market.search_market (L := Sim.paths) (S := SimMarket.search_lib) "GIT"
    SimMarket.market_dir SimMarket.cache_dir w
  = (Ret [found], w) /\
  exists marketplace name module,
    In module (SimMarket.catalog_modules marketplace) /\
    Market.match_module (S := SimMarket.search_lib) module "git" = true /\
    found = Market.format_search_result module name.
Proof.
  intros w found.
  assert (returned :
            Market.search_market (L := Sim.paths) (S := SimMarket.search_lib) "GIT"
              SimMarket.market_dir SimMarket.cache_dir w
            = (Ret [found], w)) by reflexivity.
  split; [exact returned |].
  destruct (proj2 (search_returns_the_matching_modules
                     (L := Sim.paths) (P := Sim.platform) (S := SimMarket.search_lib)
                     "GIT" SimMarket.market_dir SimMarket.cache_dir w [found] w returned))
    as (marketplaces & _ & sound).
  destruct (proj1 (sound found) (or_introl eq_refl))
    as (marketplace & name & module & _ & listed & matched & formatted).
  exists marketplace, name, module. repeat split; assumption.
Defined.

Lemma user_scope_skills_are_skipped_witness :
  let w := Sim.start Sim.docgen_tree [] [] in
  let run :=
    Installer.install_skills (L := Sim.paths) docgen "cursor" "user" None
      "/home/u/.lola/modules/docgen" w in
  ("cursor" = "gemini-cli" \/ "cursor" = "cursor") /\
  fst run = Ret [] /\ printed w (snd run).
Proof.
  intros w run.
  assert (tool : "cursor" = "gemini-cli" \/ "cursor" = "cursor") by now right.
  split; [exact tool |].
  exact (user_scope_skills_are_skipped (L := Sim.paths) (P := Sim.platform)
           docgen "cursor" None "/home/u/.lola/modules/docgen" w tool).
Defined.

Lemma copy_returns_the_destination_witness :
  let w := Sim.start Sim.docgen_tree [] [] in
  let run :=
    Installer.copy_module_to_local (L := Sim.paths) docgen "/tmp/proj/.lola/modules" w in
  run = (Ret "/tmp/proj/.lola/modules/docgen", snd run) /\
  fs (snd run) <> fs w /\
  "/tmp/proj/.lola/modules/docgen"
  = joinpath (PathLib := Sim.paths) "/tmp/proj/.lola/modules" (name docgen) /\
  console (snd run) = console w /\ registry (snd run) = registry w /\
  replies (snd run) = replies w.
Proof.
  intros w run.
  assert (returned : run = (Ret "/tmp/proj/.lola/modules/docgen", snd run))
    by (vm_compute; reflexivity).
  split; [exact returned |]. split; [vm_compute; discriminate |].
  exact (copy_returns_the_destination (L := Sim.paths) (P := Sim.platform)
           docgen "/tmp/proj/.lola/modules" w "/tmp/proj/.lola/modules/docgen" (snd run)
           returned).
Defined.
